(** * Kalshi alpha suite: signal producers, Kelly sizing, order routing

    A shallow embedding of the signal-and-execution engine of the
    repository (packages [kalshi_alpha_suite] and [kalshi_client]) and the
    properties of its specification.

    Conventions of the embedding.

    - Python [float] values are idealised as exact rationals ([Q]);
      infinities and NaN are outside the model.  Equality of such values
      is [Qeq] ([==]).  The rounding error of binary64 arithmetic is left
      out where a result stays a real quantity, and is modelled where the
      code truncates a float to an integer ([build_order]): there each
      operation returns the double nearest to its exact result ([b64]).
    - Python [int] values are [Z].  Where the code turns a number of a
      decoded document into a float ([float(v)], [v / 100]), a number
      beyond the range of a float raises OverflowError as in Python.
      The integer fields of the typed records (prices and sizes in
      cents) are taken within that range.
    - A call that may raise returns a [result]: [Ok v] or [Raise e].
    - I/O (HTTP exchange, sleeping, the journal file) is explicit state
      passing over a [World] record; what the outside answers is an input
      of the model.  Log records are kept where the specification speaks
      of them (the news analyzer).
    - One module per Python module, with the names of the source. *)

From Stdlib Require Import ZArith QArith Qround Qabs Qminmax Qpower.
From Stdlib Require Import Bool List String Lia Lqa.
Import ListNotations.

Local Open Scope string_scope.
Local Open Scope list_scope.
Local Open Scope Q_scope.

(* ================================================================== *)
(** * Python runtime values and primitives *)
(* ================================================================== *)

Module Py.

(** A decoded JSON document ([json.loads], [resp.json()]).  An object is
    the list of items of the resulting [dict] (keys are distinct). *)
#[warnings="-register-all"]
Inductive json : Type :=
| JNull
| JBool (b : bool)
| JNum (q : Q)
| JStr (s : string)
| JArr (items : list json)
| JObj (fields : list (string * json)).

(** The exceptions that the modelled code raises or catches. *)
Inductive exn : Type :=
| ZeroDivisionError
| ValueError
| TypeError
| KeyError
| AttributeError
| IndexError
| OverflowError
| RecursionError
| UnboundLocalError
| ConnectionError
| JSONDecodeError
| HTTPStatusError (status : Z)        (* httpx, from raise_for_status *)
| KalshiAPIError (status : Z) (body : json)
| KalshiRateLimitError.

Inductive result (A : Type) : Type :=
| Ok (a : A)
| Raise (e : exn).
Arguments Ok {A} a.
Arguments Raise {A} e.

Definition bind {A B} (c : result A) (k : A -> result B) : result B :=
  match c with
  | Ok a => k a
  | Raise e => Raise e
  end.

Definition is_ok {A} (c : result A) : bool :=
  match c with Ok _ => true | Raise _ => false end.

(** [x < y] on floats. *)
Definition Qltb (x y : Q) : bool := negb (Qle_bool y x).

(** [x / y]: raises [ZeroDivisionError] on a zero divisor. *)
Definition fdiv (x y : Q) : result Q :=
  if Qeq_bool y 0 then Raise ZeroDivisionError else Ok (x / y).

(** [max(a, b)] and [min(a, b)]: the first argument wins ties. *)
Definition py_max (a b : Q) : Q := if Qltb a b then b else a.
Definition py_min (a b : Q) : Q := if Qltb b a then b else a.

(** [int(x)]: truncation toward zero. *)
Definition py_int (x : Q) : Z := Z.quot (Qnum x) (Zpos (Qden x)).

(** [round(x)]: nearest integer, ties to the even one. *)
Definition py_round (x : Q) : Z :=
  let f := Qfloor x in
  match Qcompare (x - inject_Z f) (1 # 2) with
  | Lt => f
  | Gt => (f + 1)%Z
  | Eq => if Z.even f then f else (f + 1)%Z
  end.

(** [round(x, ndigits)]. *)
Definition py_round_nd (x : Q) (ndigits : nat) : Q :=
  let scale := inject_Z (10 ^ Z.of_nat ndigits) in
  inject_Z (py_round (x * scale)) / scale.

(** [d.get(key)] on the items of a dict. *)
Fixpoint dict_get (fields : list (string * json)) (key : string) : option json :=
  match fields with
  | [] => None
  | (k, v) :: rest => if String.eqb k key then Some v else dict_get rest key
  end.

(** Truth value of a decoded value ([x or y], [if x]). *)
Definition truthy (v : json) : bool :=
  match v with
  | JNull => false
  | JBool b => b
  | JNum q => negb (Qeq_bool q 0)
  | JStr s => negb (String.eqb s EmptyString)
  | JArr items => match items with [] => false | _ => true end
  | JObj fields => match fields with [] => false | _ => true end
  end.

(** [v[0]]. *)
Definition subscript0 (v : json) : result json :=
  match v with
  | JArr (x :: _) => Ok x
  | JArr [] => Raise IndexError
  | JStr (String c _) => Ok (JStr (String c EmptyString))
  | JStr EmptyString => Raise IndexError
  | JObj _ => Raise KeyError
  | _ => Raise TypeError
  end.

(** [floor(log2 |x|)] of a non-zero [x]. *)
Definition Qlog2 (x : Q) : Z :=
  let n := Z.abs (Qnum x) in
  let d := Zpos (Qden x) in
  let k := (Z.log2 n - Z.log2 d)%Z in
  if (0 <=? k)%Z
  then (if (d * 2 ^ k <=? n)%Z then k else k - 1)%Z
  else (if (d <=? n * 2 ^ (- k))%Z then k else k - 1)%Z.

(** The binary exponent of the last place of a double of the size of
    [x]: 52 places below the leading bit, and never below the last place
    of the subnormal numbers. *)
Definition ulp_exponent (x : Q) : Z := Z.max (-1074) (Qlog2 x - 52).

(** The double nearest to [x], ties to the even significand.  The
    exponent range is not bounded above: an overflow to infinity is
    outside the model. *)
Definition b64 (x : Q) : Q :=
  let unit := 2 ^ ulp_exponent x in
  inject_Z (py_round (x / unit)) * unit.

(** [x * y] and [x / y] in binary64: the double nearest to the exact
    result on the doubles that the operands stand for. *)
Definition float_mul (x y : Q) : Q := b64 (b64 x * b64 y).

Definition float_truediv (x y : Q) : result Q :=
  if Qeq_bool (b64 y) 0 then Raise ZeroDivisionError
  else Ok (b64 (b64 x / b64 y)).

(** The least magnitude that does not round to a finite double:
    [2^1024 - 2^970]. *)
Definition float_overflow : Q := inject_Z (2 ^ 1024 - 2 ^ 970).

Section Float.

(** [float(s)] on a text: [None] is ValueError.  The conversion of
    texts is Python's and is left open. *)
Variable float_of_str : string -> option Q.

(** [float(v)].  A number as large as [float_overflow] is a Python
    [int] (no finite float is that large), and [float()] of it raises
    OverflowError. *)
Definition py_float (v : json) : result Q :=
  match v with
  | JNum q =>
      if Qle_bool float_overflow (Qabs q) then Raise OverflowError else Ok q
  | JBool b => Ok (if b then 1 else 0)
  | JStr s =>
      match float_of_str s with
      | Some q => Ok q
      | None => Raise ValueError
      end
  | _ => Raise TypeError
  end.

End Float.

(** [v / 100] on a decoded value: numbers and booleans divide, anything
    else raises TypeError.  A quotient as large as [float_overflow] can
    only come from a Python [int], and the division of it raises
    OverflowError. *)
Definition truediv100 (v : json) : result Q :=
  match v with
  | JNum q =>
      if Qle_bool float_overflow (Qabs (q / 100)) then Raise OverflowError
      else Ok (q / 100)
  | JBool b => Ok ((if b then 1 else 0) / 100)
  | _ => Raise TypeError
  end.

End Py.

Import Py.

Declare Scope result_scope.
Delimit Scope result_scope with result.
Notation "x <- c ;; k" := (Py.bind c (fun x => k))
  (at level 61, c at next level, right associativity) : result_scope.
Local Open Scope result_scope.

(* ================================================================== *)
(** * kalshi_alpha_suite/models.py *)
(* ================================================================== *)

Module models.

Inductive Side : Type := YES | NO.

Inductive SignalSource : Type := ORDERBOOK | NLP | ARBITRAGE.

(** [Side.value] and [SignalSource.value]. *)
Definition Side_value (s : Side) : string :=
  match s with YES => "yes" | NO => "no" end.

Definition SignalSource_value (s : SignalSource) : string :=
  match s with
  | ORDERBOOK => "orderbook"
  | NLP => "nlp"
  | ARBITRAGE => "arbitrage"
  end.

(** The creation instant of a snapshot or of a signal is read by no
    function below and is left out of the two records. *)
Record OrderbookSnapshot : Type := {
  snap_ticker : string;
  best_yes_bid : Z;
  best_no_bid : Z;
  synthetic_yes_ask : Z;
  spread_cents : Z
}.

(** The human-readable rationale, kept as the data that the f-string of
    each producer formats. *)
Inductive Rationale : Type :=
| RationaleText (text : string)
| RationaleVoid (spread bid ask stink_bid : Z)
| RationaleArb (kalshi external f_star : Q)
| RationaleNLP (feed_name : string) (text : json).

Record Signal : Type := {
  source : SignalSource;
  ticker : string;
  side : Side;
  implied_prob : Q;
  estimated_fair_prob : Q;
  edge : Q;
  confidence : Q;
  rationale : Rationale
}.

Record KellyResult : Type := {
  optimal_fraction : Q;
  position_size_usd : Q;
  net_ev : Q;
  should_trade : bool
}.

Record TradeOrder : Type := {
  order_ticker : string;
  order_side : Side;
  contracts : Z;
  limit_price_cents : Z;
  signal : Signal;
  kelly : KellyResult;
  paper : bool;
  order_id : option json;
  fill_price_cents : option Z;
  order_timestamp : string   (* the instant, by its ISO-8601 text *)
}.

(** [OrderbookSnapshot.has_liquidity_void]. *)
Definition has_liquidity_void (snap : OrderbookSnapshot) : bool :=
  (0 <? spread_cents snap)%Z.

End models.

Import models.

(* ================================================================== *)
(** * kalshi_alpha_suite/config.py *)
(* ================================================================== *)

Module config.

Record SuiteConfig : Type := {
  paper_trading : bool;
  kalshi_fee_rate : Q;
  spread_threshold_cents : Z;
  kelly_edge_min : Q;
  nlp_prob_shift_min : Q;
  max_position_usd : Q;
  kelly_fraction : Q
}.

(** The defaults of the environment variables. *)
Definition load_config : SuiteConfig := {|
  paper_trading := true;
  kalshi_fee_rate := 7 # 100;
  spread_threshold_cents := 3;
  kelly_edge_min := 5 # 100;
  nlp_prob_shift_min := 10 # 100;
  max_position_usd := 500;
  kelly_fraction := 25 # 100
|}.

End config.

(* ================================================================== *)
(** * The outside world: exchange, sleeping, the trade journal *)
(* ================================================================== *)

Module world.

(** What [resp.headers.get("Retry-After")] holds, by what
    [int(retry_after) if retry_after else 2] makes of it. *)
Inductive RetryAfterHeader : Type :=
| RA_missing                (* no such header: [None] *)
| RA_empty                  (* the empty text, falsy *)
| RA_int (seconds : Z)      (* a text that [int()] converts *)
| RA_other.                 (* any other text: [int()] raises ValueError *)

(** An HTTP response; [body] is what [resp.json()] returns or raises. *)
Record Response : Type := {
  status_code : Z;
  retry_after : RetryAfterHeader;
  body : result json;
  text : string
}.

(** One line of [paper_trades.jsonl]: the dict that [json.dumps] writes,
    field by field. *)
Record JournalRecord : Type := {
  j_timestamp : string;
  j_ticker : string;
  j_side : string;
  j_contracts : Z;
  j_limit_price_cents : Z;
  j_fill_price_cents : option Z;
  j_kelly_f_star : Q;
  j_position_usd : Q;
  j_net_ev : Q;
  j_source : string;
  j_rationale : Rationale;
  j_paper : bool
}.

Record Request : Type := {
  req_method : string;
  req_path : string;
  req_json : option json
}.

(** The class of a private key that the [cryptography] library loads. *)
Inductive KeyClass : Type := Ed25519Key | OtherKey.

(** What [base64.b64decode] and the key loaders make of the setting
    [kalshi_private_key_b64]. *)
Inductive B64Payload : Type :=
| BadBase64                      (* [b64decode] raises binascii.Error,
                                    a ValueError *)
| PemPayload (loaded : KeyClass) (* [load_pem_private_key] accepts the
                                    decoded bytes *)
| SeedPayload (usable : bool).   (* not PEM; [from_private_bytes] takes
                                    the first 32 bytes, or raises
                                    ValueError when there are fewer *)

(** The private key that the configuration names, by what the file
    system and the libraries make of it. *)
Inductive KeyMaterial : Type :=
| KeyFile (loaded : result KeyClass)
    (* [kalshi_private_key_path] is set: the outcome of [open], [read]
       and [load_pem_private_key] *)
| KeyB64 (payload : B64Payload)
    (* otherwise [kalshi_private_key_b64] is set *)
| KeyUnset.
    (* both settings are empty, as by default *)

(** [key_material] is the configured private key.
    [pending] is what the exchange will answer to the coming requests,
    in order ([Raise] is a transport failure; so is running out of
    answers).  [sent], [sleeps] and [journal] grow at their end: the
    requests sent, the arguments of [time.sleep], and the lines of
    [paper_trades.jsonl]. *)
Record World : Type := {
  key_material : KeyMaterial;
  pending : list (result Response);
  sent : list Request;
  sleeps : list Z;
  journal : list JournalRecord
}.

Definition send (rq : Request) (w : World) : result Response * World :=
  match pending w with
  | [] =>
      (Raise ConnectionError,
       {| key_material := key_material w;
          pending := []; sent := sent w ++ [rq];
          sleeps := sleeps w; journal := journal w |})
  | answer :: rest =>
      (answer,
       {| key_material := key_material w;
          pending := rest; sent := sent w ++ [rq];
          sleeps := sleeps w; journal := journal w |})
  end.

(** [time.sleep(seconds)]: a negative length raises ValueError.  A
    length of centuries, which [time.sleep] cannot convert to its 64
    bits of nanoseconds, is outside the model. *)
Definition sleep (seconds : Z) (w : World) : result unit * World :=
  if (seconds <? 0)%Z then (Raise ValueError, w)
  else
    (Ok tt,
     {| key_material := key_material w;
        pending := pending w; sent := sent w;
        sleeps := sleeps w ++ [seconds]; journal := journal w |}).

(** [open(path, "a")] and one [f.write(line)]; the write is taken to
    succeed. *)
Definition append_line (line : JournalRecord) (w : World) : World :=
  {| key_material := key_material w;
     pending := pending w; sent := sent w;
     sleeps := sleeps w; journal := journal w ++ [line] |}.

End world.

Import world.

(* ================================================================== *)
(** * kalshi_client/client.py: the gateway with rate-limit retry *)
(* ================================================================== *)

Module kalshi_client.

Definition default_retries : Z := 3.

(** The part of [_request] after a response that is not retried. *)
Definition finish (resp : Response) : result json :=
  if (status_code resp =? 429)%Z then Raise KalshiRateLimitError
  else if (400 <=? status_code resp)%Z then
    let parsed := match body resp with Ok b => b | Raise _ => JObj [] end in
    match parsed with
    | JObj fields =>
        Raise (KalshiAPIError (status_code resp) (JObj fields))
    | _ => Raise AttributeError          (* [body.get] on a non-dict *)
    end
  else if (status_code resp =? 204)%Z then Ok (JObj [])
  else body resp.

(** [wait = int(retry_after) if retry_after else 2]. *)
Definition wait_of (h : RetryAfterHeader) : result Z :=
  match h with
  | RA_missing | RA_empty => Ok 2%Z
  | RA_int n => Ok n
  | RA_other => Raise ValueError
  end.

(** [_request] with [n] retries left; [_retries > 0] is [n = S _].  The
    client holds a loaded RSA key, whose signing is taken to succeed;
    the signature headers are not modelled. *)
Fixpoint request_with (n : nat) (rq : Request) (w : World)
  : result json * World :=
  match send rq w with
  | (Raise e, w1) => (Raise e, w1)
  | (Ok resp, w1) =>
      match n with
      | S n' =>
          if (status_code resp =? 429)%Z then
            match wait_of (retry_after resp) with
            | Raise e => (Raise e, w1)
            | Ok wait =>
                match sleep wait w1 with
                | (Raise e, w2) => (Raise e, w2)
                | (Ok _, w2) => request_with n' rq w2
                end
            end
          else (finish resp, w1)
      | O => (finish resp, w1)
      end
  end.

Definition _request (method endpoint : string) (json_body : option json)
  (_retries : Z) (w : World) : result json * World :=
  request_with (Z.to_nat _retries)
    {| req_method := method; req_path := endpoint; req_json := json_body |} w.

End kalshi_client.

(* ================================================================== *)
(** * kalshi_client/models.py *)
(* ================================================================== *)

Module kalshi_models.

(** [data.get(key, default)]. *)
Definition get_default (fields : list (string * json)) (key : string)
  (default : json) : json :=
  match dict_get fields key with
  | Some v => v
  | None => default
  end.

(** [data.get(key, 0) / 100 if data.get(key) else 0.0]. *)
Definition price_field (fields : list (string * json)) (key : string)
  : result Q :=
  match dict_get fields key with
  | None => Ok 0
  | Some v => if truthy v then truediv100 v else Ok 0
  end.

(** The fields that [from_api] passes through are kept as decoded. *)
Record Market : Type := {
  ticker : json;
  event_ticker : json;
  title : json;
  status : json;
  yes_bid : Q;
  yes_ask : Q;
  no_bid : Q;
  no_ask : Q;
  volume : json;
  open_interest : json;
  last_price : Q;
  market_result : json;
  subtitle : json;
  close_time : json
}.

(** [Market.from_api]; [data.get] on a value that is not a dict raises
    AttributeError. *)
Definition Market_from_api (data : json) : result Market :=
  match data with
  | JObj fields =>
      yb <- price_field fields "yes_bid" ;;
      ya <- price_field fields "yes_ask" ;;
      nb <- price_field fields "no_bid" ;;
      na <- price_field fields "no_ask" ;;
      lp <- price_field fields "last_price" ;;
      Ok {| ticker := get_default fields "ticker" (JStr EmptyString);
            event_ticker :=
              get_default fields "event_ticker" (JStr EmptyString);
            title := get_default fields "title" (JStr EmptyString);
            status := get_default fields "status" (JStr EmptyString);
            yes_bid := yb;
            yes_ask := ya;
            no_bid := nb;
            no_ask := na;
            volume := get_default fields "volume" (JNum 0);
            open_interest := get_default fields "open_interest" (JNum 0);
            last_price := lp;
            market_result := get_default fields "result" (JStr EmptyString);
            subtitle := get_default fields "subtitle" (JStr EmptyString);
            close_time := get_default fields "close_time" (JStr EmptyString) |}
  | _ => Raise AttributeError
  end.

Record OrderBook : Type := {
  book_ticker : string;
  yes_bids : json;
  yes_asks : json;
  no_bids : json;
  no_asks : json
}.

(** [x or default]. *)
Definition or_default (v : option json) (default : json) : json :=
  match v with
  | Some x => if truthy x then x else default
  | None => default
  end.

(** [side.get(key) or []]. *)
Definition side_levels (side_data : json) (key : string) : result json :=
  match side_data with
  | JObj fields => Ok (or_default (dict_get fields key) (JArr []))
  | _ => Raise AttributeError
  end.

(** [OrderBook.from_api]. *)
Definition OrderBook_from_api (ticker : string) (data : json)
  : result OrderBook :=
  match data with
  | JObj fields =>
      let yes_data := or_default (dict_get fields "yes") (JObj []) in
      let no_data := or_default (dict_get fields "no") (JObj []) in
      yb <- side_levels yes_data "bids" ;;
      ya <- side_levels yes_data "asks" ;;
      nb <- side_levels no_data "bids" ;;
      na <- side_levels no_data "asks" ;;
      Ok {| book_ticker := ticker;
            yes_bids := yb; yes_asks := ya;
            no_bids := nb; no_asks := na |}
  | _ => Raise AttributeError
  end.

End kalshi_models.

(* ================================================================== *)
(** * kalshi_alpha_suite/kalshi_client.py: the suite's gateway *)
(* ================================================================== *)

Module suite_client.

(** [resp.raise_for_status()] of httpx. *)
Definition raise_for_status (resp : Response) : result unit :=
  if (200 <=? status_code resp)%Z && (status_code resp <? 300)%Z
  then Ok tt
  else Raise (HTTPStatusError (status_code resp)).

(** [KalshiAuth.from_config].  The name [Ed25519PrivateKey] is local to
    this function: the [import] in its [except] branch binds it, and
    only when that branch runs.  On the other paths the [isinstance]
    test reads an unbound local name and raises UnboundLocalError. *)
Definition from_config (k : KeyMaterial) : result unit :=
  let isinstance_test (name_bound : bool) (key : KeyClass) : result unit :=
    if name_bound then
      match key with
      | Ed25519Key => Ok tt
      | OtherKey => Raise TypeError
      end
    else Raise UnboundLocalError in
  match k with
  | KeyFile loaded => key <- loaded ;; isinstance_test false key
  | KeyB64 BadBase64 => Raise ValueError
  | KeyB64 (PemPayload key) => isinstance_test false key
  | KeyB64 (SeedPayload true) => isinstance_test true Ed25519Key
  | KeyB64 (SeedPayload false) => Raise ValueError
  | KeyUnset => Raise ValueError
  end.

(** [_ensure_auth]: the signer is built on first use and kept; while
    building it fails, every request tries again. *)
Definition _ensure_auth (w : World) : result unit :=
  from_config (key_material w).

(** [_request]: the signer first, then one exchange.  The content of the
    signature headers is not modelled. *)
Definition _request (method path : string) (json_body : option json)
  (w : World) : result json * World :=
  match _ensure_auth w with
  | Raise e => (Raise e, w)
  | Ok _ =>
      match send {| req_method := method; req_path := path;
                    req_json := json_body |} w with
      | (Raise e, w1) => (Raise e, w1)
      | (Ok resp, w1) =>
          match raise_for_status resp with
          | Raise e => (Raise e, w1)
          | Ok _ => (body resp, w1)
          end
      end
  end.

Definition place_order (ticker side action order_type : string) (count : Z)
  (yes_price no_price : option Z) (w : World) : result json * World :=
  let opt key (v : option Z) :=
    match v with
    | Some n => [(key, JNum (inject_Z n))]
    | None => []
    end in
  let fields :=
    [("ticker", JStr ticker); ("action", JStr action); ("side", JStr side);
     ("type", JStr order_type); ("count", JNum (inject_Z count))]
    ++ opt "yes_price" yes_price ++ opt "no_price" no_price in
  _request "POST" "/portfolio/orders" (Some (JObj fields)) w.

End suite_client.

(* ================================================================== *)
(** * kalshi_alpha_suite/agents/risk_execution_agent.py *)
(* ================================================================== *)

Module risk_execution_agent.

Import config.

Definition kelly_fraction (p b : Q) : result Q :=
  if Qle_bool b 0 then Ok 0
  else fdiv (p * (b + 1) - 1) b.

Definition net_payout_after_fees (gross_b fee_rate : Q) : Q :=
  gross_b * (1 - fee_rate).

(** The [p] and [market_price] that [size] takes from the signal's side. *)
Definition side_p (signal : Signal) : Q :=
  match side signal with
  | YES => estimated_fair_prob signal
  | NO => 1 - estimated_fair_prob signal
  end.

Definition side_market_price (signal : Signal) : Q :=
  match side signal with
  | YES => implied_prob signal
  | NO => 1 - implied_prob signal
  end.

(** [gross_b = (1 / market_price) - 1]. *)
Definition gross_payout (market_price : Q) : result Q :=
  inv <- fdiv 1 market_price ;;
  Ok (inv - 1).

Definition rejected : KellyResult := {|
  optimal_fraction := 0;
  position_size_usd := 0;
  net_ev := 0;
  should_trade := false
|}.

Definition size (cfg : SuiteConfig) (signal : Signal) (bankroll_usd : Q)
  : result KellyResult :=
  let p := side_p signal in
  let market_price := side_market_price signal in
  if Qle_bool market_price 0 || Qle_bool 1 market_price then Ok rejected
  else
    gross_b <- gross_payout market_price ;;
    let b := net_payout_after_fees gross_b (kalshi_fee_rate cfg) in
    f_star <- kelly_fraction p b ;;
    let f_used := py_max 0 (f_star * config.kelly_fraction cfg) in
    let position_usd := py_min (f_used * bankroll_usd) (max_position_usd cfg) in
    let nev := p * b - (1 - p) in
    let go :=
      Qltb (kelly_edge_min cfg) f_star && Qltb 0 nev && Qltb 0 position_usd in
    Ok {| optimal_fraction := f_star;
          position_size_usd := py_round_nd position_usd 2;
          net_ev := py_round_nd nev 4;
          should_trade := go |}.

(** [build_order]; [now] is the clock reading that stamps the order.
    [None] is Python's [None].  The two products and the quotient are
    float operations whose results [int()] truncates, so they are taken
    in binary64.  The division is by a price in 1..99. *)
Definition build_order (cfg : SuiteConfig) (now : string) (sig : Signal)
  (k : KellyResult) : result (option TradeOrder) :=
  if negb (should_trade k) then Ok None
  else
    let price_cents := py_int (float_mul (implied_prob sig) 100) in
    let price_cents :=
      match side sig with
      | NO => (100 - price_cents)%Z
      | YES => price_cents
      end in
    let price_cents := Z.max 1 (Z.min 99 price_cents) in
    ratio <- float_truediv (float_mul (position_size_usd k) 100)
               (inject_Z price_cents) ;;
    let n := Z.max 1 (py_int ratio) in
    Ok (Some {| order_ticker := ticker sig;
                order_side := side sig;
                contracts := n;
                limit_price_cents := price_cents;
                signal := sig;
                kelly := k;
                paper := paper_trading cfg;
                order_id := None;
                fill_price_cents := None;
                order_timestamp := now |}).

(** [_paper_execute]: sets the fill price, then appends one line. *)
Definition _paper_execute (order : TradeOrder) (w : World)
  : TradeOrder * World :=
  let order' :=
    {| order_ticker := order_ticker order;
       order_side := order_side order;
       contracts := contracts order;
       limit_price_cents := limit_price_cents order;
       signal := signal order;
       kelly := kelly order;
       paper := paper order;
       order_id := order_id order;
       fill_price_cents := Some (limit_price_cents order);
       order_timestamp := order_timestamp order |} in
  let record :=
    {| j_timestamp := order_timestamp order';
       j_ticker := order_ticker order';
       j_side := Side_value (order_side order');
       j_contracts := contracts order';
       j_limit_price_cents := limit_price_cents order';
       j_fill_price_cents := fill_price_cents order';
       j_kelly_f_star := py_round_nd (optimal_fraction (kelly order')) 4;
       j_position_usd := position_size_usd (kelly order');
       j_net_ev := net_ev (kelly order');
       j_source := SignalSource_value (source (signal order'));
       j_rationale := rationale (signal order');
       j_paper := true |} in
  (order', append_line record w).

(** [resp.get("order", {}).get("order_id")]; a JSON null is [None]. *)
Definition order_id_of (resp : json) : result (option json) :=
  match resp with
  | JObj fields =>
      match dict_get fields "order" with
      | None => Ok None
      | Some (JObj inner) =>
          match dict_get inner "order_id" with
          | Some JNull | None => Ok None
          | Some v => Ok (Some v)
          end
      | Some _ => Raise AttributeError
      end
  | _ => Raise AttributeError
  end.

(** [_live_execute]: any exception is logged and the order is returned
    as it was. *)
Definition _live_execute (order : TradeOrder) (w : World)
  : TradeOrder * World :=
  let price := Some (limit_price_cents order) in
  let '(yes_price, no_price) :=
    match order_side order with
    | YES => (price, None)
    | NO => (None, price)
    end in
  match suite_client.place_order (order_ticker order)
          (Side_value (order_side order)) "buy" "limit" (contracts order)
          yes_price no_price w with
  | (Raise _, w1) => (order, w1)
  | (Ok resp, w1) =>
      match order_id_of resp with
      | Raise _ => (order, w1)
      | Ok oid =>
          ({| order_ticker := order_ticker order;
              order_side := order_side order;
              contracts := contracts order;
              limit_price_cents := limit_price_cents order;
              signal := signal order;
              kelly := kelly order;
              paper := paper order;
              order_id := oid;
              fill_price_cents := fill_price_cents order;
              order_timestamp := order_timestamp order |}, w1)
      end
  end.

Definition execute (order : TradeOrder) (w : World) : TradeOrder * World :=
  if paper order then _paper_execute order w else _live_execute order w.

(** [process_signals]: size, filter and execute a batch; [now] stamps the
    orders built in this batch. *)
Fixpoint process_signals (cfg : SuiteConfig) (now : string)
  (signals : list Signal) (bankroll_usd : Q) (w : World)
  : result (list TradeOrder) * World :=
  match signals with
  | [] => (Ok [], w)
  | sig :: rest =>
      match size cfg sig bankroll_usd with
      | Raise e => (Raise e, w)
      | Ok k =>
          match build_order cfg now sig k with
          | Raise e => (Raise e, w)
          | Ok None => process_signals cfg now rest bankroll_usd w
          | Ok (Some order) =>
              let '(done, w1) := execute order w in
              match process_signals cfg now rest bankroll_usd w1 with
              | (Raise e, w2) => (Raise e, w2)
              | (Ok orders, w2) => (Ok (done :: orders), w2)
              end
          end
      end
  end.

End risk_execution_agent.

(* ================================================================== *)
(** * kalshi_alpha_suite/agents/orderbook_agent.py *)
(* ================================================================== *)

Module orderbook_agent.

(** The [yes] and [no] arrays of an orderbook, best first, each level a
    pair [price_cents, quantity]; an absent array is [[]]. *)
Record Book : Type := {
  yes : list (Z * Z);
  no : list (Z * Z)
}.

(** The response, with or without the ["orderbook"] wrapper. *)
Inductive RawOrderbook : Type :=
| Wrapped (ob : Book)
| Bare (ob : Book).

Definition _parse_orderbook (ticker : string) (raw : RawOrderbook)
  : option OrderbookSnapshot :=
  let ob := match raw with Wrapped ob => ob | Bare ob => ob end in
  let yes_bids := yes ob in
  let no_bids := no ob in
  match yes_bids, no_bids with
  | [], [] => None
  | _, _ =>
      let best_yes := match yes_bids with (p, _) :: _ => p | [] => 0%Z end in
      let best_no := match no_bids with (p, _) :: _ => p | [] => 0%Z end in
      let synth :=
        if (0 <? best_no)%Z then (100 - best_no)%Z else 100%Z in
      let spread := (synth - best_yes)%Z in
      Some {| snap_ticker := ticker;
              best_yes_bid := best_yes;
              best_no_bid := best_no;
              synthetic_yes_ask := synth;
              spread_cents := spread |}
  end.

(** The signal that [scan_market] builds from a snapshot past the
    threshold test. *)
Definition void_signal (ticker : string) (snap : OrderbookSnapshot) : Signal :=
  let midpoint :=
    inject_Z (best_yes_bid snap + synthetic_yes_ask snap) / 2 / 100 in
  let implied :=
    if (best_yes_bid snap =? 0)%Z then 1 # 2
    else inject_Z (best_yes_bid snap) / 100 in
  {| source := ORDERBOOK;
     ticker := ticker;
     side := YES;
     implied_prob := implied;
     estimated_fair_prob := midpoint;
     edge := midpoint - implied;
     confidence := py_min (inject_Z (spread_cents snap) / 10) 1;
     rationale :=
       RationaleVoid (spread_cents snap) (best_yes_bid snap)
         (synthetic_yes_ask snap) (best_yes_bid snap + 1) |}.

(** [scan_market]; [fetched] is the outcome of [client.get_orderbook]. *)
Definition scan_market (threshold : Z) (ticker : string)
  (fetched : result RawOrderbook) : option Signal :=
  match fetched with
  | Raise _ => None
  | Ok raw =>
      match _parse_orderbook ticker raw with
      | None => None
      | Some snap =>
          if (spread_cents snap <=? threshold)%Z then None
          else Some (void_signal ticker snap)
      end
  end.

(** A page of the market listing: the tickers of its markets and its
    cursor, [None] when the key is absent. *)
Record MarketsPage : Type := {
  page_markets : list string;
  page_cursor : option string
}.

Section Pagination.

(** The exchange as seen by the scan: the listing of open markets for a
    batch size and a cursor, and the orderbook of a ticker. *)
Variable get_markets : Z -> option string -> result MarketsPage.
Variable get_orderbook : string -> result RawOrderbook.

(** The signals of one page, in the order of its markets. *)
Definition scan_page (threshold : Z) (tickers : list string) : list Signal :=
  flat_map (fun t =>
              match scan_market threshold t (get_orderbook t) with
              | Some s => [s]
              | None => []
              end) tickers.

(** The [while fetched < limit] loop of [scan_all_open_markets], with
    the signals and the count of markets fetched.  Each turn fetches at
    least one market, so [limit - fetched] turns are enough. *)
Fixpoint scan_pages (turns : nat) (threshold limit fetched : Z)
  (cursor : option string) : result (list Signal * Z) :=
  match turns with
  | O => Ok ([], fetched)
  | S turns' =>
      if (fetched <? limit)%Z then
        page <- get_markets (Z.min 100 (limit - fetched)) cursor ;;
        match page_markets page with
        | [] => Ok ([], fetched)
        | tickers =>
            let signals := scan_page threshold tickers in
            let fetched' := (fetched + Z.of_nat (List.length tickers))%Z in
            match page_cursor page with
            | None | Some EmptyString => Ok (signals, fetched')
            | Some next =>
                later <- scan_pages turns' threshold limit fetched'
                           (Some next) ;;
                Ok (signals ++ fst later, snd later)
            end
        end
      else Ok ([], fetched)
  end.

Definition scan_all_open_markets (threshold limit : Z)
  : result (list Signal * Z) :=
  scan_pages (Z.to_nat limit) threshold limit 0 None.

End Pagination.

End orderbook_agent.

(* ================================================================== *)
(** * kalshi_alpha_suite/agents/nlp_agent.py *)
(* ================================================================== *)

Module nlp_agent.

Import config.

Record NLPSignalRaw : Type := {
  ticker_keyword : json;
  raw_side : json;
  prob_shift : Q;
  raw_confidence : Q;
  raw_rationale : json
}.

Inductive Level : Type := DEBUG | INFO | WARNING | ERROR.

(** A log record: level and message template. *)
Definition LogRecord : Type := (Level * string)%type.

(** What the chat completion call gives: it raised, it returned no
    choice, or the content of the first choice ([None] is Python's
    [None]) with what [json.loads] makes of that text, read only for a
    non-empty text: the decoded value, or the exception raised.  That is
    JSONDecodeError for a text that is not JSON; a JSON text can make
    [json.loads] raise ValueError (an integer of more digits than
    [int()] converts) or RecursionError (nesting too deep). *)
Inductive Completion : Type :=
| CreateRaised
| NoChoices
| Content (text : option string) (loaded : result json).

Section Analysis.

Variable float_of_str : string -> option Q.

(** The body of the [try] that builds one [NLPSignalRaw] from an item. *)
Definition raw_of_item (item : json) : result NLPSignalRaw :=
  match item with
  | JObj fields =>
      match dict_get fields "ticker_keyword" with
      | None => Raise KeyError
      | Some kw =>
          match dict_get fields "side" with
          | None => Raise KeyError
          | Some sd =>
              match dict_get fields "prob_shift" with
              | None => Raise KeyError
              | Some ps =>
                  shift <- py_float float_of_str ps ;;
                  match dict_get fields "confidence" with
                  | None => Raise KeyError
                  | Some cf =>
                      conf <- py_float float_of_str cf ;;
                      Ok {| ticker_keyword := kw;
                            raw_side := sd;
                            prob_shift := shift;
                            raw_confidence := conf;
                            raw_rationale :=
                              match dict_get fields "rationale" with
                              | Some r => r
                              | None => JStr EmptyString
                              end |}
                  end
              end
          end
      end
  | _ => Raise TypeError
  end.

(** [except (KeyError, TypeError, ValueError)]; JSONDecodeError derives
    from ValueError. *)
Definition malformed (e : exn) : bool :=
  match e with
  | KeyError | TypeError | ValueError | JSONDecodeError => true
  | _ => false
  end.

(** The loop over the parsed items.  An item that raises one of the
    caught exceptions is skipped with a debug record; any other exception
    (OverflowError, from [float()] of an integer beyond the range of a
    float) leaves the loop and [analyze_headline]. *)
Fixpoint collect (items : list json)
  : result (list NLPSignalRaw) * list LogRecord :=
  match items with
  | [] => (Ok [], [])
  | item :: rest =>
      match raw_of_item item with
      | Ok raw =>
          let '(later, logs) := collect rest in
          (signals <- later ;; Ok (raw :: signals), logs)
      | Raise e =>
          if malformed e then
            let '(later, logs) := collect rest in
            (later, (DEBUG, "Skipping malformed GPT item") :: logs)
          else (Raise e, [])
      end
  end.

Definition analyze_headline (reply : Completion)
  : result (list NLPSignalRaw) * list LogRecord :=
  match reply with
  | CreateRaised => (Ok [], [(ERROR, "OpenAI API call failed")])
  | NoChoices => (Raise IndexError, [])
  | Content text loaded =>
      let parsed_res :=
        match text with
        | None | Some EmptyString => Ok (JArr [])     (* [or "[]"] *)
        | Some _ => loaded
        end in
      match parsed_res with
      | Raise JSONDecodeError =>
          (Ok [], [(WARNING, "GPT returned non-JSON")])
      | Raise e => (Raise e, [])     (* not caught *)
      | Ok parsed =>
          let items :=
            match parsed with
            | JArr items => items
            | other => [other]
            end in
          collect items
      end
  end.

(** The signals that [run] emits for one raw item; [resolve] is
    [resolve_tickers] against the exchange. *)
Definition signals_of_raw (cfg : SuiteConfig) (feed_name : string)
  (resolve : json -> list string) (raw : NLPSignalRaw) : list Signal :=
  if Qltb (Qabs (prob_shift raw)) (nlp_prob_shift_min cfg) then []
  else
    let sd := if Qltb 0 (prob_shift raw) then YES else NO in
    map (fun t =>
           {| source := NLP;
              ticker := t;
              side := sd;
              implied_prob := 1 # 2;
              estimated_fair_prob := (1 # 2) + prob_shift raw;
              edge := Qabs (prob_shift raw);
              confidence := raw_confidence raw;
              rationale := RationaleNLP feed_name (raw_rationale raw) |})
        (resolve (ticker_keyword raw)).

(** [run]; [feeds] pairs each fetched feed with the completion that its
    headline gets. *)
Fixpoint run (cfg : SuiteConfig) (resolve : json -> list string)
  (feeds : list (string * Completion)) : result (list Signal) :=
  match feeds with
  | [] => Ok []
  | (feed_name, reply) :: rest =>
      raws <- fst (analyze_headline reply) ;;
      later <- run cfg resolve rest ;;
      Ok (flat_map (signals_of_raw cfg feed_name resolve) raws ++ later)
  end.

End Analysis.

End nlp_agent.

(* ================================================================== *)
(** * kalshi_alpha_suite/agents/arbitrage_agent.py *)
(* ================================================================== *)

Module arbitrage_agent.

Import config.

Definition kelly_criterion (p b : Q) : result Q :=
  if Qle_bool b 0 then Ok 0
  else fdiv (p * (b + 1) - 1) b.

(** A market of the exchange, at its documented types; [None] is an
    absent key. *)
Record KalshiMarket : Type := {
  km_ticker : string;
  km_yes_price : option Z;
  km_last_price : option Z
}.

(** A market of the external venue: the items of its dict. *)
Definition ExtMarket : Type := list (string * json).

(** [(km.get("yes_price", 0) or km.get("last_price", 50)) / 100]. *)
Definition kalshi_prob_of (km : KalshiMarket) : Q :=
  let y := match km_yes_price km with Some v => v | None => 0%Z end in
  let l := match km_last_price km with Some v => v | None => 50%Z end in
  inject_Z (if (y =? 0)%Z then l else y) / 100.

(** The external price before [float()]. *)
Definition ext_prob_raw (em : ExtMarket) : result json :=
  first <- match dict_get em "outcomePrices" with
           | None => Ok JNull
           | Some v => subscript0 v
           end ;;
  if truthy first then Ok first
  else
    Ok match dict_get em "yes_price" with
       | Some v => v
       | None =>
           match dict_get em "lastTradePrice" with
           | Some v => v
           | None => JNum (1 # 2)
           end
       end.

(** [except (TypeError, ValueError)]; JSONDecodeError derives from
    ValueError. *)
Definition unparsable (e : exn) : bool :=
  match e with
  | TypeError | ValueError | JSONDecodeError => true
  | _ => false
  end.

Section Scan.

Variable float_of_str : string -> option Q.

(** One iteration of the loop of [scan]: [None] is [continue].  An
    exception of [float()] other than the two caught (OverflowError)
    leaves the loop. *)
Definition pair_signal (cfg : SuiteConfig) (km : KalshiMarket) (em : ExtMarket)
  : result (option Signal) :=
  let kalshi_prob := kalshi_prob_of km in
  raw <- ext_prob_raw em ;;
  match py_float float_of_str raw with
  | Raise e => if unparsable e then Ok None else Raise e
  | Ok ext_prob =>
      let diff := ext_prob - kalshi_prob in
      let decided :=
        if Qltb 0 diff then Some (YES, ext_prob, kalshi_prob, diff)
        else if Qltb diff 0
             then Some (NO, 1 - ext_prob, 1 - kalshi_prob, Qabs diff)
             else None in
      match decided with
      | None => Ok None
      | Some (sd, p, market_price, e) =>
          if Qle_bool market_price 0 || Qle_bool 1 market_price then Ok None
          else
            inv <- fdiv 1 market_price ;;
            let b := inv - 1 in
            f_star <- kelly_criterion p b ;;
            if Qltb f_star (kelly_edge_min cfg) then Ok None
            else
              Ok (Some
                    {| source := ARBITRAGE;
                       ticker := km_ticker km;
                       side := sd;
                       implied_prob := kalshi_prob;
                       estimated_fair_prob :=
                         match sd with
                         | YES => ext_prob
                         | NO => 1 - ext_prob
                         end;
                       edge := e;
                       confidence := py_min f_star 1;
                       rationale :=
                         RationaleArb kalshi_prob ext_prob f_star |})
      end
  end.

Fixpoint scan_pairs (cfg : SuiteConfig)
  (pairs : list (KalshiMarket * ExtMarket)) : result (list Signal) :=
  match pairs with
  | [] => Ok []
  | (km, em) :: rest =>
      found <- pair_signal cfg km em ;;
      later <- scan_pairs cfg rest ;;
      Ok (match found with Some s => s :: later | None => later end)
  end.

(** [scan]; [kalshi_resp] is the outcome of [get_markets], [ext_markets]
    what [_fetch_polymarket_markets] returns, [_match_markets] the title
    heuristic. *)
Definition scan (cfg : SuiteConfig)
  (_match_markets :
     list KalshiMarket -> list ExtMarket -> list (KalshiMarket * ExtMarket))
  (kalshi_resp : result (list KalshiMarket)) (ext_markets : list ExtMarket)
  : result (list Signal) :=
  kalshi_markets <- kalshi_resp ;;
  match ext_markets with
  | [] => Ok []
  | _ => scan_pairs cfg (_match_markets kalshi_markets ext_markets)
  end.

End Scan.

Section Matching.

(** The token sets of the titles, as duplicate-free lists:
    [_tokens(km.get("title", ""))] for a market of the exchange and
    [_tokens(em.get("question", em.get("title", "")))] for an external
    one.  The tokenizer is Python's string handling and is left open. *)
Variable kalshi_tokens : KalshiMarket -> list string.
Variable ext_tokens : ExtMarket -> list string.

(** [len(kt & et)]. *)
Definition overlap (kt et : list string) : nat :=
  List.length
    (nodup string_dec (filter (fun t => existsb (String.eqb t) et) kt)).

(** The inner loop: the first external market sharing three tokens. *)
Fixpoint first_match (kt : list string) (external_markets : list ExtMarket)
  : option ExtMarket :=
  match external_markets with
  | [] => None
  | em :: rest =>
      if (3 <=? overlap kt (ext_tokens em))%nat then Some em
      else first_match kt rest
  end.

Fixpoint _match_markets (kalshi_markets : list KalshiMarket)
  (external_markets : list ExtMarket) : list (KalshiMarket * ExtMarket) :=
  match kalshi_markets with
  | [] => []
  | km :: rest =>
      match kalshi_tokens km with
      | [] => _match_markets rest external_markets
      | kt =>
          match first_match kt external_markets with
          | Some em => (km, em) :: _match_markets rest external_markets
          | None => _match_markets rest external_markets
          end
      end
  end.

End Matching.

End arbitrage_agent.

(* ================================================================== *)
(** * kalshi_alpha_suite/orchestrator.py *)
(* ================================================================== *)

Module orchestrator.

Import config.

(** An element of what [asyncio.gather] returns: the value of the task,
    or with [return_exceptions=True] the exception object it raised. *)
Inductive Gathered : Type :=
| Returned (signals : list Signal)
| ExceptionObject (e : exn).

(** [await asyncio.gather(tasks, return_exceptions=flag)] on the
    outcomes of the tasks.  Without the flag the first exception
    propagates; which one is first depends on timing, and the model takes
    the first in argument order. *)
Fixpoint gather (return_exceptions : bool)
  (outcomes : list (result (list Signal))) : result (list Gathered) :=
  match outcomes with
  | [] => Ok []
  | Ok v :: rest =>
      later <- gather return_exceptions rest ;;
      Ok (Returned v :: later)
  | Raise e :: rest =>
      if return_exceptions then
        later <- gather return_exceptions rest ;;
        Ok (ExceptionObject e :: later)
      else Raise e
  end.

(** [x if isinstance(x, list) else nothing]. *)
Definition list_part (g : Gathered) : list Signal :=
  match g with
  | Returned signals => signals
  | ExceptionObject _ => []
  end.

(** The body of [run_cycle] for a given [return_exceptions] flag; the
    three outcomes are those of the three producer tasks.  The orders
    that [process_signals] executed are returned for observation. *)
Definition run_cycle_with (return_exceptions : bool) (cfg : SuiteConfig)
  (now : string) (ob nlp arb : result (list Signal)) (bankroll_usd : Q)
  (w : World) : result (list TradeOrder) * World :=
  match gather return_exceptions [ob; nlp; arb] with
  | Raise e => (Raise e, w)
  | Ok [ob_signals; nlp_signals; arb_signals] =>
      let all_signals :=
        list_part ob_signals ++ list_part nlp_signals
          ++ list_part arb_signals in
      match all_signals with
      | [] => (Ok [], w)
      | _ =>
          risk_execution_agent.process_signals cfg now all_signals
            bankroll_usd w
      end
  | Ok _ => (Raise ValueError, w)
  end.

(** [run_cycle] as written: [return_exceptions=False]. *)
Definition run_cycle := run_cycle_with false.

(** One iteration of the loop of [main]: the cycle under
    [except Exception]. *)
Inductive CycleOutcome : Type :=
| CycleComplete (orders : list TradeOrder)
| CycleFailed.

Definition main_iteration (cfg : SuiteConfig) (now : string)
  (ob nlp arb : result (list Signal)) (bankroll_usd : Q) (w : World)
  : CycleOutcome * World :=
  match run_cycle cfg now ob nlp arb bankroll_usd w with
  | (Ok orders, w1) => (CycleComplete orders, w1)
  | (Raise _, w1) => (CycleFailed, w1)
  end.

(** The bankroll of paper mode. *)
Definition paper_bankroll (cfg : SuiteConfig) : Q := max_position_usd cfg * 10.

(** The bankroll that [main] starts with: the simulated one in paper
    mode, [balance_resp.get("balance", 0) / 100] in live mode.  An
    exception here leaves [main]. *)
Definition starting_bankroll (cfg : SuiteConfig) (w : World)
  : result Q * World :=
  if paper_trading cfg then (Ok (paper_bankroll cfg), w)
  else
    match suite_client._request "GET" "/portfolio/balance" None w with
    | (Raise e, w1) => (Raise e, w1)
    | (Ok (JObj fields), w1) =>
        (truediv100 match dict_get fields "balance" with
                    | Some v => v
                    | None => JNum 0
                    end, w1)
    | (Ok _, w1) => (Raise AttributeError, w1)
    end.

End orchestrator.

(* ================================================================== *)
(** * Vocabulary of the specification *)
(* ================================================================== *)

Module spec.

Import config risk_execution_agent.

(** [net_b = (1/market_price - 1)(1 - fee_rate)]. *)
Definition net_b (cfg : SuiteConfig) (market_price : Q) : Q :=
  (1 / market_price - 1) * (1 - kalshi_fee_rate cfg).

(** [f* = (p(b + 1) - 1) / b]. *)
Definition kelly_formula (p b : Q) : Q := (p * (b + 1) - 1) / b.

(** [min(max(0, f* . kelly_fraction) . bankroll, max_position_usd)]. *)
Definition position_usd (cfg : SuiteConfig) (f_star bankroll : Q) : Q :=
  Qmin (Qmax 0 (f_star * config.kelly_fraction cfg) * bankroll)
       (max_position_usd cfg).

(** [net_ev = p . net_b - (1 - p)]. *)
Definition expected_value (p b : Q) : Q := p * b - (1 - p).

(** The gate [(f* > kelly_edge_min) and (net_ev > 0) and (position > 0)]. *)
Definition gate (cfg : SuiteConfig) (f_star nev position : Q) : Prop :=
  kelly_edge_min cfg < f_star /\ 0 < nev /\ 0 < position.

(** The sizing rule in the words of the specification, without the
    rounding of the returned amounts. *)
Definition size_as_stated (cfg : SuiteConfig) (s : Signal) (bankroll : Q)
  : Prop :=
  let p := side_p s in
  let market_price := side_market_price s in
  let b := net_b cfg market_price in
  let f := kelly_formula p b in
  exists r,
    size cfg s bankroll = Ok r /\
    (~ (0 < market_price /\ market_price < 1) ->
       should_trade r = false /\ position_size_usd r == 0) /\
    (0 < market_price /\ market_price < 1 ->
       optimal_fraction r == f /\
       position_size_usd r == position_usd cfg f bankroll /\
       net_ev r == expected_value p b /\
       (should_trade r = true <->
          gate cfg f (expected_value p b) (position_usd cfg f bankroll))).

Definition signal_of (sd : Side) (implied fair : Q) : Signal := {|
  source := ORDERBOOK;
  ticker := "TEST-TICKER";
  side := sd;
  implied_prob := implied;
  estimated_fair_prob := fair;
  edge := Qabs (fair - implied);
  confidence := 8 # 10;
  rationale := RationaleText "test signal"
|}.

(** The configuration of the even-money scenario: no fee, full Kelly,
    a cap of 10000 USD, the default gate. *)
Definition even_money_cfg : SuiteConfig := {|
  paper_trading := true;
  kalshi_fee_rate := 0;
  spread_threshold_cents := 3;
  kelly_edge_min := 5 # 100;
  nlp_prob_shift_min := 10 # 100;
  max_position_usd := 10000;
  config.kelly_fraction := 1
|}.

(** The same with the default fee of 7 percent of profit. *)
Definition fee_cfg : SuiteConfig := {|
  paper_trading := true;
  kalshi_fee_rate := 7 # 100;
  spread_threshold_cents := 3;
  kelly_edge_min := 5 # 100;
  nlp_prob_shift_min := 10 # 100;
  max_position_usd := 10000;
  config.kelly_fraction := 1
|}.

(** [clamp] to the price range of the exchange, and the inversion of a
    YES price for the NO side. *)
Definition clamp_price (cents : Z) : Z := Z.max 1 (Z.min 99 cents).

Definition side_price (sd : Side) (cents : Z) : Z :=
  match sd with
  | YES => cents
  | NO => (100 - cents)%Z
  end.

(** [contracts = max(1, floor(position_usd . 100 / price_cents))]. *)
Definition contracts_formula (position : Q) (price_cents : Z) : Z :=
  Z.max 1 (Qfloor (position * 100 / inject_Z price_cents)).

(** Order construction in the words of the specification: the price is
    [round(implied_prob . 100)]. *)
Definition build_order_as_stated (cfg : SuiteConfig) (now : string)
  (s : Signal) (k : KellyResult) : Prop :=
  should_trade k = true ->
  exists o,
    build_order cfg now s k = Ok (Some o) /\
    limit_price_cents o
      = clamp_price (side_price (side s) (py_round (implied_prob s * 100))) /\
    contracts o
      = contracts_formula (position_size_usd k) (limit_price_cents o).

(** A sizing result that trades: 200 USD at a fifth of the bankroll. *)
Definition trading_kelly : KellyResult := {|
  optimal_fraction := 2 # 10;
  position_size_usd := 200;
  net_ev := 2 # 10;
  should_trade := true
|}.

(** A sizing result of 1.15 USD. *)
Definition small_kelly : KellyResult := {|
  optimal_fraction := 2 # 10;
  position_size_usd := 115 # 100;
  net_ev := 2 # 10;
  should_trade := true
|}.

(** A book whose best YES bid is 29 cents, with a void of 11 cents up to
    the synthetic ask of 40. *)
Definition cent_book : orderbook_agent.Book :=
  {| orderbook_agent.yes := [(29, 100)%Z];
     orderbook_agent.no := [(60, 80)%Z] |}.

(** The invariant of a signal: the fair probability is on the signal's
    side of the implied one, and the edge is their distance. *)
Definition signal_invariant (s : Signal) : Prop :=
  match side s with
  | YES => implied_prob s <= estimated_fair_prob s
  | NO => estimated_fair_prob s <= implied_prob s
  end /\
  edge s == Qabs (estimated_fair_prob s - implied_prob s).

(** The book of the liquidity-void scenario. *)
Definition void_book : orderbook_agent.Book :=
  {| orderbook_agent.yes := [(40, 100)%Z];
     orderbook_agent.no := [(55, 80)%Z] |}.

(** A book with no YES bid. *)
Definition no_yes_book : orderbook_agent.Book :=
  {| orderbook_agent.yes := [];
     orderbook_agent.no := [(55, 80)%Z] |}.

(** A matched pair: the exchange prices YES at 60 cents, the external
    venue at 0.30. *)
Definition overpriced_market : arbitrage_agent.KalshiMarket :=
  {| arbitrage_agent.km_ticker := "KXRAIN-26";
     arbitrage_agent.km_yes_price := Some 60%Z;
     arbitrage_agent.km_last_price := None |}.

Definition external_market : arbitrage_agent.ExtMarket :=
  [("question", JStr "Will it rain in New York tomorrow");
   ("yes_price", JNum (3 # 10))].

(** A key that the suite's gateway can sign with: a raw seed of 32
    bytes, base64-encoded. *)
Definition usable_key : KeyMaterial := KeyB64 (SeedPayload true).

(** A world where nothing has happened yet, a usable key is configured
    and the exchange answers [answers]. *)
Definition fresh_world (answers : list (result Response)) : World :=
  {| key_material := usable_key;
     pending := answers; sent := []; sleeps := []; journal := [] |}.

(** A signal of the news analyzer for a shift of +0.20. *)
Definition news_signal : Signal := {|
  source := NLP;
  ticker := "KXCPI-26";
  side := YES;
  implied_prob := 1 # 2;
  estimated_fair_prob := 7 # 10;
  edge := 2 # 10;
  confidence := 9 # 10;
  rationale := RationaleNLP "BLS_CPI" (JStr "CPI above consensus")
|}.

Definition cycle_instant : string := "2026-01-01T00:00:00+00:00".

(** An order of paper mode, as [build_order] makes it. *)
Definition paper_order : TradeOrder := {|
  order_ticker := "KXCPI-26";
  order_side := YES;
  contracts := 400;
  limit_price_cents := 50;
  signal := news_signal;
  kelly := trading_kelly;
  paper := true;
  order_id := None;
  fill_price_cents := None;
  order_timestamp := cycle_instant
|}.

(** A 429 answer carrying the given Retry-After header. *)
Definition too_many_requests (h : RetryAfterHeader) : Response := {|
  status_code := 429;
  retry_after := h;
  body := Raise JSONDecodeError;
  text := "Too Many Requests"
|}.

(** A 200 answer with the given document. *)
Definition ok_response (doc : json) : Response := {|
  status_code := 200;
  retry_after := RA_missing;
  body := Ok doc;
  text := "OK"
|}.

(** A rate-limited answer whose header the gateway can wait on: the
    wait is defined, is not negative, and is below [2^32] seconds
    ([time.sleep] refuses a length that does not fit 64 bits of
    nanoseconds). *)
Definition waitable (resp : Response) : Prop :=
  status_code resp = 429%Z /\
  exists seconds,
    kalshi_client.wait_of (retry_after resp) = Ok seconds /\
    (0 <= seconds < 2 ^ 32)%Z.

(** The seconds slept for a rate-limited answer. *)
Definition wait_seconds (resp : Response) : Z :=
  match kalshi_client.wait_of (retry_after resp) with
  | Ok seconds => seconds
  | Raise _ => 0%Z
  end.

(** Rate-limit handling in the words of the specification, for one
    request primitive: a 429 followed by a success is slept on once, for
    the seconds of its header, and the success is the result. *)
Definition retries_after_429 (request : World -> result json * World)
  : Prop :=
  forall (seconds : Z) (doc : json) (rest : list (result Response))
         (w : World),
    (0 <= seconds)%Z ->
    pending w
      = Ok (too_many_requests (RA_int seconds)) :: Ok (ok_response doc)
        :: rest ->
    fst (request w) = Ok doc /\
    sleeps (snd (request w)) = sleeps w ++ [seconds].

(** The claim for every request of both gateways. *)
Definition rate_limit_as_stated : Prop :=
  (forall method endpoint json_body,
     retries_after_429
       (kalshi_client._request method endpoint json_body
          kalshi_client.default_retries)) /\
  (forall method path json_body,
     retries_after_429 (suite_client._request method path json_body)).

(** The world after the gateway has been answered by the rate-limited
    [limited] and has sent [extra] further requests: the answers are
    consumed, one request is logged per answer, one sleep per
    rate-limited answer. *)
Definition world_after (w : World) (rq : Request) (limited : list Response)
  (rest : list (result Response)) (extra : nat) : World :=
  {| key_material := key_material w;
     pending := rest;
     sent := sent w ++ repeat rq (List.length limited + extra);
     sleeps := sleeps w ++ map wait_seconds limited;
     journal := journal w |}.

Definition is_array (v : json) : bool :=
  match v with
  | JArr _ => true
  | _ => false
  end.

(** The raw signals of the items that convert, in order. *)
Definition accepted (float_of_str : string -> option Q) (items : list json)
  : list nlp_agent.NLPSignalRaw :=
  flat_map (fun item =>
              match nlp_agent.raw_of_item float_of_str item with
              | Ok raw => [raw]
              | Raise _ => []
              end) items.

(** Validation of the reply in the words of the specification: a reply
    that decodes to something other than an array contributes no raw
    signal and is warned about. *)
Definition llm_validation_as_stated : Prop :=
  forall (float_of_str : string -> option Q) (text : string) (v : json),
    text <> EmptyString ->
    is_array v = false ->
    fst (nlp_agent.analyze_headline float_of_str
           (nlp_agent.Content (Some text) (Ok v))) = Ok [] /\
    exists message,
      In (nlp_agent.WARNING, message)
         (snd (nlp_agent.analyze_headline float_of_str
                 (nlp_agent.Content (Some text) (Ok v)))).

(** A reply that is one object instead of an array of objects. *)
Definition object_reply : json :=
  JObj [("ticker_keyword", JStr "CPI");
        ("side", JStr "yes");
        ("prob_shift", JNum (2 # 10));
        ("confidence", JNum (9 # 10));
        ("rationale", JStr "CPI above consensus")].

End spec.

(* ================================================================== *)
(** * Vocabulary of the further properties *)
(* ================================================================== *)

Module observed.

Import config risk_execution_agent.

(** The key under which a live order carries its limit price. *)
Definition price_key (sd : Side) : string :=
  match sd with
  | YES => "yes_price"
  | NO => "no_price"
  end.

(** The request that submits an order: a limit buy of [contracts] at the
    limit price, under the key of the order's side. *)
Definition order_request (order : TradeOrder) : Request := {|
  req_method := "POST";
  req_path := "/portfolio/orders";
  req_json :=
    Some (JObj [("ticker", JStr (order_ticker order));
                ("action", JStr "buy");
                ("side", JStr (Side_value (order_side order)));
                ("type", JStr "limit");
                ("count", JNum (inject_Z (contracts order)));
                (price_key (order_side order),
                 JNum (inject_Z (limit_price_cents order)))])
|}.

(** A success status of httpx. *)
Definition is_2xx (resp : Response) : Prop :=
  (200 <= status_code resp < 300)%Z.

(** An order as [build_order] leaves it for live mode. *)
Definition live_order : TradeOrder := {|
  order_ticker := "KXCPI-26";
  order_side := NO;
  contracts := 12;
  limit_price_cents := 40;
  signal := spec.news_signal;
  kelly := spec.trading_kelly;
  paper := false;
  order_id := None;
  fill_price_cents := None;
  order_timestamp := spec.cycle_instant
|}.

(** The live configuration: the defaults with paper trading off. *)
Definition live_config : SuiteConfig := {|
  paper_trading := false;
  kalshi_fee_rate := 7 # 100;
  spread_threshold_cents := 3;
  kelly_edge_min := 5 # 100;
  nlp_prob_shift_min := 10 # 100;
  max_position_usd := 500;
  config.kelly_fraction := 25 # 100
|}.

(** The order with the identifier that the exchange returned. *)
Definition with_order_id (order : TradeOrder) (oid : option json)
  : TradeOrder := {|
  order_ticker := order_ticker order;
  order_side := order_side order;
  contracts := contracts order;
  limit_price_cents := limit_price_cents order;
  signal := signal order;
  kelly := kelly order;
  paper := paper order;
  order_id := oid;
  fill_price_cents := fill_price_cents order;
  order_timestamp := order_timestamp order
|}.

(** An exchange that lists two pages of open markets; the book of the
    first market shows a void, the fetch of the second fails, the third
    book is tight. *)
Definition two_page_listing (batch_size : Z) (cursor : option string)
  : result orderbook_agent.MarketsPage :=
  match cursor with
  | None =>
      Ok {| orderbook_agent.page_markets := ["KXA"; "KXB"];
            orderbook_agent.page_cursor := Some "page-2" |}
  | Some _ =>
      Ok {| orderbook_agent.page_markets := ["KXC"];
            orderbook_agent.page_cursor := None |}
  end.

Definition three_books (ticker : string)
  : result orderbook_agent.RawOrderbook :=
  if String.eqb ticker "KXA" then Ok (orderbook_agent.Wrapped spec.void_book)
  else if String.eqb ticker "KXB" then Raise ConnectionError
  else Ok (orderbook_agent.Wrapped
             {| orderbook_agent.yes := [(45, 10)%Z];
                orderbook_agent.no := [(55, 10)%Z] |}).

(** Token sets for the matched pair of the arbitrage example. *)
Definition example_kalshi_tokens (km : arbitrage_agent.KalshiMarket)
  : list string := ["will"; "rain"; "york"; "tomorrow"].

Definition example_ext_tokens (em : arbitrage_agent.ExtMarket)
  : list string :=
  match dict_get em "question" with
  | Some _ => ["rain"; "york"; "tomorrow"; "will"]
  | None => []
  end.

(** An external market whose [outcomePrices] is an empty array. *)
Definition empty_prices_market : arbitrage_agent.ExtMarket :=
  [("question", JStr "Will it rain in New York tomorrow");
   ("outcomePrices", JArr [])].

(** The orderbook document that the suite's parser reads: each side an
    array of [price, quantity] levels. *)
Definition level_json (level : Z * Z) : json :=
  JArr [JNum (inject_Z (fst level)); JNum (inject_Z (snd level))].

Definition book_json (ob : orderbook_agent.Book) : json :=
  JObj [("yes", JArr (map level_json (orderbook_agent.yes ob)));
        ("no", JArr (map level_json (orderbook_agent.no ob)))].

(** The items that [analyze_headline] loops over: those of an array,
    or the one value that is not an array. *)
Definition items_of (parsed : json) : list json :=
  match parsed with
  | JArr items => items
  | other => [other]
  end.

(** An item whose [prob_shift] is an integer beyond the range of a
    float. *)
Definition overflowing_item : json :=
  JObj [("ticker_keyword", JStr "CPI");
        ("side", JStr "yes");
        ("prob_shift", JNum (inject_Z (10 ^ 400)));
        ("confidence", JNum (9 # 10))].

(** The five price keys of a market document. *)
Definition price_keys : list string :=
  ["yes_bid"; "yes_ask"; "no_bid"; "no_ask"; "last_price"].

(** A price key that is absent or holds a number, of a size that its
    hundredth is within the range of a float. *)
Definition numeric_or_absent (fields : list (string * json)) (key : string)
  : Prop :=
  dict_get fields key = None \/
  exists q,
    dict_get fields key = Some (JNum q) /\ Qabs (q / 100) < float_overflow.

(** The price in dollars of a key in cents. *)
Definition dollars (fields : list (string * json)) (key : string) : Q :=
  match dict_get fields key with
  | Some (JNum q) => q / 100
  | _ => 0
  end.

End observed.

(* ================================================================== *)
(** * Properties *)
(* ================================================================== *)

(** ** Arithmetic of the runtime primitives *)

Lemma Qltb_lt (x y : Q) : Qltb x y = true <-> x < y.
Proof.
  unfold Qltb. rewrite negb_true_iff.
  split; intro H.
  - apply Qnot_le_lt. intro Hle. apply Qle_bool_iff in Hle. congruence.
  - destruct (Qle_bool y x) eqn:E; [|reflexivity].
    apply Qle_bool_iff in E. exfalso. exact (Qlt_not_le _ _ H E).
Qed.

Lemma Qltb_ge (x y : Q) : Qltb x y = false <-> y <= x.
Proof.
  unfold Qltb. rewrite negb_false_iff. apply Qle_bool_iff.
Qed.

Lemma Qle_bool_false (x y : Q) : Qle_bool x y = false <-> y < x.
Proof.
  rewrite <- Qltb_lt. unfold Qltb. rewrite negb_true_iff. reflexivity.
Qed.

Lemma fdiv_nonzero (x y : Q) : ~ y == 0 -> fdiv x y = Ok (x / y).
Proof.
  intro H. unfold fdiv.
  destruct (Qeq_bool y 0) eqn:E; [|reflexivity].
  apply Qeq_bool_iff in E. contradiction.
Qed.

Lemma py_max_Qmax (a b : Q) : py_max a b == Qmax a b.
Proof.
  unfold py_max. destruct (Qltb a b) eqn:E.
  - apply Qltb_lt in E. symmetry. apply Q.max_r. apply Qlt_le_weak, E.
  - apply Qltb_ge in E. symmetry. apply Q.max_l, E.
Qed.

Lemma py_min_Qmin (a b : Q) : py_min a b == Qmin a b.
Proof.
  unfold py_min. destruct (Qltb b a) eqn:E.
  - apply Qltb_lt in E. symmetry. apply Q.min_r. apply Qlt_le_weak, E.
  - apply Qltb_ge in E. symmetry. apply Q.min_l, E.
Qed.

#[global] Instance py_round_comp : Proper (Qeq ==> eq) py_round.
Proof.
  intros x y Hxy. unfold py_round.
  rewrite (Qfloor_comp _ _ Hxy).
  assert (Hc : Qcompare (x - inject_Z (Qfloor y)) (1 # 2)
               = Qcompare (y - inject_Z (Qfloor y)) (1 # 2)).
  { apply Qcompare_comp; [rewrite Hxy|]; reflexivity. }
  rewrite Hc. reflexivity.
Qed.

#[global] Instance py_round_nd_comp : Proper (Qeq ==> eq ==> Qeq) py_round_nd.
Proof.
  intros x y Hxy n m <-. unfold py_round_nd.
  assert (H : x * inject_Z (10 ^ Z.of_nat n) == y * inject_Z (10 ^ Z.of_nat n))
    by (rewrite Hxy; reflexivity).
  rewrite (py_round_comp _ _ H). reflexivity.
Qed.

(** What [float()] raises: TypeError, ValueError, or OverflowError on a
    number beyond the range of a float. *)
Lemma py_float_raises (float_of_str : string -> option Q) (v : json)
  (e : exn) :
  py_float float_of_str v = Raise e ->
  e = TypeError \/ e = ValueError \/
  (e = OverflowError /\ exists q, v = JNum q /\ float_overflow <= Qabs q).
Proof.
  destruct v as [|b|q|str|items|fields]; cbn [py_float];
    try (intro H; injection H as <-; left; reflexivity);
    try discriminate.
  - destruct (Qle_bool float_overflow (Qabs q)) eqn:E; [|discriminate].
    intro H. injection H as <-. right. right. split; [reflexivity|].
    exists q. split; [reflexivity|]. apply Qle_bool_iff, E.
  - destruct (float_of_str str); [discriminate|].
    intro H. injection H as <-. right. left. reflexivity.
Qed.

(** A whole number of cents from 1 to 99 is a double. *)
Lemma b64_cents (p : Z) : (1 <= p <= 99)%Z -> b64 (inject_Z p) == inject_Z p.
Proof.
  intro H.
  assert (Hall : forallb (fun n => Qeq_bool (b64 (inject_Z (Z.of_nat n)))
                                     (inject_Z (Z.of_nat n)))
                   (seq 1 99) = true) by (vm_compute; reflexivity).
  rewrite forallb_forall in Hall.
  specialize (Hall (Z.to_nat p)). rewrite Z2Nat.id in Hall by lia.
  apply Qeq_bool_iff, Hall. apply in_seq. lia.
Qed.

(** A float divided by such a price: the division is defined. *)
Lemma float_truediv_cents (x : Q) (p : Z) :
  (1 <= p <= 99)%Z ->
  float_truediv x (inject_Z p) = Ok (b64 (b64 x / b64 (inject_Z p))).
Proof.
  intro H. unfold float_truediv.
  destruct (Qeq_bool (b64 (inject_Z p)) 0) eqn:E; [|reflexivity].
  apply Qeq_bool_iff in E. rewrite (b64_cents p H) in E.
  unfold Qeq in E. simpl in E. lia.
Qed.

(** [int(x)] is the floor of [x] wherever the floor is positive, and
    never above it, so that [max(1, int(x)) = max(1, floor(x))]. *)
Lemma max1_py_int_floor (x : Q) : Z.max 1 (py_int x) = Z.max 1 (Qfloor x).
Proof.
  destruct x as [n d]. unfold py_int, Qfloor. simpl.
  destruct (Z.le_gt_cases 0 n) as [Hn | Hn].
  - rewrite Z.quot_div_nonneg by lia. reflexivity.
  - assert (Hq : (n ÷ Z.pos d <= 0)%Z).
    { replace n with (- (- n))%Z by lia.
      rewrite Z.quot_opp_l by lia.
      pose proof (Z.quot_pos (- n) (Z.pos d)). lia. }
    assert (Hd : (n / Z.pos d < 0)%Z) by (apply Z.div_lt_upper_bound; lia).
    lia.
Qed.

(** ** The Kelly functions *)

Module KellyFacts.

Import risk_execution_agent arbitrage_agent.

(** The two functions have the same body. *)
Lemma kelly_criterion_is_kelly_fraction (p b : Q) :
  kelly_criterion p b = kelly_fraction p b.
Proof. reflexivity. Qed.

Lemma kelly_fraction_guard (p b : Q) : b <= 0 -> kelly_fraction p b = Ok 0.
Proof.
  intro Hb. unfold kelly_fraction.
  apply Qle_bool_iff in Hb. rewrite Hb. reflexivity.
Qed.

Lemma kelly_fraction_formula (p b : Q) :
  0 < b -> kelly_fraction p b = Ok ((p * (b + 1) - 1) / b).
Proof.
  intro Hb. unfold kelly_fraction.
  apply Qle_bool_false in Hb as Hg. rewrite Hg.
  apply fdiv_nonzero. intro Hz. rewrite Hz in Hb.
  exact (Qlt_irrefl _ Hb).
Qed.

(** C10.  Both Kelly functions are total: for every [p], a payout
    [b <= 0] gives [0.0] without dividing, a payout [b > 0] reaches the
    division, whose divisor is then not zero, and gives
    [(p(b+1) - 1) / b]; no [p] and [b] raise ZeroDivisionError. *)
Theorem kelly_functions_total (p b : Q) :
  (b <= 0 ->
     kelly_fraction p b = Ok 0 /\ kelly_criterion p b = Ok 0) /\
  (0 < b ->
     kelly_fraction p b = Ok ((p * (b + 1) - 1) / b) /\
     kelly_criterion p b = Ok ((p * (b + 1) - 1) / b)) /\
  is_ok (kelly_fraction p b) = true /\
  is_ok (kelly_criterion p b) = true.
Proof.
  change (kelly_criterion p b) with (kelly_fraction p b).
  split; [|split].
  - intro Hb. split; apply kelly_fraction_guard; exact Hb.
  - intro Hb. split; apply kelly_fraction_formula; exact Hb.
  - destruct (Qlt_le_dec 0 b) as [Hpos | Hneg].
    + rewrite (kelly_fraction_formula p b Hpos). split; reflexivity.
    + rewrite (kelly_fraction_guard p b Hneg). split; reflexivity.
Qed.

Lemma kelly_functions_total_witness :
  (-1 <= 0) /\
  kelly_fraction (6 # 10) (-1) = Ok 0 /\
  kelly_criterion (6 # 10) (-1) = Ok 0.
Proof.
  assert (H : -1 <= 0) by discriminate.
  split; [exact H|].
  exact (proj1 (kelly_functions_total (6 # 10) (-1)) H).
Defined.

End KellyFacts.

(** ** Sizing *)

Module SizingFacts.

Import config risk_execution_agent spec.

Lemma gross_payout_value (market_price : Q) :
  0 < market_price -> gross_payout market_price = Ok (1 / market_price - 1).
Proof.
  intro H. unfold gross_payout.
  rewrite fdiv_nonzero; [reflexivity|].
  intro Hz. rewrite Hz in H. exact (Qlt_irrefl _ H).
Qed.

Lemma size_rejects (cfg : SuiteConfig) (s : Signal) (bankroll : Q) :
  ~ (0 < side_market_price s /\ side_market_price s < 1) ->
  size cfg s bankroll = Ok rejected.
Proof.
  intro H. unfold size.
  destruct (Qle_bool (side_market_price s) 0) eqn:E0; [reflexivity|].
  destruct (Qle_bool 1 (side_market_price s)) eqn:E1; [reflexivity|].
  exfalso. apply H. split; apply Qle_bool_false; assumption.
Qed.

(** Inside the open interval [size] never raises, and its result is
    built from the value of [kelly_fraction]. *)
Lemma size_accepts (cfg : SuiteConfig) (s : Signal) (bankroll : Q) :
  0 < side_market_price s -> side_market_price s < 1 ->
  let p := side_p s in
  let b := net_b cfg (side_market_price s) in
  exists f,
    kelly_fraction p b = Ok f /\
    size cfg s bankroll =
      Ok {| optimal_fraction := f;
            position_size_usd :=
              py_round_nd
                (py_min (py_max 0 (f * config.kelly_fraction cfg) * bankroll)
                        (max_position_usd cfg)) 2;
            net_ev := py_round_nd (p * b - (1 - p)) 4;
            should_trade :=
              Qltb (kelly_edge_min cfg) f && Qltb 0 (p * b - (1 - p))
              && Qltb 0 (py_min (py_max 0 (f * config.kelly_fraction cfg)
                                   * bankroll)
                                (max_position_usd cfg)) |}.
Proof.
  intros H0 H1 p b.
  assert (Hk : exists f, kelly_fraction p b = Ok f).
  { destruct (Qlt_le_dec 0 b) as [Hb | Hb].
    - eexists. apply KellyFacts.kelly_fraction_formula, Hb.
    - eexists. apply KellyFacts.kelly_fraction_guard, Hb. }
  destruct Hk as [f Hf]. exists f. split; [exact Hf|].
  unfold size.
  apply Qle_bool_false in H0 as E0. apply Qle_bool_false in H1 as E1.
  rewrite E0, E1. cbn [orb].
  rewrite (gross_payout_value _ H0). cbn [bind].
  fold p. change (net_payout_after_fees (1 / side_market_price s - 1)
                    (kalshi_fee_rate cfg)) with b.
  rewrite Hf. reflexivity.
Qed.

(** With a fee rate below one, a price inside (0,1) has a positive net
    payout, so [kelly_fraction] reaches its formula. *)
Lemma net_b_positive (cfg : SuiteConfig) (market_price : Q) :
  kalshi_fee_rate cfg < 1 -> 0 < market_price -> market_price < 1 ->
  0 < net_b cfg market_price.
Proof.
  intros Hfee H0 H1. unfold net_b.
  apply Qmult_lt_0_compat; [|lra].
  assert (Hinv : 0 < / market_price) by (apply Qinv_lt_0_compat, H0).
  assert (E : 1 / market_price - 1 == / market_price * (1 - market_price)).
  { field. intro Hz. rewrite Hz in H0. exact (Qlt_irrefl _ H0). }
  rewrite E. apply Qmult_lt_0_compat; [exact Hinv | lra].
Qed.

Lemma position_usd_py (cfg : SuiteConfig) (f bankroll : Q) :
  py_min (py_max 0 (f * config.kelly_fraction cfg) * bankroll)
         (max_position_usd cfg)
  == position_usd cfg f bankroll.
Proof.
  unfold position_usd.
  rewrite py_min_Qmin.
  apply Q.min_compat; [|reflexivity].
  rewrite py_max_Qmax. reflexivity.
Qed.

(** C1, as the code has it.  [size] takes [p] and [market_price] from the
    signal's side and never raises.  Outside the open interval (0,1) it
    returns the rejected result (all fields zero, no trade).  Inside, the
    optimal fraction is [(p(net_b+1) - 1)/net_b] when [net_b > 0], which
    holds for every fee rate below one, and [0] when [net_b <= 0]; the
    position is [min(max(0, f* . kelly_fraction) . bankroll, max)] rounded
    to 2 decimals, the net EV is [p . net_b - (1 - p)] rounded to 4
    decimals, and the gate is taken on the values before rounding.  The
    even-money scenario gives gross_b = 1, f* = 0.20, 200.00 USD,
    net EV 0.20 and a trade. *)
Theorem size_kelly_rounded (cfg : SuiteConfig) (s : Signal) (bankroll : Q) :
  let p := side_p s in
  let market_price := side_market_price s in
  let b := net_b cfg market_price in
  (~ (0 < market_price /\ market_price < 1) ->
     size cfg s bankroll = Ok rejected) /\
  (0 < market_price /\ market_price < 1 ->
     exists r,
       size cfg s bankroll = Ok r /\
       (0 < b -> optimal_fraction r == kelly_formula p b) /\
       (b <= 0 -> optimal_fraction r == 0) /\
       (kalshi_fee_rate cfg < 1 -> 0 < b) /\
       position_size_usd r
         == py_round_nd (position_usd cfg (optimal_fraction r) bankroll) 2 /\
       net_ev r == py_round_nd (expected_value p b) 4 /\
       (should_trade r = true <->
          gate cfg (optimal_fraction r) (expected_value p b)
               (position_usd cfg (optimal_fraction r) bankroll))) /\
  (exists g r,
     gross_payout (1 # 2) = Ok g /\ g == 1 /\
     size even_money_cfg (signal_of YES (1 # 2) (6 # 10)) 1000 = Ok r /\
     optimal_fraction r == 2 # 10 /\
     position_size_usd r == 200 /\
     net_ev r == 2 # 10 /\
     should_trade r = true).
Proof.
  intros p market_price b. split; [|split].
  - apply size_rejects.
  - intros [H0 H1].
    destruct (size_accepts cfg s bankroll H0 H1) as [f [Hf Hs]].
    fold p in Hf, Hs. fold market_price in Hf, Hs. fold b in Hf, Hs.
    eexists. split; [exact Hs|]. cbn [optimal_fraction position_size_usd
                                      net_ev should_trade].
    split; [|split; [|split; [|split; [|split]]]].
    + intro Hb. rewrite (KellyFacts.kelly_fraction_formula p b Hb) in Hf.
      injection Hf as <-. reflexivity.
    + intro Hb. rewrite (KellyFacts.kelly_fraction_guard p b Hb) in Hf.
      injection Hf as <-. reflexivity.
    + intro Hfee. apply net_b_positive; assumption.
    + apply py_round_nd_comp; [apply position_usd_py | reflexivity].
    + reflexivity.
    + unfold gate, expected_value.
      rewrite !andb_true_iff, !Qltb_lt, position_usd_py.
      tauto.
  - eexists. eexists.
    split; [reflexivity|]. split; [reflexivity|].
    split; [vm_compute; reflexivity|].
    repeat split; reflexivity.
Qed.

Lemma size_kelly_rounded_witness :
  exists r,
    size fee_cfg (signal_of YES (1 # 2) (6 # 10)) 1000 = Ok r /\
    position_size_usd r
      == py_round_nd (position_usd fee_cfg (optimal_fraction r) 1000) 2.
Proof.
  assert (H : 0 < side_market_price (signal_of YES (1 # 2) (6 # 10)) /\
              side_market_price (signal_of YES (1 # 2) (6 # 10)) < 1)
    by (split; reflexivity).
  destruct (proj1 (proj2 (size_kelly_rounded fee_cfg
                            (signal_of YES (1 # 2) (6 # 10)) 1000)) H)
    as [r [Hs [_ [_ [_ [Hp _]]]]]].
  exists r. split; assumption.
Defined.

(** With the default 7 percent fee the position before rounding is
    79000/465 USD, not an amount in cents. *)
Lemma size_unrounded_counterexample :
  ~ size_as_stated fee_cfg (signal_of YES (1 # 2) (6 # 10)) 1000.
Proof.
  intros [r [Hs [_ Hin]]].
  assert (Hv : size fee_cfg (signal_of YES (1 # 2) (6 # 10)) 1000
               = Ok {| optimal_fraction := 15800 # 93000;
                       position_size_usd := 16989 # 100;
                       net_ev := 1580 # 10000;
                       should_trade := true |})
    by (vm_compute; reflexivity).
  rewrite Hv in Hs. injection Hs as <-.
  destruct Hin as [_ [Hp _]]; [split; reflexivity|].
  vm_compute in Hp. discriminate Hp.
Qed.

End SizingFacts.

(** ** Order construction *)

Module OrderFacts.

Import config risk_execution_agent spec.

Lemma clamp_price_range (cents : Z) : (1 <= clamp_price cents <= 99)%Z.
Proof. unfold clamp_price. lia. Qed.

Lemma build_order_skips (cfg : SuiteConfig) (now : string) (s : Signal)
  (k : KellyResult) :
  should_trade k = false -> build_order cfg now s k = Ok None.
Proof. intro H. unfold build_order. rewrite H. reflexivity. Qed.

(** With a trading result [build_order] does not raise: the divisor is a
    clamped price.  The order it returns, field by field. *)
Lemma build_order_trades (cfg : SuiteConfig) (now : string) (s : Signal)
  (k : KellyResult) :
  should_trade k = true ->
  let price :=
    clamp_price
      (side_price (side s) (py_int (float_mul (implied_prob s) 100))) in
  build_order cfg now s k =
    Ok (Some {| order_ticker := ticker s;
                order_side := side s;
                contracts :=
                  Z.max 1
                    (py_int (b64 (b64 (float_mul (position_size_usd k) 100)
                                  / b64 (inject_Z price))));
                limit_price_cents := price;
                signal := s;
                kelly := k;
                paper := paper_trading cfg;
                order_id := None;
                fill_price_cents := None;
                order_timestamp := now |}).
Proof.
  intros H price. unfold build_order. rewrite H. cbn [negb].
  assert (Hp : Z.max 1 (Z.min 99
                 match side s with
                 | YES => py_int (float_mul (implied_prob s) 100)
                 | NO => (100 - py_int (float_mul (implied_prob s) 100))%Z
                 end) = price).
  { unfold price, clamp_price, side_price. destruct (side s); reflexivity. }
  rewrite Hp.
  rewrite float_truediv_cents; [reflexivity|].
  apply clamp_price_range.
Qed.

(** C4.  The order price misses the claim where [int()] truncates a
    float product that fell just below a whole number of cents.

    - The scanner's signal for a best YES bid of 29 cents has the implied
      probability 0.29; sized with the default configuration on the
      paper bankroll it trades, and [build_order] prices the order at 28
      cents and 255 contracts, where [round(implied . 100)] is 29 and the
      stated contract count at 29 cents is 247: the order is not as
      stated.
    - Of the prices of 1 to 99 cents, [build_order] returns the quoted
      cents for all but 29, 57 and 58, where it returns one cent less.
    - The contract count misses in the same way: a position of 1.15 USD
      at 23 cents gives 4 contracts, where [floor(115 / 23)] is 5. *)
Theorem build_order_drops_a_cent :
  (exists s k o,
     orderbook_agent.scan_market
       (spread_threshold_cents load_config) "KXCPI-26"
       (Ok (orderbook_agent.Wrapped cent_book)) = Some s /\
     side s = YES /\
     implied_prob s == 29 # 100 /\
     size load_config s (orchestrator.paper_bankroll load_config) = Ok k /\
     should_trade k = true /\
     build_order load_config cycle_instant s k = Ok (Some o) /\
     limit_price_cents o = 28%Z /\
     contracts o = 255%Z /\
     clamp_price (side_price (side s) (py_round (implied_prob s * 100)))
       = 29%Z /\
     contracts_formula (position_size_usd k) 29 = 247%Z /\
     ~ build_order_as_stated load_config cycle_instant s k) /\
  (forall cents o,
     (1 <= cents <= 99)%Z ->
     build_order load_config cycle_instant
       (signal_of YES (inject_Z cents / 100) 1) trading_kelly = Ok (Some o) ->
     limit_price_cents o
       = if existsb (Z.eqb cents) [29; 57; 58]%Z then (cents - 1)%Z
         else cents) /\
  (exists o,
     build_order load_config cycle_instant (signal_of YES (23 # 100) 1)
       small_kelly = Ok (Some o) /\
     limit_price_cents o = 23%Z /\
     contracts o = 4%Z /\
     contracts_formula (position_size_usd small_kelly) 23 = 5%Z).
Proof.
  split; [|split].
  - eexists _, _, _.
    split; [vm_compute; reflexivity|].
    split; [reflexivity|].
    split; [vm_compute; reflexivity|].
    split; [vm_compute; reflexivity|].
    split; [reflexivity|].
    split; [vm_compute; reflexivity|].
    split; [reflexivity|]. split; [reflexivity|].
    split; [vm_compute; reflexivity|].
    split; [vm_compute; reflexivity|].
    intro Hstated. destruct (Hstated eq_refl) as [o' [Hb' [Hp' _]]].
    vm_compute in Hb'. injection Hb' as <-.
    vm_compute in Hp'. discriminate Hp'.
  - intros cents o Hc Hb.
    rewrite (build_order_trades load_config cycle_instant _ trading_kelly
               eq_refl) in Hb.
    injection Hb as <-. cbn [limit_price_cents side implied_prob signal_of].
    assert (Hall :
      forallb (fun n =>
                 let cents := Z.of_nat n in
                 Z.eqb
                   (clamp_price
                      (side_price YES
                         (py_int (float_mul (inject_Z cents / 100) 100))))
                   (if existsb (Z.eqb cents) [29; 57; 58]%Z
                    then (cents - 1)%Z else cents))
              (seq 1 99) = true) by (vm_compute; reflexivity).
    rewrite forallb_forall in Hall.
    specialize (Hall (Z.to_nat cents)). cbv zeta in Hall.
    rewrite Z2Nat.id in Hall by lia.
    apply Z.eqb_eq, Hall. apply in_seq. lia.
  - eexists. split; [vm_compute; reflexivity|].
    split; [reflexivity|]. split; reflexivity.
Qed.

(** C8.  Every order that [build_order] produces, for any signal and
    any sizing result, has a limit price within 1..99 cents and at least
    one contract. *)
Theorem build_order_bounds (cfg : SuiteConfig) (now : string) (s : Signal)
  (k : KellyResult) (o : TradeOrder) :
  build_order cfg now s k = Ok (Some o) ->
  (1 <= limit_price_cents o <= 99)%Z /\ (1 <= contracts o)%Z.
Proof.
  intro Hb. destruct (should_trade k) eqn:Hk.
  - rewrite (build_order_trades cfg now s k Hk) in Hb.
    injection Hb as <-. cbn [limit_price_cents contracts].
    split; [apply clamp_price_range | lia].
  - rewrite (build_order_skips cfg now s k Hk) in Hb. discriminate Hb.
Qed.

Lemma build_order_bounds_witness :
  exists o,
    build_order load_config "2026-01-01T00:00:00+00:00"
      (signal_of NO (35 # 100) (20 # 100)) trading_kelly = Ok (Some o) /\
    (1 <= limit_price_cents o <= 99)%Z /\ (1 <= contracts o)%Z.
Proof.
  eexists. split; [vm_compute; reflexivity|].
  apply (build_order_bounds load_config "2026-01-01T00:00:00+00:00"
           (signal_of NO (35 # 100) (20 # 100)) trading_kelly).
  vm_compute. reflexivity.
Defined.

Lemma build_order_total (cfg : SuiteConfig) (now : string) (s : Signal)
  (k : KellyResult) : is_ok (build_order cfg now s k) = true.
Proof.
  destruct (should_trade k) eqn:Hk.
  - rewrite (build_order_trades cfg now s k Hk). reflexivity.
  - rewrite (build_order_skips cfg now s k Hk). reflexivity.
Qed.

End OrderFacts.

(** ** The orderbook scanner *)

Module OrderbookFacts.

Import config orderbook_agent spec.

Lemma parse_synthetic_ask (ticker : string) (raw : RawOrderbook)
  (snap : OrderbookSnapshot) :
  _parse_orderbook ticker raw = Some snap ->
  synthetic_yes_ask snap
    = (if (0 <? best_no_bid snap)%Z then 100 - best_no_bid snap else 100)%Z /\
  spread_cents snap = (synthetic_yes_ask snap - best_yes_bid snap)%Z.
Proof.
  unfold _parse_orderbook.
  destruct raw as [ob | ob]; destruct (yes ob), (no ob);
    intro H; try discriminate H; injection H as <-; split; reflexivity.
Qed.



(** A failed fetch and an empty book emit nothing. *)
Lemma scan_market_isolates (threshold : Z) (ticker : string) (e : exn) :
  scan_market threshold ticker (Raise e) = None.
Proof. reflexivity. Qed.

(** A void over a YES bid satisfies the signal invariant. *)
Lemma void_signal_invariant (ticker : string) (snap : OrderbookSnapshot) :
  best_yes_bid snap <> 0%Z ->
  (0 <= spread_cents snap)%Z ->
  spread_cents snap = (synthetic_yes_ask snap - best_yes_bid snap)%Z ->
  signal_invariant (void_signal ticker snap).
Proof.
  intros Hb Hs He. unfold signal_invariant, void_signal.
  cbn [side implied_prob estimated_fair_prob edge].
  apply Z.eqb_neq in Hb. rewrite Hb.
  assert (Hle : inject_Z (best_yes_bid snap) / 100
                <= inject_Z (best_yes_bid snap + synthetic_yes_ask snap)
                   / 2 / 100).
  { assert (Hq : inject_Z (best_yes_bid snap)
                 <= inject_Z (synthetic_yes_ask snap))
      by (rewrite <- Zle_Qle; lia).
    rewrite inject_Z_plus.
    assert (E : (inject_Z (best_yes_bid snap)
                 + inject_Z (synthetic_yes_ask snap)) / 2 / 100
                - inject_Z (best_yes_bid snap) / 100
                == (inject_Z (synthetic_yes_ask snap)
                    - inject_Z (best_yes_bid snap)) / 200) by field.
    assert (Hd : 0 <= (inject_Z (synthetic_yes_ask snap)
                       - inject_Z (best_yes_bid snap)) / 200).
    { apply Qle_shift_div_l; [reflexivity | lra]. }
    lra. }
  split; [exact Hle|].
  rewrite Qabs_pos; [reflexivity | lra].
Qed.

(** Without a YES bid the implied probability falls back to 0.5 and the
    midpoint lies below it: the YES signal has a negative edge. *)
Lemma void_signal_without_yes_bid :
  exists sg,
    scan_market 3 "KXTEST" (Ok (Wrapped no_yes_book)) = Some sg /\
    side sg = YES /\
    implied_prob sg == 5 # 10 /\
    estimated_fair_prob sg == 225 # 1000 /\
    edge sg == - (275 # 1000) /\
    ~ signal_invariant sg.
Proof.
  eexists. split; [reflexivity|].
  repeat (split; [reflexivity|]).
  intros [H _]. vm_compute in H. apply H. reflexivity.
Qed.

End OrderbookFacts.

(** ** The signal invariant across the producers *)

Module SignalFacts.

Import config nlp_agent arbitrage_agent spec.

Section Producers.

Variable float_of_str : string -> option Q.

(** Every signal of the news analyzer satisfies the invariant. *)
Lemma nlp_signal_invariant (cfg : SuiteConfig) (feed_name : string)
  (resolve : json -> list string) (raw : NLPSignalRaw) (sg : Signal) :
  In sg (signals_of_raw cfg feed_name resolve raw) -> signal_invariant sg.
Proof.
  unfold signals_of_raw.
  destruct (Qltb (Qabs (prob_shift raw)) (nlp_prob_shift_min cfg));
    [intros []|].
  intro Hin. apply in_map_iff in Hin as [t [<- _]].
  unfold signal_invariant.
  cbn [side implied_prob estimated_fair_prob edge].
  split.
  - destruct (Qltb 0 (prob_shift raw)) eqn:E.
    + apply Qltb_lt in E. lra.
    + apply Qltb_ge in E. lra.
  - apply Qabs_wd. ring.
Qed.

(** A YES signal of the arbitrage scanner satisfies the invariant. *)
Lemma arbitrage_yes_signal_invariant (cfg : SuiteConfig) (km : KalshiMarket)
  (em : ExtMarket) (sg : Signal) :
  pair_signal float_of_str cfg km em = Ok (Some sg) ->
  side sg = YES -> signal_invariant sg.
Proof.
  unfold pair_signal.
  destruct (ext_prob_raw em) as [raw|e]; [|discriminate]. cbn [bind].
  destruct (py_float float_of_str raw) as [ext|e];
    [|destruct (unparsable e); discriminate].
  destruct (Qltb 0 (ext - kalshi_prob_of km)) eqn:Epos.
  - destruct (Qle_bool (kalshi_prob_of km) 0 || Qle_bool 1 (kalshi_prob_of km));
      [discriminate|].
    destruct (fdiv 1 (kalshi_prob_of km)) as [inv|e]; [|discriminate].
    cbn [bind].
    destruct (kelly_criterion ext (inv - 1)) as [f|e]; [|discriminate].
    cbn [bind].
    destruct (Qltb f (kelly_edge_min cfg)); [discriminate|].
    intros H _. injection H as <-.
    apply Qltb_lt in Epos.
    unfold signal_invariant.
    cbn [side implied_prob estimated_fair_prob edge].
    split; [lra|]. rewrite Qabs_pos; [reflexivity | lra].
  - destruct (Qltb (ext - kalshi_prob_of km) 0); [|discriminate].
    destruct (Qle_bool (1 - kalshi_prob_of km) 0
              || Qle_bool 1 (1 - kalshi_prob_of km)); [discriminate|].
    destruct (fdiv 1 (1 - kalshi_prob_of km)) as [inv|e]; [|discriminate].
    cbn [bind].
    destruct (kelly_criterion (1 - ext) (inv - 1)) as [f|e]; [|discriminate].
    cbn [bind].
    destruct (Qltb f (kelly_edge_min cfg)); [discriminate|].
    intros H Hs. injection H as <-. discriminate Hs.
Qed.

(** C2, at the failing input.  For the pair priced 0.60 on the exchange
    and 0.30 outside, the arbitrage scanner emits a NO signal that stores
    [1 - 0.30 = 0.70] as its fair probability, above the implied 0.60,
    with edge 0.30 where the distance of the two is 0.10: the invariant
    fails.  [size] then reads [p = 1 - 0.70 = 0.30] for this NO signal,
    the YES probability in place of the NO one. *)
Theorem arbitrage_no_signal_breaks_invariant :
  exists sg,
    scan_pairs float_of_str load_config
      [(overpriced_market, external_market)] = Ok [sg] /\
    side sg = NO /\
    implied_prob sg == 6 # 10 /\
    estimated_fair_prob sg == 7 # 10 /\
    edge sg == 3 # 10 /\
    Qabs (estimated_fair_prob sg - implied_prob sg) == 1 # 10 /\
    ~ signal_invariant sg /\
    risk_execution_agent.side_p sg == 3 # 10.
Proof.
  eexists. split; [reflexivity|].
  repeat (split; [reflexivity|]).
  split; [|reflexivity].
  intros [H _]. vm_compute in H. apply H. reflexivity.
Qed.

End Producers.

End SignalFacts.

(** ** The orchestrator cycle *)

Module CycleFacts.

Import config risk_execution_agent orchestrator spec.

(** Without [return_exceptions] a raising producer makes [gather]
    raise. *)
Lemma gather_propagates (outcomes : list (result (list Signal))) :
  (exists e, In (Raise e) outcomes) ->
  exists e, gather false outcomes = Raise e.
Proof.
  induction outcomes as [|o rest IH]; intros [e Hin]; [destruct Hin|].
  destruct o as [v|e0]; cbn [gather].
  - destruct Hin as [Heq | Hin]; [discriminate Heq|].
    destruct (IH (ex_intro _ e Hin)) as [e1 He1].
    rewrite He1. exists e1. reflexivity.
  - exists e0. reflexivity.
Qed.

(** A cycle in which a producer raises executes nothing and leaves the
    world as it was. *)
Lemma run_cycle_producer_raises (cfg : SuiteConfig) (now : string)
  (ob nlp arb : result (list Signal)) (bankroll : Q) (w : World) :
  (exists e, In (Raise e) [ob; nlp; arb]) ->
  exists e, run_cycle cfg now ob nlp arb bankroll w = (Raise e, w).
Proof.
  intro H. destruct (gather_propagates _ H) as [e He].
  exists e. unfold run_cycle, run_cycle_with. rewrite He. reflexivity.
Qed.

(** C3, at the failing input.  The orderbook scan raises (the exchange
    answers 503 to the market listing), the news analyzer returns one
    signal that sizes to a trade, the arbitrage scan returns nothing.
    [run_cycle] gathers with [return_exceptions=False]: the exception
    leaves the cycle, no signal is sized, the journal stays empty and the
    main loop records a failed cycle.  Gathering with
    [return_exceptions=True], which the [isinstance] tests that follow
    presuppose, executes the news signal and writes one journal line. *)
Theorem run_cycle_has_no_producer_isolation :
  let w0 := fresh_world [] in
  let ob := Raise (HTTPStatusError 503) in
  run_cycle load_config cycle_instant ob (Ok [news_signal]) (Ok [])
    (paper_bankroll load_config) w0
    = (Raise (HTTPStatusError 503), w0) /\
  main_iteration load_config cycle_instant ob (Ok [news_signal]) (Ok [])
    (paper_bankroll load_config) w0
    = (CycleFailed, w0) /\
  (exists o w1,
     run_cycle_with true load_config cycle_instant ob (Ok [news_signal])
       (Ok []) (paper_bankroll load_config) w0 = (Ok [o], w1) /\
     signal o = news_signal /\
     List.length (journal w1) = 1%nat) /\
  (forall cfg now e nlp arb bankroll w,
     run_cycle cfg now (Raise e) nlp arb bankroll w = (Raise e, w)).
Proof.
  intros w0 ob. split; [reflexivity|]. split; [reflexivity|]. split.
  - eexists. eexists. split; [vm_compute; reflexivity|].
    split; reflexivity.
  - intros. reflexivity.
Qed.

End CycleFacts.

(** ** Execution: paper and live *)

Module ExecutionFacts.

Import config risk_execution_agent spec.

Lemma execute_paper (order : TradeOrder) (w : World) :
  paper order = true -> execute order w = _paper_execute order w.
Proof. intro Hp. unfold execute. rewrite Hp. reflexivity. Qed.

Lemma _paper_execute_sent (order : TradeOrder) (w : World) :
  sent (snd (_paper_execute order w)) = sent w.
Proof. reflexivity. Qed.

(** C7.  Executing an order of paper mode sends nothing to the exchange
    (no request at all, so no POST to the orders endpoint), consumes no
    answer and sleeps for nothing; the returned order has its fill price
    set to its limit price, and the journal grows by exactly one line,
    which records this order with [paper = true]. *)
Theorem paper_execute_isolated (order : TradeOrder) (w : World) :
  paper order = true ->
  sent (snd (execute order w)) = sent w /\
  pending (snd (execute order w)) = pending w /\
  sleeps (snd (execute order w)) = sleeps w /\
  fill_price_cents (fst (execute order w)) = Some (limit_price_cents order) /\
  limit_price_cents (fst (execute order w)) = limit_price_cents order /\
  exists line,
    journal (snd (execute order w)) = journal w ++ [line] /\
    j_paper line = true /\
    j_ticker line = order_ticker order /\
    j_contracts line = contracts order /\
    j_limit_price_cents line = limit_price_cents order /\
    j_fill_price_cents line = Some (limit_price_cents order).
Proof.
  intro Hp. rewrite (execute_paper order w Hp).
  unfold _paper_execute. cbn [fst snd].
  repeat (split; [reflexivity|]).
  eexists. split; [reflexivity|].
  repeat split; reflexivity.
Qed.

Lemma paper_execute_isolated_witness :
  sent (snd (execute paper_order (fresh_world []))) = [] /\
  List.length (journal (snd (execute paper_order (fresh_world [])))) = 1%nat.
Proof.
  pose proof (paper_execute_isolated paper_order (fresh_world []) eq_refl)
    as [Hs [_ [_ [_ [_ [line [Hj _]]]]]]].
  split; [exact Hs|]. rewrite Hj. reflexivity.
Defined.

(** The live path, for contrast, sends one POST to the orders
    endpoint when the signer can be built, and writes no journal
    line. *)
Lemma live_execute_posts (order : TradeOrder) (w : World) :
  paper order = false ->
  suite_client._ensure_auth w = Ok tt ->
  exists rq,
    sent (snd (execute order w)) = sent w ++ [rq] /\
    req_method rq = "POST" /\
    req_path rq = "/portfolio/orders" /\
    journal (snd (execute order w)) = journal w.
Proof.
  intros Hp Hauth. unfold execute. rewrite Hp.
  unfold _live_execute, suite_client.place_order, suite_client._request.
  rewrite Hauth.
  destruct (order_side order); cbn [fst snd];
    unfold send; destruct (pending w) as [|[resp|e] rest];
    cbn [fst snd];
    try (destruct (suite_client.raise_for_status resp));
    try (destruct (body resp) as [doc|e]);
    try (destruct (order_id_of doc));
    cbn [fst snd sent journal];
    eexists; (split; [reflexivity|]); repeat split; reflexivity.
Qed.

(** A whole batch in paper mode sends nothing. *)
Lemma process_signals_paper_sends_nothing (cfg : SuiteConfig) (now : string)
  (signals : list Signal) (bankroll : Q) (w : World) :
  paper_trading cfg = true ->
  sent (snd (process_signals cfg now signals bankroll w)) = sent w.
Proof.
  intro Hp. revert w.
  induction signals as [|sg rest IH]; intro w; [reflexivity|].
  cbn [process_signals].
  destruct (size cfg sg bankroll) as [k|e]; [|reflexivity].
  destruct (should_trade k) eqn:Hk.
  - rewrite (OrderFacts.build_order_trades cfg now sg k Hk).
    match goal with
    | |- context [execute ?o w] =>
        rewrite (execute_paper o w Hp);
        pose proof (_paper_execute_sent o w) as Hs;
        destruct (_paper_execute o w) as [done w1] eqn:Hex
    end.
    cbn [snd] in Hs.
    specialize (IH w1).
    destruct (process_signals cfg now rest bankroll w1) as [[orders|e] w2];
      cbn [snd] in *; congruence.
  - rewrite (OrderFacts.build_order_skips cfg now sg k Hk). apply IH.
Qed.

End ExecutionFacts.

(** ** The gateways and rate limiting *)

Module GatewayFacts.

Import kalshi_client spec.

Lemma world_after_nil (w : World) (rq : Request) :
  world_after w rq [] (pending w) 0 = w.
Proof.
  unfold world_after. destruct w as [p s sl j].
  cbn. rewrite !app_nil_r. reflexivity.
Qed.

(** Each rate-limited answer with a usable header costs one retry, one
    request and one sleep. *)
Lemma request_with_rate_limited (limited : list Response) :
  forall (n : nat) (rq : Request) (w : World) (rest : list (result Response)),
    Forall waitable limited ->
    pending w = map Ok limited ++ rest ->
    request_with (List.length limited + n) rq w
      = request_with n rq (world_after w rq limited rest 0).
Proof.
  induction limited as [|r rs IH]; intros n rq w rest Hall Hp.
  - cbn [List.length map app plus] in *. subst rest.
    rewrite world_after_nil. reflexivity.
  - inversion Hall as [|r0 rs0 [Hst [k [Hk [Hk0 _]]]] Hrs]; subst r0 rs0.
    cbn [List.length plus request_with].
    unfold send. rewrite Hp. cbn [map app].
    rewrite Hst. cbn [Z.eqb Pos.eqb]. rewrite Hk.
    unfold sleep. apply Z.ltb_ge in Hk0 as Hlt. rewrite Hlt.
    cbn [sent pending sleeps journal].
    erewrite (IH n rq _ rest Hrs); [|reflexivity].
    f_equal. unfold world_after, wait_seconds.
    cbn [sent pending sleeps journal map List.length plus repeat].
    rewrite Hk. rewrite <- !app_assoc. reflexivity.
Qed.

(** The last request of a call: an answer that is not retried. *)
Lemma request_with_final (n : nat) (rq : Request) (w : World)
  (last : Response) (rest : list (result Response)) :
  pending w = Ok last :: rest ->
  (status_code last <> 429%Z \/ n = O) ->
  request_with n rq w
    = (finish last,
       {| key_material := key_material w;
          pending := rest; sent := sent w ++ [rq];
          sleeps := sleeps w; journal := journal w |}).
Proof.
  intros Hp Hc. destruct n as [|n]; cbn [request_with];
    unfold send; rewrite Hp; [reflexivity|].
  destruct Hc as [Hc | Hc]; [|discriminate Hc].
  apply Z.eqb_neq in Hc. rewrite Hc. reflexivity.
Qed.

Lemma world_after_final (w : World) (rq : Request) (limited : list Response)
  (rest0 rest : list (result Response)) :
  {| key_material := key_material (world_after w rq limited rest0 0);
     pending := rest;
     sent := sent (world_after w rq limited rest0 0) ++ [rq];
     sleeps := sleeps (world_after w rq limited rest0 0);
     journal := journal (world_after w rq limited rest0 0) |}
  = world_after w rq limited rest 1.
Proof.
  unfold world_after. cbn [key_material sent sleeps journal].
  rewrite <- app_assoc, Nat.add_0_r, Nat.add_1_r.
  replace (repeat rq (List.length limited) ++ [rq])
    with (repeat rq (S (List.length limited)))
    by (cbn [repeat]; apply (repeat_cons (List.length limited) rq)).
  reflexivity.
Qed.

Lemma finish_success (resp : Response) :
  (status_code resp < 400)%Z -> status_code resp <> 204%Z ->
  finish resp = body resp.
Proof.
  intros H4 H2. unfold finish.
  assert (E9 : (status_code resp =? 429)%Z = false) by (apply Z.eqb_neq; lia).
  assert (E4 : (400 <=? status_code resp)%Z = false) by (apply Z.leb_gt; lia).
  apply Z.eqb_neq in H2. rewrite E9, E4, H2. reflexivity.
Qed.

Lemma finish_no_content (resp : Response) :
  status_code resp = 204%Z -> finish resp = Ok (JObj []).
Proof. intro H. unfold finish. rewrite H. reflexivity. Qed.

(** The suite's gateway never sleeps. *)
Lemma suite_request_sleeps (method path : string) (json_body : option json)
  (w : World) :
  sleeps (snd (suite_client._request method path json_body w)) = sleeps w.
Proof.
  unfold suite_client._request.
  destruct (suite_client._ensure_auth w); [|reflexivity].
  unfold send. destruct (pending w) as [|[resp|e] rest]; try reflexivity.
  destruct (suite_client.raise_for_status resp); reflexivity.
Qed.

Lemma suite_request_429 (method path : string) (json_body : option json)
  (w : World) (resp : Response) (rest : list (result Response)) :
  suite_client._ensure_auth w = Ok tt ->
  pending w = Ok resp :: rest ->
  status_code resp = 429%Z ->
  suite_client._request method path json_body w
    = (Raise (HTTPStatusError 429),
       {| key_material := key_material w;
          pending := rest;
          sent := sent w ++ [{| req_method := method; req_path := path;
                                req_json := json_body |}];
          sleeps := sleeps w; journal := journal w |}).
Proof.
  intros Hauth Hp Hs. unfold suite_client._request, send.
  rewrite Hauth, Hp.
  unfold suite_client.raise_for_status. rewrite Hs. reflexivity.
Qed.

(** C6, as the code has it.  In [kalshi_client.client] a request answered
    by rate-limited responses (429, with a Retry-After header that is
    absent, empty, or the text of a non-negative integer below [2^32]),
    no more of them than
    the retry budget (default 3), sleeps once per such answer, for the
    seconds of its header or for 2, and sends the request again.  The
    answer that ends the call is handled as usual: a success status
    returns its decoded body, and the empty object for 204; a 429 once
    the budget is used up raises KalshiRateLimitError.  The gateway of
    [kalshi_alpha_suite] has no rate-limit handling: it never sleeps,
    and a 429 that answers a request it sent raises the HTTP status
    error of [raise_for_status] at once, with no second request. *)
Theorem rate_limit_retry (method endpoint : string)
  (json_body : option json) (retries : Z) (limited : list Response)
  (last : Response) (rest : list (result Response)) (w : World) :
  Forall waitable limited ->
  (Z.of_nat (List.length limited) <= retries)%Z ->
  pending w = map Ok limited ++ Ok last :: rest ->
  let rq := {| req_method := method; req_path := endpoint;
               req_json := json_body |} in
  let w' := world_after w rq limited rest 1 in
  ((status_code last < 400)%Z -> status_code last <> 204%Z ->
     _request method endpoint json_body retries w = (body last, w')) /\
  (status_code last = 204%Z ->
     _request method endpoint json_body retries w = (Ok (JObj []), w')) /\
  (status_code last = 429%Z -> Z.of_nat (List.length limited) = retries ->
     _request method endpoint json_body retries w
       = (Raise KalshiRateLimitError, w')) /\
  default_retries = 3%Z /\
  (forall path w0,
     sleeps (snd (suite_client._request method path json_body w0))
       = sleeps w0) /\
  (forall path w0 resp rest0,
     suite_client._ensure_auth w0 = Ok tt ->
     pending w0 = Ok resp :: rest0 ->
     status_code resp = 429%Z ->
     fst (suite_client._request method path json_body w0)
       = Raise (HTTPStatusError 429) /\
     sent (snd (suite_client._request method path json_body w0))
       = sent w0 ++ [{| req_method := method; req_path := path;
                        req_json := json_body |}] /\
     pending (snd (suite_client._request method path json_body w0))
       = rest0).
Proof.
  intros Hall Hlen Hp rq w'.
  assert (Hn : Z.to_nat retries
               = (List.length limited
                  + (Z.to_nat retries - List.length limited))%nat) by lia.
  assert (Hun : _request method endpoint json_body retries w
                = request_with (Z.to_nat retries - List.length limited) rq
                    (world_after w rq limited (Ok last :: rest) 0)).
  { unfold _request. fold rq. rewrite Hn at 1.
    apply request_with_rate_limited; assumption. }
  split; [|split; [|split; [|split; [|split]]]].
  - intros H4 H2. rewrite Hun.
    rewrite (request_with_final _ rq
               (world_after w rq limited (Ok last :: rest) 0) last rest
               eq_refl) by (left; lia).
    rewrite world_after_final, (finish_success last H4 H2). reflexivity.
  - intros H2. rewrite Hun.
    rewrite (request_with_final _ rq
               (world_after w rq limited (Ok last :: rest) 0) last rest
               eq_refl) by (left; lia).
    rewrite world_after_final, (finish_no_content last H2). reflexivity.
  - intros H9 He. rewrite Hun.
    rewrite (request_with_final _ rq
               (world_after w rq limited (Ok last :: rest) 0) last rest
               eq_refl) by (right; lia).
    rewrite world_after_final. unfold finish. rewrite H9. reflexivity.
  - reflexivity.
  - intros path w0. apply suite_request_sleeps.
  - intros path w0 resp rest0 Ha0 Hp0 Hs0.
    rewrite (suite_request_429 method path json_body w0 resp rest0
               Ha0 Hp0 Hs0).
    repeat split; reflexivity.
Qed.

(** The rate-limit scenario: a 429 with [Retry-After: 1], then a 200. *)
Lemma rate_limit_retry_witness :
  let doc := JObj [("exchange_active", JBool true)] in
  let w := fresh_world [Ok (too_many_requests (RA_int 1));
                        Ok (ok_response doc)] in
  fst (_request "GET" "/exchange/status" None default_retries w) = Ok doc /\
  sleeps (snd (_request "GET" "/exchange/status" None default_retries w))
    = [1%Z].
Proof.
  intros doc w.
  assert (Hall : Forall waitable [too_many_requests (RA_int 1)]).
  { constructor; [|constructor]. split; [reflexivity|].
    exists 1%Z. split; [reflexivity | lia]. }
  assert (Hlen : (Z.of_nat (List.length [too_many_requests (RA_int 1)])
                  <= default_retries)%Z) by (vm_compute; discriminate).
  pose proof (proj1 (rate_limit_retry "GET" "/exchange/status" None
                       default_retries [too_many_requests (RA_int 1)]
                       (ok_response doc) [] w Hall Hlen eq_refl)) as H.
  rewrite H; [split; reflexivity | reflexivity | discriminate].
Defined.

(** The suite's gateway answers the same scenario with an error and no
    sleep. *)
Lemma rate_limit_suite_counterexample : ~ rate_limit_as_stated.
Proof.
  intros [_ H].
  destruct (H "GET" "/markets" None 1%Z (JObj []) []
              (fresh_world [Ok (too_many_requests (RA_int 1));
                            Ok (ok_response (JObj []))])
              ltac:(lia) eq_refl) as [Hr _].
  vm_compute in Hr. discriminate Hr.
Qed.

End GatewayFacts.

(** ** The news analyzer *)

Module AnalyzerFacts.

Import nlp_agent spec.

Section Replies.

Variable float_of_str : string -> option Q.

(** The exceptions of one item: those that the loop catches, or an
    OverflowError of [float()] on one of the two numeric fields. *)
Lemma raw_of_item_raises (item : json) (e : exn) :
  raw_of_item float_of_str item = Raise e ->
  malformed e = true \/
  (e = OverflowError /\
   exists fields q,
     item = JObj fields /\
     (dict_get fields "prob_shift" = Some (JNum q) \/
      dict_get fields "confidence" = Some (JNum q)) /\
     float_overflow <= Qabs q).
Proof.
  destruct item as [| | | | |fields];
    try (intro H; injection H as <-; left; reflexivity).
  unfold raw_of_item.
  destruct (dict_get fields "ticker_keyword") as [kw|];
    [|intro H; injection H as <-; left; reflexivity].
  destruct (dict_get fields "side") as [sd|];
    [|intro H; injection H as <-; left; reflexivity].
  destruct (dict_get fields "prob_shift") as [ps|] eqn:Eshift;
    [|intro H; injection H as <-; left; reflexivity].
  destruct (py_float float_of_str ps) as [shift|e1] eqn:Eps; cbn [bind].
  - destruct (dict_get fields "confidence") as [cf|] eqn:Econf;
      [|intro H; injection H as <-; left; reflexivity].
    destruct (py_float float_of_str cf) as [conf|e2] eqn:Ecf; cbn [bind];
      [discriminate|].
    intro H. injection H as <-.
    destruct (py_float_raises float_of_str cf e2 Ecf) as [-> | [-> | [-> [q [-> Hq]]]]];
      [left; reflexivity | left; reflexivity |].
    right. split; [reflexivity|]. exists fields, q.
    split; [reflexivity|]. split; [right; exact Econf | exact Hq].
  - intro H. injection H as <-.
    destruct (py_float_raises float_of_str ps e1 Eps) as [-> | [-> | [-> [q [-> Hq]]]]];
      [left; reflexivity | left; reflexivity |].
    right. split; [reflexivity|]. exists fields, q.
    split; [reflexivity|]. split; [left; exact Eshift | exact Hq].
Qed.

Lemma accepted_length (items : list json) :
  (List.length (accepted float_of_str items) <= List.length items)%nat.
Proof.
  induction items as [|item rest IH]; [apply Nat.le_refl|].
  cbn [accepted flat_map List.length].
  fold (accepted float_of_str rest).
  destruct (raw_of_item float_of_str item); cbn [app List.length]; lia.
Qed.

(** Where no item overflows, the loop returns the items that convert
    and logs one debug record for each of the others. *)
Lemma collect_accepted (items : list json) :
  Forall (fun item => raw_of_item float_of_str item <> Raise OverflowError)
    items ->
  collect float_of_str items
    = (Ok (accepted float_of_str items),
       repeat (DEBUG, "Skipping malformed GPT item")
         (List.length items - List.length (accepted float_of_str items))).
Proof.
  induction items as [|item rest IH]; intro Hall; [reflexivity|].
  inversion Hall as [|i r Hitem Hrest]; subst i r.
  cbn [collect accepted flat_map List.length].
  fold (accepted float_of_str rest).
  rewrite (IH Hrest).
  pose proof (accepted_length rest) as Hlen.
  destruct (raw_of_item float_of_str item) as [raw|e] eqn:Er.
  - cbn [bind app List.length]. reflexivity.
  - destruct (raw_of_item_raises item e Er) as [Hm | [-> _]];
      [|contradiction].
    rewrite Hm. cbn [app].
    replace (S (List.length rest) - List.length (accepted float_of_str rest))%nat
      with (S (List.length rest - List.length (accepted float_of_str rest)))
      by lia.
    reflexivity.
Qed.

(** An item that overflows ends the loop with its exception, whatever
    follows it. *)
Lemma collect_overflow (before after : list json) (item : json) :
  Forall (fun item => raw_of_item float_of_str item <> Raise OverflowError)
    before ->
  raw_of_item float_of_str item = Raise OverflowError ->
  fst (collect float_of_str (before ++ item :: after)) = Raise OverflowError.
Proof.
  induction before as [|b rest IH]; intros Hall Hitem.
  - cbn [app collect]. rewrite Hitem. reflexivity.
  - inversion Hall as [|i r Hb Hrest]; subst i r.
    cbn [app collect]. specialize (IH Hrest Hitem).
    destruct (collect float_of_str (rest ++ item :: after)) as [later logs].
    cbn [fst] in IH. subst later.
    destruct (raw_of_item float_of_str b) as [raw|e] eqn:Er;
      [reflexivity|].
    destruct (raw_of_item_raises b e Er) as [Hm | [-> _]]; [|contradiction].
    rewrite Hm. reflexivity.
Qed.

(** An item converts only if it is an object holding the four required
    fields, the two numeric ones convertible by [float()]. *)
Lemma raw_of_item_fields (item : json) (raw : NLPSignalRaw) :
  raw_of_item float_of_str item = Ok raw ->
  exists fields,
    item = JObj fields /\
    dict_get fields "ticker_keyword" = Some (ticker_keyword raw) /\
    dict_get fields "side" = Some (raw_side raw) /\
    (exists v, dict_get fields "prob_shift" = Some v /\
               py_float float_of_str v = Ok (prob_shift raw)) /\
    (exists v, dict_get fields "confidence" = Some v /\
               py_float float_of_str v = Ok (raw_confidence raw)).
Proof.
  destruct item as [| | | | |fields]; try discriminate.
  unfold raw_of_item.
  destruct (dict_get fields "ticker_keyword") as [kw|] eqn:Ekw;
    [|discriminate].
  destruct (dict_get fields "side") as [sd|] eqn:Esd; [|discriminate].
  destruct (dict_get fields "prob_shift") as [ps|] eqn:Eshift;
    [|discriminate].
  destruct (py_float float_of_str ps) as [shift|e] eqn:Eps; [|discriminate].
  cbn [bind].
  destruct (dict_get fields "confidence") as [cf|] eqn:Econf;
    [|discriminate].
  destruct (py_float float_of_str cf) as [conf|e] eqn:Ecf; [|discriminate].
  cbn [bind]. intro H. injection H as <-.
  exists fields. cbn [ticker_keyword raw_side prob_shift raw_confidence].
  split; [reflexivity|]. split; [exact Ekw|]. split; [exact Esd|].
  split; [exists ps | exists cf]; split; assumption.
Qed.

(** Conversely, an object that holds the four required fields, the two
    numeric ones convertible by [float()], converts. *)
Lemma raw_of_item_converts (fields : list (string * json))
  (kw sd ps cf : json) (shift conf : Q) :
  dict_get fields "ticker_keyword" = Some kw ->
  dict_get fields "side" = Some sd ->
  dict_get fields "prob_shift" = Some ps ->
  py_float float_of_str ps = Ok shift ->
  dict_get fields "confidence" = Some cf ->
  py_float float_of_str cf = Ok conf ->
  exists raw,
    raw_of_item float_of_str (JObj fields) = Ok raw /\
    ticker_keyword raw = kw /\ raw_side raw = sd /\
    prob_shift raw = shift /\ raw_confidence raw = conf.
Proof.
  intros Hkw Hsd Hps Hshift Hcf Hconf. unfold raw_of_item.
  rewrite Hkw, Hsd, Hps, Hshift. cbn [bind]. rewrite Hcf, Hconf.
  cbn [bind]. eexists. split; [reflexivity|].
  repeat split; reflexivity.
Qed.

(** C9, as the code has it.  A non-empty reply that is not JSON is
    discarded with a warning; a missing or empty reply is read as the
    empty array, with no record at all.  A reply that decodes to a value
    other than an array is not discarded: it is analysed as the one-item
    array holding that value.  Of an array none of whose items makes
    [float()] overflow, exactly the items that are objects with
    [ticker_keyword], [side], and [prob_shift] and [confidence]
    convertible to float yield raw signals, in order, and each of the
    other items is skipped with one debug record, never a warning.  The
    only exception that an item can raise past the loop is the
    OverflowError of [float()] on a [prob_shift] or [confidence] that
    is a number beyond the range of a float. *)
Theorem llm_reply_validation (text : string) :
  text <> EmptyString ->
  analyze_headline float_of_str (Content (Some text) (Raise JSONDecodeError))
    = (Ok [], [(WARNING, "GPT returned non-JSON")]) /\
  (forall loaded,
     analyze_headline float_of_str (Content None loaded) = (Ok [], []) /\
     analyze_headline float_of_str (Content (Some EmptyString) loaded)
       = (Ok [], [])) /\
  (forall v,
     is_array v = false ->
     analyze_headline float_of_str (Content (Some text) (Ok v))
       = analyze_headline float_of_str
           (Content (Some text) (Ok (JArr [v])))) /\
  (forall items,
     Forall (fun item =>
               raw_of_item float_of_str item <> Raise OverflowError) items ->
     analyze_headline float_of_str (Content (Some text) (Ok (JArr items)))
       = (Ok (accepted float_of_str items),
          repeat (DEBUG, "Skipping malformed GPT item")
            (List.length items
             - List.length (accepted float_of_str items)))) /\
  (forall item raw,
     raw_of_item float_of_str item = Ok raw ->
     exists fields,
       item = JObj fields /\
       dict_get fields "ticker_keyword" = Some (ticker_keyword raw) /\
       dict_get fields "side" = Some (raw_side raw) /\
       (exists v, dict_get fields "prob_shift" = Some v /\
                  py_float float_of_str v = Ok (prob_shift raw)) /\
       (exists v, dict_get fields "confidence" = Some v /\
                  py_float float_of_str v = Ok (raw_confidence raw))) /\
  (forall fields kw sd ps cf shift conf,
     dict_get fields "ticker_keyword" = Some kw ->
     dict_get fields "side" = Some sd ->
     dict_get fields "prob_shift" = Some ps ->
     py_float float_of_str ps = Ok shift ->
     dict_get fields "confidence" = Some cf ->
     py_float float_of_str cf = Ok conf ->
     exists raw,
       raw_of_item float_of_str (JObj fields) = Ok raw /\
       ticker_keyword raw = kw /\ raw_side raw = sd /\
       prob_shift raw = shift /\ raw_confidence raw = conf) /\
  (forall item e,
     raw_of_item float_of_str item = Raise e ->
     malformed e = true \/
     (e = OverflowError /\
      exists fields q,
        item = JObj fields /\
        (dict_get fields "prob_shift" = Some (JNum q) \/
         dict_get fields "confidence" = Some (JNum q)) /\
        float_overflow <= Qabs q)) /\
  fst (analyze_headline float_of_str
         (Content (Some text) (Ok object_reply)))
    = Ok [{| ticker_keyword := JStr "CPI";
             raw_side := JStr "yes";
             prob_shift := 2 # 10;
             raw_confidence := 9 # 10;
             raw_rationale := JStr "CPI above consensus" |}].
Proof.
  intro Ht. destruct text as [|c text]; [contradiction|].
  split; [reflexivity|].
  split; [intro loaded; split; reflexivity|].
  split; [|split; [|split; [|split; [|split]]]].
  - intros v Hv. destruct v; try reflexivity. discriminate Hv.
  - intros items Hall. cbn [analyze_headline].
    apply collect_accepted, Hall.
  - apply raw_of_item_fields.
  - apply raw_of_item_converts.
  - apply raw_of_item_raises.
  - vm_compute. reflexivity.
Qed.

End Replies.

Lemma llm_reply_validation_witness :
  fst (analyze_headline (fun _ => None)
         (Content (Some "I cannot help with that")
            (Raise JSONDecodeError))) = Ok [] /\
  snd (analyze_headline (fun _ => None)
         (Content (Some "I cannot help with that")
            (Raise JSONDecodeError)))
    = [(WARNING, "GPT returned non-JSON")].
Proof.
  assert (Ht : "I cannot help with that" <> EmptyString) by discriminate.
  pose proof (proj1 (llm_reply_validation (fun _ => None)
                       "I cannot help with that" Ht)) as H.
  rewrite H. split; reflexivity.
Defined.

(** A reply that is a single object yields one raw signal and no
    warning. *)
Lemma llm_object_reply_counterexample : ~ llm_validation_as_stated.
Proof.
  intro H.
  destruct (H (fun _ => None) "an object" object_reply) as [Hr _];
    [discriminate | reflexivity |].
  vm_compute in Hr. discriminate Hr.
Qed.

End AnalyzerFacts.

(* ================================================================== *)
(** * Further properties of the code *)
(* ================================================================== *)

(** ** Kelly arithmetic *)

Module KellyMath.

Import config risk_execution_agent arbitrage_agent.

Lemma kelly_value_times_payout (p b : Q) :
  ~ b == 0 -> (p * (b + 1) - 1) / b * b == p * (b + 1) - 1.
Proof. intro Hb. field. exact Hb. Qed.

(** The Kelly fraction of a positive payout is positive exactly above
    the break-even probability [1/(b+1)], zero at it, and for a
    probability of at most one it never exceeds that probability. *)
Theorem kelly_fraction_break_even (p b : Q) :
  0 < b ->
  exists f,
    kelly_fraction p b = Ok f /\
    (0 < f <-> 1 / (b + 1) < p) /\
    (f == 0 <-> p == 1 / (b + 1)) /\
    (p <= 1 -> f <= p).
Proof.
  intro Hb. exists ((p * (b + 1) - 1) / b).
  split; [apply KellyFacts.kelly_fraction_formula, Hb|].
  assert (Hb0 : ~ b == 0) by (intro Hz; rewrite Hz in Hb; discriminate Hb).
  assert (Hb1 : 0 < b + 1) by lra.
  assert (Hb10 : ~ b + 1 == 0) by (intro Hz; rewrite Hz in Hb1; discriminate Hb1).
  pose proof (kelly_value_times_payout p b Hb0) as Hf.
  set (f := (p * (b + 1) - 1) / b) in *.
  assert (Hq : 1 / (b + 1) * (b + 1) == 1) by (field; exact Hb10).
  set (q := 1 / (b + 1)) in *.
  split; [|split].
  - split; intro H; nra.
  - split; intro H.
    + assert (E : (p - q) * (b + 1) == 0) by nra.
      apply Qmult_integral in E as [E | E]; [lra | contradiction].
    + assert (E : f * b == 0) by (rewrite Hf, H; nra).
      apply Qmult_integral in E as [E | E]; [exact E | contradiction].
  - intro Hp. nra.
Qed.

Lemma kelly_fraction_break_even_witness :
  exists f, kelly_fraction (1 # 2) 1 = Ok f /\ f == 0.
Proof.
  destruct (kelly_fraction_break_even (1 # 2) 1 eq_refl)
    as [f [Hf [_ [Hz _]]]].
  exists f. split; [exact Hf|]. apply Hz. reflexivity.
Defined.


Lemma kelly_fraction_monotone (p b1 b2 f1 f2 : Q) :
  p <= 1 -> 0 < b1 -> b1 <= b2 ->
  kelly_fraction p b1 = Ok f1 -> kelly_fraction p b2 = Ok f2 ->
  f1 <= f2.
Proof.
  intros Hp H1 H12 Hf1 Hf2.
  assert (H2 : 0 < b2) by lra.
  rewrite (KellyFacts.kelly_fraction_formula p b1 H1) in Hf1.
  rewrite (KellyFacts.kelly_fraction_formula p b2 H2) in Hf2.
  injection Hf1 as <-. injection Hf2 as <-.
  assert (N1 : ~ b1 == 0) by (intro Hz; rewrite Hz in H1; discriminate H1).
  assert (N2 : ~ b2 == 0) by (intro Hz; rewrite Hz in H2; discriminate H2).
  assert (E : (p * (b2 + 1) - 1) / b2 - (p * (b1 + 1) - 1) / b1
              == (1 - p) * (b2 - b1) * (/ b1 * / b2)) by (field; split; assumption).
  assert (Hi1 : 0 < / b1) by (apply Qinv_lt_0_compat, H1).
  assert (Hi2 : 0 < / b2) by (apply Qinv_lt_0_compat, H2).
  assert (Hpos : 0 <= (1 - p) * (b2 - b1) * (/ b1 * / b2)).
  { apply Qmult_le_0_compat.
    - apply Qmult_le_0_compat; lra.
    - apply Qlt_le_weak, Qmult_lt_0_compat; assumption. }
  lra.
Qed.

(** The fee on profit: for a fee rate in [0,1) a positive gross payout
    stays positive and does not grow, and for a probability of at most
    one the Kelly fraction after fees is at most the fraction before
    fees. *)
Theorem fees_shrink_payout_and_fraction (p gross_b fee_rate : Q) :
  0 <= fee_rate -> fee_rate < 1 -> 0 < gross_b -> p <= 1 ->
  0 < net_payout_after_fees gross_b fee_rate /\
  net_payout_after_fees gross_b fee_rate <= gross_b /\
  exists f_net f_gross,
    kelly_fraction p (net_payout_after_fees gross_b fee_rate) = Ok f_net /\
    kelly_fraction p gross_b = Ok f_gross /\
    f_net <= f_gross.
Proof.
  intros Hf0 Hf1 Hg Hp.
  assert (Hn : 0 < net_payout_after_fees gross_b fee_rate).
  { unfold net_payout_after_fees. apply Qmult_lt_0_compat; lra. }
  assert (Hle : net_payout_after_fees gross_b fee_rate <= gross_b).
  { unfold net_payout_after_fees. nra. }
  split; [exact Hn|]. split; [exact Hle|].
  eexists. eexists.
  split; [apply KellyFacts.kelly_fraction_formula, Hn|].
  split; [apply KellyFacts.kelly_fraction_formula, Hg|].
  eapply kelly_fraction_monotone; try eassumption;
    apply KellyFacts.kelly_fraction_formula; assumption.
Qed.

Lemma fees_shrink_payout_and_fraction_witness :
  net_payout_after_fees (15 # 10) (7 # 100) == 1395 # 1000 /\
  net_payout_after_fees (15 # 10) (7 # 100) <= 15 # 10.
Proof.
  split; [reflexivity|].
  exact (proj1 (proj2 (fees_shrink_payout_and_fraction (6 # 10) (15 # 10)
                         (7 # 100) ltac:(discriminate) eq_refl eq_refl
                         ltac:(discriminate)))).
Defined.

(** At the payout of a price, [b = 1/price - 1], the Kelly fraction is
    the edge over the price relative to the room above it:
    [(p - price) / (1 - price)]. *)
Theorem kelly_at_market_price (p market_price : Q) :
  0 < market_price -> market_price < 1 ->
  exists f,
    kelly_criterion p (1 / market_price - 1) = Ok f /\
    kelly_fraction p (1 / market_price - 1) = Ok f /\
    f == (p - market_price) / (1 - market_price).
Proof.
  intros H0 H1.
  assert (N0 : ~ market_price == 0)
    by (intro Hz; rewrite Hz in H0; discriminate H0).
  assert (Hb : 0 < 1 / market_price - 1).
  { assert (E : 1 / market_price - 1
                == / market_price * (1 - market_price)) by (field; exact N0).
    rewrite E. apply Qmult_lt_0_compat; [apply Qinv_lt_0_compat, H0 | lra]. }
  eexists. split; [|split].
  - change (kelly_criterion p (1 / market_price - 1))
      with (kelly_fraction p (1 / market_price - 1)).
    apply KellyFacts.kelly_fraction_formula, Hb.
  - apply KellyFacts.kelly_fraction_formula, Hb.
  - field. split; [lra | exact N0].
Qed.

Lemma kelly_at_market_price_witness :
  exists f, kelly_criterion (7 # 10) (1 / (4 # 10) - 1) = Ok f /\ f == 1 # 2.
Proof.
  destruct (kelly_at_market_price (7 # 10) (4 # 10) eq_refl eq_refl)
    as [f [Hf [_ He]]].
  exists f. split; [exact Hf|]. rewrite He. reflexivity.
Defined.

End KellyMath.

(** ** Rounding *)

Module RoundingFacts.

Lemma py_round_cases (x : Q) :
  py_round x = Qfloor x \/ py_round x = (Qfloor x + 1)%Z.
Proof.
  unfold py_round.
  destruct (Qcompare (x - inject_Z (Qfloor x)) (1 # 2));
    [destruct (Z.even (Qfloor x))|..]; auto.
Qed.

Lemma py_round_monotone (x y : Q) : x <= y -> (py_round x <= py_round y)%Z.
Proof.
  intro Hxy.
  pose proof (Qfloor_resp_le x y Hxy) as Hf.
  destruct (Z.eq_dec (Qfloor x) (Qfloor y)) as [E | N].
  - unfold py_round. rewrite E.
    destruct (Qcompare (x - inject_Z (Qfloor y)) (1 # 2)) eqn:Cx;
      destruct (Qcompare (y - inject_Z (Qfloor y)) (1 # 2)) eqn:Cy;
      try (destruct (Z.even (Qfloor y))); try lia;
      exfalso;
      first [rewrite <- Qlt_alt in Cx | rewrite <- Qgt_alt in Cx
            | rewrite <- Qeq_alt in Cx];
      first [rewrite <- Qlt_alt in Cy | rewrite <- Qgt_alt in Cy
            | rewrite <- Qeq_alt in Cy];
      lra.
  - destruct (py_round_cases x) as [-> | ->];
      destruct (py_round_cases y) as [-> | ->]; lia.
Qed.

Lemma py_round_integer (n : Z) : py_round (inject_Z n) = n.
Proof.
  unfold py_round. rewrite Qfloor_Z.
  assert (C : Qcompare (inject_Z n - inject_Z n) (1 # 2) = Lt)
    by (rewrite <- Qlt_alt;
        setoid_replace (inject_Z n - inject_Z n) with 0 by ring;
        reflexivity).
  rewrite C. reflexivity.
Qed.

Lemma scale_positive (ndigits : nat) : 0 < inject_Z (10 ^ Z.of_nat ndigits).
Proof.
  change 0 with (inject_Z 0). rewrite <- Zlt_Qlt.
  apply Z.pow_pos_nonneg; lia.
Qed.

Lemma py_round_nd_monotone (x y : Q) (ndigits : nat) :
  x <= y -> py_round_nd x ndigits <= py_round_nd y ndigits.
Proof.
  intro Hxy. unfold py_round_nd.
  pose proof (scale_positive ndigits) as Hs.
  apply Qmult_le_compat_r.
  - rewrite <- Zle_Qle. apply py_round_monotone.
    apply Qmult_le_compat_r; [exact Hxy | apply Qlt_le_weak, Hs].
  - apply Qlt_le_weak, Qinv_lt_0_compat, Hs.
Qed.

(** An amount that is a whole number of the last digit is kept. *)
Lemma py_round_nd_exact (n : Z) (ndigits : nat) :
  py_round_nd (inject_Z n / inject_Z (10 ^ Z.of_nat ndigits)) ndigits
  == inject_Z n / inject_Z (10 ^ Z.of_nat ndigits).
Proof.
  unfold py_round_nd.
  pose proof (scale_positive ndigits) as Hs.
  assert (E : inject_Z n / inject_Z (10 ^ Z.of_nat ndigits)
              * inject_Z (10 ^ Z.of_nat ndigits) == inject_Z n).
  { field. intro Hz. rewrite Hz in Hs. discriminate Hs. }
  rewrite (py_round_comp _ _ E), py_round_integer. reflexivity.
Qed.

End RoundingFacts.

(** ** Rounding to binary64 *)

Module FloatFacts.

Lemma py_round_near (x : Q) :
  x - (1 # 2) <= inject_Z (py_round x) /\ inject_Z (py_round x) <= x + (1 # 2).
Proof.
  unfold py_round.
  pose proof (Qfloor_le x) as Hlo. pose proof (Qlt_floor x) as Hhi.
  rewrite inject_Z_plus in Hhi. change (inject_Z 1) with 1 in Hhi.
  destruct (Qcompare (x - inject_Z (Qfloor x)) (1 # 2)) eqn:C.
  - rewrite <- Qeq_alt in C.
    assert (C1 : x - inject_Z (Qfloor x) <= 1 # 2)
      by (rewrite C; apply Qle_refl).
    assert (C2 : 1 # 2 <= x - inject_Z (Qfloor x))
      by (rewrite C; apply Qle_refl).
    destruct (Z.even (Qfloor x));
      [|rewrite inject_Z_plus; change (inject_Z 1) with 1]; split; lra.
  - rewrite <- Qlt_alt in C. split; lra.
  - rewrite <- Qgt_alt in C. rewrite inject_Z_plus.
    change (inject_Z 1) with 1. split; lra.
Qed.

(** A power of two with an integer exponent, against a fraction. *)
Lemma pow2_le_nonneg (z n : Z) (d : positive) :
  (0 <= z)%Z -> (2 ^ z * Z.pos d <= n)%Z -> 2 ^ z <= n # d.
Proof.
  intros Hz H.
  change (2:Q) with (inject_Z 2). rewrite <- Zpower_Qpower by exact Hz.
  unfold Qle. simpl. lia.
Qed.

Lemma pow2_le_neg (z n : Z) (d : positive) :
  (z < 0)%Z -> (Z.pos d <= n * 2 ^ (- z))%Z -> 2 ^ z <= n # d.
Proof.
  intros Hz H.
  replace z with (- (- z))%Z by lia.
  rewrite Qpower_opp.
  change (2:Q) with (inject_Z 2). rewrite <- Zpower_Qpower by lia.
  assert (Hp : (0 < 2 ^ (- z))%Z) by (apply Z.pow_pos_nonneg; lia).
  destruct (2 ^ (- z))%Z as [|p|p] eqn:E; try lia.
  unfold Qinv, inject_Z, Qle. simpl. lia.
Qed.

Lemma Qlog2_lower (x : Q) : 0 < x -> 2 ^ Qlog2 x <= x.
Proof.
  destruct x as [n d]. intro Hx.
  assert (Hn : (0 < n)%Z) by (unfold Qlt in Hx; simpl in Hx; lia).
  unfold Qlog2. cbn [Qnum Qden]. rewrite (Z.abs_eq n) by lia.
  pose proof (Z.log2_spec n Hn) as [Ha1 Ha2].
  pose proof (Z.log2_spec (Z.pos d) ltac:(lia)) as [Hb1 Hb2].
  pose proof (Z.log2_nonneg n) as Ha0.
  pose proof (Z.log2_nonneg (Z.pos d)) as Hb0.
  set (a := Z.log2 n) in *. set (b := Z.log2 (Z.pos d)) in *.
  rewrite Z.pow_succ_r in Ha2, Hb2 by assumption.
  destruct (0 <=? a - b)%Z eqn:Ek.
  - apply Z.leb_le in Ek.
    assert (EA : (2 ^ a = 2 ^ b * 2 ^ (a - b))%Z).
    { rewrite <- Z.pow_add_r by lia. f_equal. lia. }
    destruct (Z.pos d * 2 ^ (a - b) <=? n)%Z eqn:Et.
    + apply Z.leb_le in Et. apply pow2_le_nonneg; lia.
    + apply Z.leb_gt in Et.
      destruct (Z.eq_dec (a - b) 0) as [E0 | N0].
      * rewrite E0. apply pow2_le_neg; [lia|].
        rewrite E0 in EA. change (- (0 - 1))%Z with 1%Z.
        change (2 ^ 1)%Z with 2%Z. change (2 ^ 0)%Z with 1%Z in EA. lia.
      * apply pow2_le_nonneg; [lia|].
        assert (EK : (2 ^ (a - b) = 2 * 2 ^ (a - b - 1))%Z).
        { rewrite <- Z.pow_succ_r by lia. f_equal. lia. }
        assert (Hk : (0 < 2 ^ (a - b - 1))%Z)
          by (apply Z.pow_pos_nonneg; lia).
        nia.
  - apply Z.leb_gt in Ek.
    assert (EB : (2 ^ b = 2 ^ a * 2 ^ (- (a - b)))%Z).
    { rewrite <- Z.pow_add_r by lia. f_equal. lia. }
    assert (Hk : (0 < 2 ^ (- (a - b)))%Z) by (apply Z.pow_pos_nonneg; lia).
    destruct (Z.pos d <=? n * 2 ^ (- (a - b)))%Z eqn:Et.
    + apply Z.leb_le in Et. apply pow2_le_neg; lia.
    + apply pow2_le_neg; [lia|].
      replace (- (a - b - 1))%Z with (Z.succ (- (a - b))) by lia.
      rewrite Z.pow_succ_r by lia. nia.
Qed.

Lemma ulp_bound (x : Q) :
  2 ^ (-1022) <= x -> 2 ^ ulp_exponent x <= x * 2 ^ (-52).
Proof.
  intro Hx.
  assert (H0 : 0 < x).
  { apply Qlt_le_trans with (2 := Hx). apply Qpower_0_lt. reflexivity. }
  assert (H2 : ~ 2 == 0) by discriminate.
  assert (Hp : 0 <= 2 ^ (-52)) by (apply Qpower_0_le; discriminate).
  unfold ulp_exponent.
  destruct (Z.max_spec (-1074) (Qlog2 x - 52)) as [[_ ->] | [_ ->]].
  - replace (Qlog2 x - 52)%Z with (Qlog2 x + -52)%Z by lia.
    rewrite Qpower_plus by exact H2.
    apply Qmult_le_compat_r; [apply Qlog2_lower, H0 | exact Hp].
  - change (-1074)%Z with (-1022 + -52)%Z.
    rewrite Qpower_plus by exact H2.
    apply Qmult_le_compat_r; [exact Hx | exact Hp].
Qed.

(** The relative error of rounding to a double, in the normal range. *)
Lemma b64_error (x : Q) :
  2 ^ (-1022) <= x ->
  x - x * (1 # 2 ^ 53) <= b64 x /\ b64 x <= x + x * (1 # 2 ^ 53).
Proof.
  intro Hx. pose proof (ulp_bound x Hx) as Hu.
  unfold b64. set (U := 2 ^ ulp_exponent x) in *.
  assert (HU : 0 < U) by (apply Qpower_0_lt; reflexivity).
  destruct (py_round_near (x / U)) as [Hlo Hhi].
  set (R := inject_Z (py_round (x / U))) in *.
  assert (Hx' : x / U * U == x).
  { field. intro Hz. rewrite Hz in HU. discriminate HU. }
  assert (E52 : 2 ^ (-52) == 2 * (1 # 2 ^ 53)) by reflexivity.
  rewrite E52 in Hu.
  assert (Hlo' : (x / U - (1 # 2)) * U <= R * U)
    by (apply Qmult_le_compat_r; [exact Hlo | apply Qlt_le_weak, HU]).
  assert (Hhi' : R * U <= (x / U + (1 # 2)) * U)
    by (apply Qmult_le_compat_r; [exact Hhi | apply Qlt_le_weak, HU]).
  setoid_replace ((x / U - (1 # 2)) * U) with (x - (1 # 2) * U) in Hlo'
    by (rewrite <- Hx' at 2; ring).
  setoid_replace ((x / U + (1 # 2)) * U) with (x + (1 # 2) * U) in Hhi'
    by (rewrite <- Hx' at 2; ring).
  split; lra.
Qed.

Lemma b64_zero (x : Q) : x == 0 -> b64 x == 0.
Proof.
  intro Hx. unfold b64.
  assert (E : x / 2 ^ ulp_exponent x == inject_Z 0).
  { unfold Qdiv. change (inject_Z 0) with 0.
    transitivity (0 * / 2 ^ ulp_exponent x); [|ring].
    apply Qmult_comp; [exact Hx | reflexivity]. }
  rewrite (py_round_comp _ _ E), RoundingFacts.py_round_integer.
  change (inject_Z 0) with 0. ring.
Qed.

Lemma tiny_bound : 2 ^ (-1022) <= 1 # 1000.
Proof. vm_compute. discriminate. Qed.

Lemma in_normal_range (x : Q) : 1 # 1000 <= x -> 2 ^ (-1022) <= x.
Proof. intro H. apply Qle_trans with (2 := H). apply tiny_bound. Qed.

Lemma b64_hundred : b64 100 == 100.
Proof. vm_compute. reflexivity. Qed.

(** The quotient that [build_order] truncates: for a position of [c]
    cents and a price of [P] cents, its floor is [c / P] or one less. *)
Lemma contracts_quotient (pos : Q) (c P : Z) :
  (0 <= c <= 2 ^ 50)%Z -> (1 <= P <= 99)%Z ->
  pos == inject_Z c / 100 ->
  (c / P - 1
   <= Qfloor (b64 (b64 (float_mul pos 100) / b64 (inject_Z P)))
   <= c / P)%Z.
Proof.
  intros Hc HP Hpos.
  unfold float_mul.
  set (d0 := b64 pos).
  set (x1 := b64 (d0 * b64 100)).
  set (x2 := b64 x1).
  set (y := x2 / b64 (inject_Z P)).
  set (z := b64 y).
  pose proof (b64_cents P HP) as EP.
  pose proof b64_hundred as E100.
  assert (HPq : 1 <= inject_Z P /\ inject_Z P <= 99).
  { change 1 with (inject_Z 1). change 99 with (inject_Z 99).
    rewrite <- !Zle_Qle. lia. }
  assert (Hy : y * inject_Z P == x2).
  { unfold y. rewrite EP. field. lra. }
  destruct (Z.eq_dec c 0) as [-> | Hc0].
  - assert (Z0 : z == inject_Z 0).
    { change (inject_Z 0) with 0.
      assert (D0 : d0 == 0).
      { apply b64_zero. rewrite Hpos. reflexivity. }
      assert (X1 : x1 == 0).
      { apply b64_zero. rewrite D0. ring. }
      assert (X2 : x2 == 0) by (apply b64_zero, X1).
      apply b64_zero. unfold y. rewrite X2. unfold Qdiv. ring. }
    rewrite (Qfloor_comp _ _ Z0), Qfloor_Z.
    rewrite Z.div_0_l by lia. lia.
  - assert (HC : 1 <= inject_Z c /\ inject_Z c <= inject_Z (2 ^ 50)).
    { change 1 with (inject_Z 1). rewrite <- !Zle_Qle. lia. }
    assert (Hp100 : pos * 100 == inject_Z c) by (rewrite Hpos; field).
    set (C := inject_Z c) in *.
    change (inject_Z (2 ^ 50)) with 1125899906842624 in HC.
    (* the four roundings *)
    destruct (b64_error pos) as [D1 D2]; [apply in_normal_range; lra|].
    fold d0 in D1, D2.
    change (1 # 2 ^ 53) with (1 # 9007199254740992) in D1, D2.
    assert (E1 : d0 * b64 100 == d0 * 100)
      by (apply Qmult_comp; [reflexivity | exact E100]).
    destruct (b64_error (d0 * b64 100)) as [X1 X2];
      [apply in_normal_range; lra|].
    fold x1 in X1, X2.
    change (1 # 2 ^ 53) with (1 # 9007199254740992) in X1, X2.
    destruct (b64_error x1) as [W1 W2]; [apply in_normal_range; lra|].
    fold x2 in W1, W2.
    change (1 # 2 ^ 53) with (1 # 9007199254740992) in W1, W2.
    assert (Hx2 : 1 # 4 <= x2) by lra.
    assert (Hy0 : 1 # 1000 <= y).
    { destruct (Qlt_le_dec y (1 # 1000)) as [Hlt|]; [|assumption].
      exfalso.
      assert (y * inject_Z P <= (1 # 1000) * 99).
      { destruct (Qlt_le_dec y 0) as [Hneg | Hpos0].
        - apply Qle_trans with 0; [|discriminate].
          setoid_replace 0 with (0 * inject_Z P) by ring.
          apply Qmult_le_compat_r; lra.
        - apply Qle_trans with ((1 # 1000) * inject_Z P).
          + apply Qmult_le_compat_r; lra.
          + apply Qmult_le_l; [reflexivity | lra]. }
      lra. }
    destruct (b64_error y) as [Z1 Z2]; [apply in_normal_range, Hy0|].
    fold z in Z1, Z2.
    change (1 # 2 ^ 53) with (1 # 9007199254740992) in Z1, Z2.
    assert (ZP1 : (y - y * (1 # 9007199254740992)) * inject_Z P
                  <= z * inject_Z P)
      by (apply Qmult_le_compat_r; lra).
    assert (ZP2 : z * inject_Z P
                  <= (y + y * (1 # 9007199254740992)) * inject_Z P)
      by (apply Qmult_le_compat_r; lra).
    setoid_replace ((y - y * (1 # 9007199254740992)) * inject_Z P)
      with (x2 - x2 * (1 # 9007199254740992)) in ZP1
      by (rewrite <- Hy; ring).
    setoid_replace ((y + y * (1 # 9007199254740992)) * inject_Z P)
      with (x2 + x2 * (1 # 9007199254740992)) in ZP2
      by (rewrite <- Hy; ring).
    (* the integer quotient *)
    pose proof (Z.div_mod c P ltac:(lia)) as Hdm.
    pose proof (Z.mod_pos_bound c P ltac:(lia)) as Hmod.
    set (m := (c / P)%Z) in *.
    assert (Hm1 : inject_Z m * inject_Z P <= C).
    { unfold C. rewrite <- inject_Z_mult, <- Zle_Qle. lia. }
    assert (Hm2 : C + 1 <= inject_Z (m + 1) * inject_Z P).
    { unfold C. change 1 with (inject_Z 1).
      rewrite <- inject_Z_plus, <- inject_Z_mult, <- Zle_Qle. lia. }
    assert (Hup : z * inject_Z P < inject_Z (m + 1) * inject_Z P) by lra.
    assert (Hlo : inject_Z (m - 1) * inject_Z P <= z * inject_Z P).
    { replace (m - 1)%Z with (m + -1)%Z by lia.
      rewrite inject_Z_plus. change (inject_Z (-1)) with (-1).
      setoid_replace ((inject_Z m + -1) * inject_Z P)
        with (inject_Z m * inject_Z P - inject_Z P) by ring.
      lra. }
    apply Qmult_lt_r in Hup; [|lra].
    apply Qmult_le_r in Hlo; [|lra].
    pose proof (Qfloor_le z) as F1. pose proof (Qlt_floor z) as F2.
    split.
    + assert (H : inject_Z (m - 1) < inject_Z (Qfloor z + 1))
        by (apply Qle_lt_trans with (1 := Hlo); exact F2).
      rewrite <- Zlt_Qlt in H. lia.
    + assert (H : inject_Z (Qfloor z) < inject_Z (m + 1))
        by (apply Qle_lt_trans with (1 := F1); exact Hup).
      rewrite <- Zlt_Qlt in H. lia.
Qed.

End FloatFacts.

(** ** Sizing: cap, gate and edge *)

Module SizingMore.

Import config risk_execution_agent spec.

Lemma py_max_lower (a b : Q) : a <= py_max a b.
Proof.
  unfold py_max. destruct (Qltb a b) eqn:E; [|lra].
  apply Qltb_lt in E. lra.
Qed.

Lemma py_min_upper (a b : Q) : py_min a b <= b.
Proof.
  unfold py_min. destruct (Qltb b a) eqn:E; [lra|].
  apply Qltb_ge in E. exact E.
Qed.

Lemma py_min_lower (a b c : Q) : c <= a -> c <= b -> c <= py_min a b.
Proof. intros Ha Hb. unfold py_min. destruct (Qltb b a); assumption. Qed.

(** [size] always returns, and with a bankroll that is not negative and
    a cap that is a whole number of cents the returned position lies
    between zero and the cap. *)
Theorem size_position_within_cap (cfg : SuiteConfig) (s : Signal)
  (bankroll : Q) (cents : Z) :
  0 <= bankroll -> (0 <= cents)%Z ->
  max_position_usd cfg == inject_Z cents / 100 ->
  exists r,
    size cfg s bankroll = Ok r /\
    0 <= position_size_usd r /\
    position_size_usd r <= max_position_usd cfg.
Proof.
  intros Hb Hc Hmax.
  assert (Hm0 : 0 <= max_position_usd cfg).
  { rewrite Hmax. apply Qle_shift_div_l; [reflexivity|].
    setoid_replace (0 * 100) with (inject_Z 0) by reflexivity.
    rewrite <- Zle_Qle. exact Hc. }
  destruct (Qlt_le_dec 0 (side_market_price s)) as [H0 | H0];
    [destruct (Qlt_le_dec (side_market_price s) 1) as [H1 | H1]|].
  - destruct (SizingFacts.size_accepts cfg s bankroll H0 H1) as [f [_ Hs]].
    eexists. split; [exact Hs|]. cbn [position_size_usd].
    set (x := py_min (py_max 0 (f * config.kelly_fraction cfg) * bankroll)
                     (max_position_usd cfg)).
    assert (Hx0 : 0 <= x).
    { apply py_min_lower; [|exact Hm0].
      apply Qmult_le_0_compat; [apply py_max_lower | exact Hb]. }
    assert (Hx1 : x <= max_position_usd cfg) by apply py_min_upper.
    split.
    + setoid_replace 0 with (py_round_nd 0 2) by reflexivity.
      apply RoundingFacts.py_round_nd_monotone, Hx0.
    + pose proof (RoundingFacts.py_round_nd_monotone _ _ 2%nat Hx1) as Hr.
      assert (E : py_round_nd (max_position_usd cfg) 2
                  == max_position_usd cfg).
      { rewrite Hmax. exact (RoundingFacts.py_round_nd_exact cents 2). }
      rewrite E in Hr. exact Hr.
  - exists rejected. split; [|split; [apply Qle_refl | exact Hm0]].
    apply SizingFacts.size_rejects. intros [_ H]. lra.
  - exists rejected. split; [|split; [apply Qle_refl | exact Hm0]].
    apply SizingFacts.size_rejects. intros [H _]. lra.
Qed.

Lemma size_position_within_cap_witness :
  exists r,
    size load_config (signal_of YES (2 # 10) (8 # 10)) 100000 = Ok r /\
    position_size_usd r <= 500.
Proof.
  destruct (size_position_within_cap load_config
              (signal_of YES (2 # 10) (8 # 10)) 100000 50000
              ltac:(discriminate) ltac:(lia) ltac:(reflexivity))
    as [r [Hs [_ Hc]]].
  exists r. split; [exact Hs | exact Hc].
Defined.


(** Inside the price interval and below a fee rate of one, the value of
    [kelly_fraction] times the net payout is the expected value. *)
Lemma accepted_fraction (cfg : SuiteConfig) (s : Signal) (bankroll : Q) :
  kalshi_fee_rate cfg < 1 ->
  0 < side_market_price s -> side_market_price s < 1 ->
  let p := side_p s in
  let b := net_b cfg (side_market_price s) in
  exists f,
    0 < b /\
    f * b == expected_value p b /\
    size cfg s bankroll =
      Ok {| optimal_fraction := f;
            position_size_usd :=
              py_round_nd
                (py_min (py_max 0 (f * config.kelly_fraction cfg) * bankroll)
                        (max_position_usd cfg)) 2;
            net_ev := py_round_nd (p * b - (1 - p)) 4;
            should_trade :=
              Qltb (kelly_edge_min cfg) f && Qltb 0 (p * b - (1 - p))
              && Qltb 0 (py_min (py_max 0 (f * config.kelly_fraction cfg)
                                   * bankroll)
                                (max_position_usd cfg)) |}.
Proof.
  intros Hfee H0 H1 p b.
  pose proof (SizingFacts.net_b_positive cfg _ Hfee H0 H1) as Hb.
  fold b in Hb.
  destruct (SizingFacts.size_accepts cfg s bankroll H0 H1) as [f [Hf Hs]].
  fold p in Hf, Hs. fold b in Hf, Hs.
  exists f. split; [exact Hb|]. split; [|exact Hs].
  rewrite (KellyFacts.kelly_fraction_formula p b Hb) in Hf.
  injection Hf as <-. unfold expected_value.
  rewrite KellyMath.kelly_value_times_payout; [ring|].
  intro Hz. rewrite Hz in Hb. discriminate Hb.
Qed.

(** The expected-value test of the gate is implied by the fraction test:
    the expected value per dollar is [f* . net_b].  With a fee rate below
    one and a threshold that is not negative, a signal priced inside
    (0,1) trades exactly when [f*] exceeds the threshold and the
    position before rounding is positive. *)
Theorem size_gate_reduces (cfg : SuiteConfig) (s : Signal) (bankroll : Q) :
  kalshi_fee_rate cfg < 1 -> 0 <= kelly_edge_min cfg ->
  0 < side_market_price s -> side_market_price s < 1 ->
  exists r,
    size cfg s bankroll = Ok r /\
    expected_value (side_p s) (net_b cfg (side_market_price s))
      == optimal_fraction r * net_b cfg (side_market_price s) /\
    (should_trade r = true <->
       kelly_edge_min cfg < optimal_fraction r /\
       0 < position_usd cfg (optimal_fraction r) bankroll).
Proof.
  intros Hfee Hmin H0 H1.
  destruct (accepted_fraction cfg s bankroll Hfee H0 H1)
    as [f [Hb [Hev Hs]]].
  eexists. split; [exact Hs|].
  cbn [optimal_fraction should_trade].
  split; [symmetry; exact Hev|].
  unfold expected_value in Hev.
  rewrite !andb_true_iff, !Qltb_lt, SizingFacts.position_usd_py.
  split; [tauto|]. intros [Hf Hp].
  split; [split; [exact Hf|] | exact Hp].
  rewrite <- Hev. apply Qmult_lt_0_compat; lra.
Qed.

Lemma size_gate_reduces_witness :
  exists r,
    size load_config (signal_of YES (4 # 10) (6 # 10)) 1000 = Ok r /\
    should_trade r = true.
Proof.
  destruct (size_gate_reduces load_config (signal_of YES (4 # 10) (6 # 10))
              1000 eq_refl ltac:(discriminate) eq_refl eq_refl)
    as [r [Hs [_ Hg]]].
  exists r. split; [exact Hs|]. apply Hg.
  vm_compute in Hs. injection Hs as <-.
  split; reflexivity.
Defined.

(** A trade needs an edge and capital.  With a fee rate in [0,1) and a
    threshold that is not negative, [should_trade] implies that the
    side's price lies inside (0,1) and strictly below the side's
    probability, and that the bankroll, the cap and the Kelly multiplier
    are all positive.  In particular a bankroll of zero never trades. *)
Theorem size_trades_only_with_edge (cfg : SuiteConfig) (s : Signal)
  (bankroll : Q) (r : KellyResult) :
  0 <= kalshi_fee_rate cfg -> kalshi_fee_rate cfg < 1 ->
  0 <= kelly_edge_min cfg ->
  size cfg s bankroll = Ok r ->
  should_trade r = true ->
  0 < side_market_price s /\ side_market_price s < 1 /\
  side_market_price s < side_p s /\
  0 < bankroll /\ 0 < max_position_usd cfg /\ 0 < config.kelly_fraction cfg.
Proof.
  intros Hf0 Hf1 Hmin Hs Ht.
  destruct (Qlt_le_dec 0 (side_market_price s)) as [H0 | H0];
    [destruct (Qlt_le_dec (side_market_price s) 1) as [H1 | H1]|].
  2: { rewrite SizingFacts.size_rejects in Hs by (intros [_ H]; lra).
       injection Hs as <-. discriminate Ht. }
  2: { rewrite SizingFacts.size_rejects in Hs by (intros [H _]; lra).
       injection Hs as <-. discriminate Ht. }
  destruct (accepted_fraction cfg s bankroll Hf1 H0 H1)
    as [f [Hb [Hev Hs']]].
  rewrite Hs' in Hs. injection Hs as <-.
  cbn [should_trade] in Ht.
  rewrite !andb_true_iff, !Qltb_lt in Ht.
  destruct Ht as [[Hf Hnev] Hpos].
  set (p := side_p s) in *. set (m := side_market_price s) in *.
  set (b := net_b cfg m) in *.
  split; [exact H0|]. split; [exact H1|].
  assert (Hfu : 0 < py_max 0 (f * config.kelly_fraction cfg) * bankroll
                /\ 0 < max_position_usd cfg).
  { revert Hpos. unfold py_min.
    destruct (Qltb (max_position_usd cfg)
                (py_max 0 (f * config.kelly_fraction cfg) * bankroll)) eqn:E;
      intro Hpos.
    - apply Qltb_lt in E. split; lra.
    - apply Qltb_ge in E. split; lra. }
  destruct Hfu as [Hfu Hmax].
  assert (Hk : 0 < f * config.kelly_fraction cfg /\ 0 < bankroll).
  { revert Hfu. unfold py_max.
    destruct (Qltb 0 (f * config.kelly_fraction cfg)) eqn:E; intro Hfu.
    - apply Qltb_lt in E. split; [exact E|].
      destruct (Qlt_le_dec 0 bankroll) as [Hb0 | Hb0]; [exact Hb0|].
      exfalso. nra.
    - exfalso. nra. }
  destruct Hk as [Hfk Hbank].
  assert (Hkf : 0 < config.kelly_fraction cfg).
  { destruct (Qlt_le_dec 0 (config.kelly_fraction cfg)) as [H | H];
      [exact H|]. exfalso. nra. }
  split; [|repeat split; assumption].
  (* the price is below the probability *)
  assert (N0 : ~ m == 0) by (intro Hz; rewrite Hz in H0; discriminate H0).
  assert (Hi : / m * m == 1) by (field; exact N0).
  assert (Hipos : 0 < / m) by (apply Qinv_lt_0_compat, H0).
  assert (Hbdef : b == (/ m - 1) * (1 - kalshi_fee_rate cfg)).
  { unfold b, net_b. field. exact N0. }
  unfold expected_value in Hev.
  set (i := / m) in *.
  assert (Hi1 : 1 < i) by nra.
  assert (Hb1 : b + 1 <= i) by nra.
  assert (Hpb : 1 < p * (b + 1)) by lra.
  assert (Hp0 : 0 < p).
  { destruct (Qlt_le_dec 0 p) as [H | H]; [exact H|]. exfalso. nra. }
  assert (Hpi : 1 < p * i) by nra.
  nra.
Qed.

Lemma size_trades_only_with_edge_witness :
  side_market_price (signal_of NO (6 # 10) (3 # 10))
  < side_p (signal_of NO (6 # 10) (3 # 10)).
Proof.
  refine (proj1 (proj2 (proj2
    (size_trades_only_with_edge load_config
       (signal_of NO (6 # 10) (3 # 10)) 1000 _
       ltac:(discriminate) eq_refl ltac:(discriminate) _ _)))).
  - vm_compute. reflexivity.
  - reflexivity.
Defined.

End SizingMore.

(** ** Orders: cost, batches, live submission *)

Module BatchFacts.

Import config risk_execution_agent spec observed.

(** The cost of an order.  For a position that is a whole number of
    cents, at most [2^50] of them, the order holds as many contracts as
    the position affords at the limit price, or one fewer, and never
    fewer than one.  So the cost, contracts times price, stays within
    the position unless the order is the single contract that is always
    bought.  The one fewer is the truncation of a float quotient that
    fell just below a whole number: it leaves room for one more
    contract. *)
Theorem build_order_cost (cfg : SuiteConfig) (now : string) (s : Signal)
  (k : KellyResult) (o : TradeOrder) (cents : Z) :
  (0 <= cents <= 2 ^ 50)%Z ->
  position_size_usd k == inject_Z cents / 100 ->
  build_order cfg now s k = Ok (Some o) ->
  (Z.max 1 (cents / limit_price_cents o - 1) <= contracts o
   <= Z.max 1 (cents / limit_price_cents o))%Z /\
  (contracts o = 1%Z \/
   (contracts o * limit_price_cents o <= cents)%Z).
Proof.
  intros Hc Hpos Hb. destruct (should_trade k) eqn:Hk.
  2: { rewrite (OrderFacts.build_order_skips cfg now s k Hk) in Hb.
       discriminate Hb. }
  rewrite (OrderFacts.build_order_trades cfg now s k Hk) in Hb.
  injection Hb as <-. cbn [contracts limit_price_cents].
  set (price := clamp_price
                  (side_price (side s)
                     (py_int (float_mul (implied_prob s) 100)))).
  pose proof (OrderFacts.clamp_price_range
                (side_price (side s)
                   (py_int (float_mul (implied_prob s) 100)))) as Hr.
  fold price in Hr.
  rewrite max1_py_int_floor.
  pose proof (FloatFacts.contracts_quotient (position_size_usd k) cents
                price Hc Hr Hpos) as Hq.
  pose proof (Z.mul_div_le cents price ltac:(lia)) as Hm.
  split; [lia|].
  destruct (Z.le_gt_cases
              (Qfloor
                 (b64 (b64 (float_mul (position_size_usd k) 100)
                       / b64 (inject_Z price)))) 1) as [H1 | H1].
  - left. lia.
  - right. rewrite Z.max_r by lia. nia.
Qed.

Lemma build_order_cost_witness :
  exists o,
    build_order load_config cycle_instant (signal_of YES (23 # 100) 1)
      small_kelly = Ok (Some o) /\
    limit_price_cents o = 23%Z /\
    contracts o = 4%Z /\
    (Z.max 1 (115 / limit_price_cents o - 1) <= contracts o
     <= Z.max 1 (115 / limit_price_cents o))%Z.
Proof.
  eexists. split; [vm_compute; reflexivity|].
  split; [reflexivity|]. split; [reflexivity|].
  refine (proj1 (build_order_cost load_config cycle_instant
                   (signal_of YES (23 # 100) 1) small_kelly _ 115
                   _ _ _)).
  - lia.
  - reflexivity.
  - vm_compute. reflexivity.
Defined.

Lemma size_returns (cfg : SuiteConfig) (s : Signal) (bankroll : Q) :
  exists k, size cfg s bankroll = Ok k.
Proof.
  destruct (Qlt_le_dec 0 (side_market_price s)) as [H0 | H0];
    [destruct (Qlt_le_dec (side_market_price s) 1) as [H1 | H1]|].
  - destruct (SizingFacts.size_accepts cfg s bankroll H0 H1) as [f [_ Hs]].
    eexists. exact Hs.
  - exists rejected. apply SizingFacts.size_rejects. intros [_ H]. lra.
  - exists rejected. apply SizingFacts.size_rejects. intros [H _]. lra.
Qed.

Lemma world_eta (w : World) (lines : list JournalRecord) :
  lines = [] ->
  {| key_material := key_material w;
     pending := pending w; sent := sent w; sleeps := sleeps w;
     journal := journal w ++ lines |} = w.
Proof. intros ->. destruct w. cbn. rewrite app_nil_r. reflexivity. Qed.

Lemma _paper_execute_value (order : TradeOrder) (w : World) :
  exists filled line,
    _paper_execute order w = (filled, append_line line w) /\
    paper filled = paper order /\
    fill_price_cents filled = Some (limit_price_cents filled) /\
    signal filled = signal order /\
    kelly filled = kelly order /\
    j_ticker line = order_ticker filled /\
    j_paper line = true.
Proof.
  eexists. eexists. split; [reflexivity|]. repeat split; reflexivity.
Qed.

(** What a paper-mode batch does, as one statement over the world. *)
Lemma process_signals_paper_effects (cfg : SuiteConfig) (now : string)
  (bankroll : Q) (signals : list Signal) :
  paper_trading cfg = true ->
  forall w,
  exists orders lines,
    process_signals cfg now signals bankroll w
      = (Ok orders,
         {| key_material := key_material w;
            pending := pending w; sent := sent w; sleeps := sleeps w;
            journal := journal w ++ lines |}) /\
    map j_ticker lines = map order_ticker orders /\
    Forall (fun l => j_paper l = true) lines /\
    Forall (fun o =>
              paper o = true /\
              fill_price_cents o = Some (limit_price_cents o) /\
              In (signal o) signals /\
              should_trade (kelly o) = true) orders.
Proof.
  intro Hp. induction signals as [|sg rest IH]; intro w.
  - exists [], []. cbn [process_signals map].
    rewrite (world_eta w [] eq_refl). repeat split; constructor.
  - cbn [process_signals].
    destruct (size_returns cfg sg bankroll) as [k Hk]. rewrite Hk.
    destruct (should_trade k) eqn:Ht.
    + rewrite (OrderFacts.build_order_trades cfg now sg k Ht).
      match goal with
      | |- context [execute ?o w] =>
          rewrite (ExecutionFacts.execute_paper o w Hp);
          destruct (_paper_execute_value o w)
            as [filled [line [He [F1 [F2 [F3 [F4 [F5 F6]]]]]]]];
          rewrite He
      end.
      cbn [paper signal kelly] in F1, F3, F4.
      destruct (IH (append_line line w)) as [orders [lines [Hr [Hm [Hl Ho]]]]].
      rewrite Hr.
      exists (filled :: orders), (line :: lines).
      split; [|split; [|split]].
      * cbn [append_line pending sent sleeps journal].
        rewrite <- app_assoc. reflexivity.
      * cbn [map]. f_equal; [exact F5 | exact Hm].
      * constructor; [exact F6 | exact Hl].
      * constructor.
        -- repeat split.
           ++ rewrite F1. exact Hp.
           ++ exact F2.
           ++ left. symmetry. exact F3.
           ++ rewrite F4. exact Ht.
        -- eapply Forall_impl; [|exact Ho].
           intros o [H1 [H2 [H3 H4]]]. repeat split; try assumption.
           right. exact H3.
    + rewrite (OrderFacts.build_order_skips cfg now sg k Ht).
      destruct (IH w) as [orders [lines [Hr [Hm [Hl Ho]]]]].
      exists orders, lines. split; [exact Hr|]. split; [exact Hm|].
      split; [exact Hl|].
      eapply Forall_impl; [|exact Ho].
      intros o [H1 [H2 [H3 H4]]]. repeat split; try assumption.
      right. exact H3.
Qed.

(** A batch in paper mode never raises, sends nothing, consumes no
    answer and sleeps for nothing; the journal grows by exactly one line
    per returned order, in order; every returned order is a paper order
    filled at its limit price, built from one of the input signals whose
    sizing said to trade. *)
Theorem process_signals_paper_journal (cfg : SuiteConfig) (now : string)
  (signals : list Signal) (bankroll : Q) (w : World) :
  paper_trading cfg = true ->
  exists orders lines,
    process_signals cfg now signals bankroll w
      = (Ok orders,
         {| key_material := key_material w;
            pending := pending w; sent := sent w; sleeps := sleeps w;
            journal := journal w ++ lines |}) /\
    map j_ticker lines = map order_ticker orders /\
    Forall (fun l => j_paper l = true) lines /\
    Forall (fun o =>
              paper o = true /\
              fill_price_cents o = Some (limit_price_cents o) /\
              In (signal o) signals /\
              should_trade (kelly o) = true) orders.
Proof.
  intro Hp. apply process_signals_paper_effects, Hp.
Qed.

Lemma process_signals_paper_journal_witness :
  exists orders lines,
    process_signals load_config cycle_instant
      [signal_of YES (50 # 100) (51 # 100); news_signal] 5000
      (fresh_world [])
      = (Ok orders,
         {| key_material := usable_key;
            pending := []; sent := []; sleeps := []; journal := lines |}) /\
    map j_ticker lines = map order_ticker orders.
Proof.
  destruct (process_signals_paper_journal load_config cycle_instant
              [signal_of YES (50 # 100) (51 # 100); news_signal] 5000
              (fresh_world []) eq_refl)
    as [orders [lines [Hr [Hm _]]]].
  exists orders, lines. split; [exact Hr | exact Hm].
Defined.


(** The keys that the suite's gateway can sign with: a raw seed, and
    nothing else.  No key configured raises ValueError; a PEM key, from
    a file or base64-encoded, raises UnboundLocalError. *)
Lemma ensure_auth_cases (w : World) :
  (suite_client._ensure_auth w = Ok tt <-> key_material w = usable_key) /\
  (key_material w = KeyUnset ->
   suite_client._ensure_auth w = Raise ValueError) /\
  (forall key,
     key_material w = KeyFile (Ok key) \/
     key_material w = KeyB64 (PemPayload key) ->
     suite_client._ensure_auth w = Raise UnboundLocalError).
Proof.
  unfold suite_client._ensure_auth, suite_client.from_config, usable_key.
  split; [|split].
  - destruct (key_material w) as [[[]|e]|[|[]|[]]|]; cbn [bind];
      split; intro H; try discriminate H; reflexivity.
  - intros ->. reflexivity.
  - intros key [-> | ->]; reflexivity.
Qed.

(** The effects of a live execution on the world, and what it keeps of
    the order, when the signer can be built. *)
Lemma live_execute_effects (order : TradeOrder) (w : World) :
  paper order = false ->
  suite_client._ensure_auth w = Ok tt ->
  exists done w',
    execute order w = (done, w') /\
    key_material w' = key_material w /\
    sent w' = sent w ++ [order_request order] /\
    pending w' = tl (pending w) /\
    journal w' = journal w /\
    sleeps w' = sleeps w /\
    (done = order \/ exists oid, done = with_order_id order oid).
Proof.
  intros Hp Hauth. unfold execute. rewrite Hp.
  unfold _live_execute, suite_client.place_order, suite_client._request,
    order_request, price_key.
  rewrite Hauth.
  destruct (order_side order) eqn:Es; cbn [fst snd app];
    unfold send; destruct (pending w) as [|[resp|e] rest];
    cbn [fst snd];
    try (destruct (suite_client.raise_for_status resp));
    try (destruct (body resp) as [doc|e]);
    try (destruct (order_id_of doc) as [oid|e]);
    eexists; eexists; (split; [reflexivity|]);
    cbn [key_material sent pending journal sleeps tl];
    repeat (split; [reflexivity|]);
    try (left; reflexivity);
    right; eexists; unfold with_order_id; rewrite Es; reflexivity.
Qed.

(** Where the signer cannot be built, the exception is swallowed like
    any other: the order comes back as it was and the world is
    untouched. *)
Lemma live_execute_unsigned (order : TradeOrder) (w : World) (e : exn) :
  paper order = false ->
  suite_client._ensure_auth w = Raise e ->
  execute order w = (order, w).
Proof.
  intros Hp Hauth. unfold execute. rewrite Hp.
  unfold _live_execute, suite_client.place_order, suite_client._request.
  rewrite Hauth. destruct (order_side order); reflexivity.
Qed.

(** Submitting a live order.  With a key that the gateway can sign with
    (a raw seed) it sends exactly one request, a POST to the orders
    endpoint for a limit buy of the order's contracts with the limit
    price under the key of the order's side ([yes_price] for YES,
    [no_price] for NO, never both); it consumes one answer, writes no
    journal line and sleeps for nothing.  With any other key material
    the signer cannot be built: nothing is sent and the order comes
    back as it was.  That is so with no key configured (ValueError) and
    with every PEM key (UnboundLocalError). *)
Theorem live_execute_submits (order : TradeOrder) (w : World) :
  paper order = false ->
  (key_material w = usable_key ->
   sent (snd (execute order w)) = sent w ++ [order_request order] /\
   pending (snd (execute order w)) = tl (pending w) /\
   journal (snd (execute order w)) = journal w /\
   sleeps (snd (execute order w)) = sleeps w) /\
  (key_material w <> usable_key -> execute order w = (order, w)) /\
  (key_material w = KeyUnset ->
   suite_client._ensure_auth w = Raise ValueError) /\
  (forall key,
     key_material w = KeyFile (Ok key) \/
     key_material w = KeyB64 (PemPayload key) ->
     suite_client._ensure_auth w = Raise UnboundLocalError).
Proof.
  intro Hp.
  destruct (ensure_auth_cases w) as [Hok [Hunset Hpem]].
  split; [|split; [|split]]; [| |exact Hunset|exact Hpem].
  - intro Hk. apply Hok in Hk.
    destruct (live_execute_effects order w Hp Hk)
      as [done [w' [He [_ [H1 [H2 [H3 [H4 _]]]]]]]].
    rewrite He. cbn [snd]. repeat split; assumption.
  - intro Hk.
    destruct (suite_client._ensure_auth w) as [[]|e] eqn:Ea.
    + exfalso. apply Hk, Hok. reflexivity.
    + apply (live_execute_unsigned order w e Hp Ea).
Qed.

Lemma live_execute_submits_witness :
  sent (snd (execute live_order (fresh_world [])))
  = [{| req_method := "POST";
        req_path := "/portfolio/orders";
        req_json :=
          Some (JObj [("ticker", JStr "KXCPI-26");
                      ("action", JStr "buy");
                      ("side", JStr "no");
                      ("type", JStr "limit");
                      ("count", JNum 12);
                      ("no_price", JNum 40)]) |}].
Proof.
  exact (proj1 (proj1 (live_execute_submits live_order (fresh_world [])
                         eq_refl) eq_refl)).
Defined.

(** A failed submission is isolated: when the signer cannot be built,
    when the exchange does not answer, answers with a status outside
    2xx, with a body that is not JSON, or with a document whose
    ["order"] is not an object, the order comes back unchanged.  When
    the exchange answers the submitted request 2xx with
    [{"order": {"order_id": v}}] the order comes back with that
    identifier and is otherwise unchanged. *)
Theorem live_execute_outcome (order : TradeOrder) (w : World) :
  paper order = false ->
  (forall e,
     suite_client._ensure_auth w = Raise e ->
     fst (execute order w) = order) /\
  (pending w = [] -> fst (execute order w) = order) /\
  (forall e rest,
     pending w = Raise e :: rest -> fst (execute order w) = order) /\
  (forall resp rest,
     pending w = Ok resp :: rest -> ~ is_2xx resp ->
     fst (execute order w) = order) /\
  (forall resp rest e,
     pending w = Ok resp :: rest -> body resp = Raise e ->
     fst (execute order w) = order) /\
  (forall resp rest doc e,
     pending w = Ok resp :: rest -> body resp = Ok doc ->
     order_id_of doc = Raise e ->
     fst (execute order w) = order) /\
  (forall resp rest fields inner v,
     suite_client._ensure_auth w = Ok tt ->
     pending w = Ok resp :: rest -> is_2xx resp ->
     body resp = Ok (JObj fields) ->
     dict_get fields "order" = Some (JObj inner) ->
     dict_get inner "order_id" = Some v -> v <> JNull ->
     fst (execute order w) = with_order_id order (Some v)).
Proof.
  intro Hp.
  split.
  { intros e Ha. rewrite (live_execute_unsigned order w e Hp Ha).
    reflexivity. }
  destruct (suite_client._ensure_auth w) as [[]|e0] eqn:Ea.
  2: { rewrite (live_execute_unsigned order w e0 Hp Ea). cbn [fst].
       repeat split; try reflexivity. intros; discriminate. }
  unfold execute. rewrite Hp.
  unfold _live_execute, suite_client.place_order, suite_client._request,
    send.
  rewrite Ea.
  split; [|split; [|split; [|split; [|split]]]].
  - intros ->. destruct (order_side order); reflexivity.
  - intros e rest ->. destruct (order_side order); reflexivity.
  - intros resp rest -> Hn.
    assert (Hs : suite_client.raise_for_status resp
                 = Raise (HTTPStatusError (status_code resp))).
    { unfold suite_client.raise_for_status, is_2xx in *.
      destruct ((200 <=? status_code resp)%Z) eqn:E1;
        destruct ((status_code resp <? 300)%Z) eqn:E2; try reflexivity.
      exfalso. apply Hn. split; [apply Z.leb_le | apply Z.ltb_lt]; assumption. }
    destruct (order_side order); cbn [fst snd]; rewrite Hs; reflexivity.
  - intros resp rest e -> Hb.
    destruct (order_side order); cbn [fst snd];
      destruct (suite_client.raise_for_status resp);
      try rewrite Hb; reflexivity.
  - intros resp rest doc e -> Hb Ho.
    destruct (order_side order); cbn [fst snd];
      destruct (suite_client.raise_for_status resp);
      try rewrite Hb; try rewrite Ho; reflexivity.
  - intros resp rest fields inner v _ -> H2 Hb Hf Hi Hv.
    assert (Hs : suite_client.raise_for_status resp = Ok tt).
    { unfold suite_client.raise_for_status, is_2xx in *.
      destruct H2 as [Ha Hb2].
      apply Z.leb_le in Ha. apply Z.ltb_lt in Hb2.
      rewrite Ha, Hb2. reflexivity. }
    assert (Ho : order_id_of (JObj fields) = Ok (Some v)).
    { unfold order_id_of. rewrite Hf, Hi.
      destruct v; try reflexivity. contradiction. }
    destruct (order_side order) eqn:Es; cbn [fst snd];
      rewrite Hs, Hb, Ho; unfold with_order_id; rewrite Es; reflexivity.
Qed.

Lemma live_execute_outcome_witness :
  fst (execute live_order
         (fresh_world
            [Ok (ok_response
                   (JObj [("order",
                           JObj [("order_id", JStr "ord123")])]))]))
  = with_order_id live_order (Some (JStr "ord123")).
Proof.
  refine (proj2 (proj2 (proj2 (proj2 (proj2 (proj2
    (live_execute_outcome live_order
       (fresh_world
          [Ok (ok_response
                 (JObj [("order", JObj [("order_id", JStr "ord123")])]))])
       eq_refl)))))) _ _ _ _ (JStr "ord123") eq_refl eq_refl _ eq_refl
       eq_refl eq_refl _).
  - unfold is_2xx. cbn. lia.
  - discriminate.
Defined.


Lemma skipn_tl {A} (n : nat) (l : list A) : skipn n (tl l) = skipn (S n) l.
Proof. destruct l; [destruct n|]; reflexivity. Qed.

Lemma order_request_with_id (order : TradeOrder) (oid : option json) :
  order_request (with_order_id order oid) = order_request order.
Proof. reflexivity. Qed.

Lemma process_signals_live_effects (cfg : SuiteConfig) (now : string)
  (bankroll : Q) (signals : list Signal) :
  paper_trading cfg = false ->
  forall w,
  suite_client._ensure_auth w = Ok tt ->
  exists orders w',
    process_signals cfg now signals bankroll w = (Ok orders, w') /\
    sent w' = sent w ++ map order_request orders /\
    pending w' = skipn (List.length orders) (pending w) /\
    journal w' = journal w /\
    sleeps w' = sleeps w /\
    Forall (fun o =>
              paper o = false /\ fill_price_cents o = None /\
              In (signal o) signals) orders.
Proof.
  intro Hp. induction signals as [|sg rest IH]; intros w Hauth.
  - exists [], w. cbn [process_signals map List.length skipn].
    rewrite app_nil_r. repeat split. constructor.
  - cbn [process_signals].
    destruct (size_returns cfg sg bankroll) as [k Hk]. rewrite Hk.
    destruct (should_trade k) eqn:Ht.
    + rewrite (OrderFacts.build_order_trades cfg now sg k Ht).
      match goal with
      | |- context [execute ?o w] =>
          set (built := o);
          destruct (live_execute_effects built w Hp Hauth)
            as [done [w1 [He [K1 [S1 [P1 [J1 [L1 Hd]]]]]]]];
          rewrite He
      end.
      assert (Hauth1 : suite_client._ensure_auth w1 = Ok tt).
      { unfold suite_client._ensure_auth in *. rewrite K1. exact Hauth. }
      destruct (IH w1 Hauth1) as [orders [w2 [Hr [S2 [P2 [J2 [L2 Ho]]]]]]].
      rewrite Hr. exists (done :: orders), w2.
      split; [reflexivity|].
      assert (Hreq : order_request done = order_request built)
        by (destruct Hd as [-> | [oid ->]]; reflexivity).
      split; [|split; [|split; [|split]]].
      * cbn [map]. rewrite S2, S1, Hreq, <- app_assoc. reflexivity.
      * cbn [List.length]. rewrite P2, P1. apply skipn_tl.
      * congruence.
      * congruence.
      * constructor.
        -- destruct Hd as [-> | [oid ->]];
             (split; [exact Hp|]); (split; [reflexivity|]);
             left; reflexivity.
        -- eapply Forall_impl; [|exact Ho].
           intros o [H1 [H2 H3]]. repeat split; try assumption.
           right. exact H3.
    + rewrite (OrderFacts.build_order_skips cfg now sg k Ht).
      destruct (IH w Hauth) as [orders [w2 [Hr [S2 [P2 [J2 [L2 Ho]]]]]]].
      exists orders, w2. repeat (split; [assumption|]).
      eapply Forall_impl; [|exact Ho].
      intros o [H1 [H2 H3]]. repeat split; try assumption.
      right. exact H3.
Qed.

(** Without a signer the batch returns its orders as they were built and
    leaves the world as it was. *)
Lemma process_signals_live_unsigned (cfg : SuiteConfig) (now : string)
  (bankroll : Q) (signals : list Signal) (w : World) (e : exn) :
  paper_trading cfg = false ->
  suite_client._ensure_auth w = Raise e ->
  exists orders,
    process_signals cfg now signals bankroll w = (Ok orders, w) /\
    Forall (fun o =>
              paper o = false /\ fill_price_cents o = None /\
              order_id o = None /\ In (signal o) signals) orders.
Proof.
  intros Hp Hauth. induction signals as [|sg rest IH].
  - exists []. split; [reflexivity | constructor].
  - cbn [process_signals].
    destruct (size_returns cfg sg bankroll) as [k Hk]. rewrite Hk.
    destruct IH as [orders [Hr Ho]].
    assert (Ho' : Forall (fun o =>
                            paper o = false /\ fill_price_cents o = None /\
                            order_id o = None /\ In (signal o) (sg :: rest))
                    orders).
    { eapply Forall_impl; [|exact Ho].
      intros o [H1 [H2 [H3 H4]]]. repeat split; try assumption.
      right. exact H4. }
    destruct (should_trade k) eqn:Ht.
    + rewrite (OrderFacts.build_order_trades cfg now sg k Ht).
      match goal with
      | |- context [execute ?o w] =>
          rewrite (live_execute_unsigned o w e Hp Hauth)
      end.
      rewrite Hr. eexists. split; [reflexivity|].
      constructor; [|exact Ho'].
      cbn [paper fill_price_cents order_id signal].
      repeat split; try assumption; try reflexivity.
      left. reflexivity.
    + rewrite (OrderFacts.build_order_skips cfg now sg k Ht).
      exists orders. split; [exact Hr | exact Ho'].
Qed.

(** A batch in live mode never raises, whatever the key material and
    whatever the exchange answers.  With a key that the gateway can sign
    with, it sends exactly one order request per returned order, in
    order, consumes one answer for each, writes no journal line and
    never sleeps; the returned orders are live orders without a fill
    price, each built from one of the input signals.  With any other
    key material (none, or any PEM key) it sends nothing: the world is
    left as it was and the orders come back without an identifier. *)
Theorem process_signals_live_requests (cfg : SuiteConfig) (now : string)
  (signals : list Signal) (bankroll : Q) (w : World) :
  paper_trading cfg = false ->
  (key_material w = usable_key ->
   exists orders w',
     process_signals cfg now signals bankroll w = (Ok orders, w') /\
     sent w' = sent w ++ map order_request orders /\
     pending w' = skipn (List.length orders) (pending w) /\
     journal w' = journal w /\
     sleeps w' = sleeps w /\
     Forall (fun o =>
               paper o = false /\ fill_price_cents o = None /\
               In (signal o) signals) orders) /\
  (key_material w <> usable_key ->
   exists orders,
     process_signals cfg now signals bankroll w = (Ok orders, w) /\
     Forall (fun o =>
               paper o = false /\ fill_price_cents o = None /\
               order_id o = None /\ In (signal o) signals) orders).
Proof.
  intro Hp. destruct (ensure_auth_cases w) as [Hok _]. split.
  - intro Hk. apply Hok in Hk.
    apply process_signals_live_effects; assumption.
  - intro Hk.
    destruct (suite_client._ensure_auth w) as [[]|e] eqn:Ea.
    + exfalso. apply Hk, Hok. reflexivity.
    + apply (process_signals_live_unsigned cfg now bankroll signals w e
               Hp Ea).
Qed.

Lemma process_signals_live_requests_witness :
  exists orders w',
    process_signals live_config cycle_instant [news_signal] 5000
      (fresh_world [Raise ConnectionError]) = (Ok orders, w') /\
    sent w' = map order_request orders /\
    journal w' = [].
Proof.
  destruct (proj1 (process_signals_live_requests live_config cycle_instant
                     [news_signal] 5000 (fresh_world [Raise ConnectionError])
                     eq_refl) eq_refl)
    as [orders [w' [Hr [Hs [_ [Hj _]]]]]].
  exists orders, w'. split; [exact Hr|]. split; [exact Hs | exact Hj].
Defined.

End BatchFacts.

(** ** The orderbook scanner: parsing, signals, pagination *)

Module OrderbookMore.

Import config orderbook_agent spec.

(** Parsing a book.  The ["orderbook"] wrapper makes no difference; the
    result is [None] exactly when both sides are empty; otherwise the best
    bids are the prices of the first levels (0 for an empty side), the
    synthetic ask is [100 - best_no_bid] for a positive NO bid and 100
    otherwise, and the spread is the ask minus the YES bid. *)
Theorem parse_orderbook_shape (ticker : string) (ob : Book) :
  _parse_orderbook ticker (Wrapped ob) = _parse_orderbook ticker (Bare ob) /\
  (_parse_orderbook ticker (Bare ob) = None <-> yes ob = [] /\ no ob = []) /\
  (forall snap,
     _parse_orderbook ticker (Bare ob) = Some snap ->
     snap_ticker snap = ticker /\
     best_yes_bid snap = match yes ob with (p, _) :: _ => p | [] => 0%Z end /\
     best_no_bid snap = match no ob with (p, _) :: _ => p | [] => 0%Z end /\
     synthetic_yes_ask snap
       = (if (0 <? best_no_bid snap)%Z
          then 100 - best_no_bid snap else 100)%Z /\
     spread_cents snap = (synthetic_yes_ask snap - best_yes_bid snap)%Z) /\
  (forall p q rest,
     yes ob = (p, q) :: rest -> no ob = [] ->
     exists snap,
       _parse_orderbook ticker (Bare ob) = Some snap /\
       synthetic_yes_ask snap = 100%Z /\
       spread_cents snap = (100 - p)%Z).
Proof.
  split; [reflexivity|]. split; [|split].
  - unfold _parse_orderbook.
    destruct (yes ob) as [|y ys], (no ob) as [|n ns]; split;
      try discriminate; try reflexivity; try (intros [H1 H2]; discriminate);
      intros _; split; reflexivity.
  - intros snap. unfold _parse_orderbook.
    destruct (yes ob) as [|[py qy] ys], (no ob) as [|[pn qn] ns];
      intro H; try discriminate H; injection H as <-;
      repeat split; reflexivity.
  - intros p q rest Hy Hn. unfold _parse_orderbook. rewrite Hy, Hn.
    eexists. split; [reflexivity|]. split; reflexivity.
Qed.

(** What the scanner emits.  A signal is emitted only for a spread
    strictly past the threshold; with a threshold that is not negative
    the snapshot then has a liquidity void and the confidence lies in
    (0, 1]; over a YES bid that is not zero the implied probability is
    the bid, the edge is half the spread in probability units,
    [spread_cents / 200], and is positive. *)
Theorem scan_market_signal (threshold : Z) (ticker : string)
  (raw : RawOrderbook) (sg : Signal) :
  (0 <= threshold)%Z ->
  scan_market threshold ticker (Ok raw) = Some sg ->
  exists snap,
    _parse_orderbook ticker raw = Some snap /\
    (threshold < spread_cents snap)%Z /\
    has_liquidity_void snap = true /\
    models.ticker sg = ticker /\ source sg = ORDERBOOK /\ side sg = YES /\
    0 < confidence sg /\ confidence sg <= 1 /\
    (best_yes_bid snap <> 0%Z ->
       implied_prob sg == inject_Z (best_yes_bid snap) / 100 /\
       edge sg == inject_Z (spread_cents snap) / 200 /\
       0 < edge sg).
Proof.
  intros Ht. unfold scan_market.
  destruct (_parse_orderbook ticker raw) as [snap|] eqn:Hp; [|discriminate].
  destruct ((spread_cents snap <=? threshold)%Z) eqn:Hs; [discriminate|].
  intro H. injection H as <-. apply Z.leb_gt in Hs.
  exists snap. split; [reflexivity|]. split; [exact Hs|].
  split; [apply Z.ltb_lt; lia|].
  cbn [void_signal models.ticker source side confidence implied_prob edge].
  repeat (split; [reflexivity|]).
  assert (Hq : 0 < inject_Z (spread_cents snap)).
  { change 0 with (inject_Z 0). rewrite <- Zlt_Qlt. lia. }
  assert (Hc : 0 < inject_Z (spread_cents snap) / 10).
  { apply Qlt_shift_div_l; [reflexivity | lra]. }
  split; [|split].
  - unfold py_min. destruct (Qltb 1 (inject_Z (spread_cents snap) / 10));
      [reflexivity | exact Hc].
  - unfold py_min.
    destruct (Qltb 1 (inject_Z (spread_cents snap) / 10)) eqn:E;
      [apply Qle_refl | apply Qltb_ge in E; exact E].
  - intro Hb. apply Z.eqb_neq in Hb. rewrite Hb.
    destruct (OrderbookFacts.parse_synthetic_ask ticker raw snap Hp)
      as [_ Hsp].
    assert (E : inject_Z (best_yes_bid snap + synthetic_yes_ask snap) / 2 / 100
                - inject_Z (best_yes_bid snap) / 100
                == inject_Z (spread_cents snap) / 200).
    { rewrite Hsp. unfold Z.sub. rewrite !inject_Z_plus, inject_Z_opp.
      field. }
    split; [reflexivity|]. split; [exact E|].
    rewrite E. apply Qlt_shift_div_l; [reflexivity | lra].
Qed.

Lemma scan_market_signal_witness :
  exists sg,
    scan_market 3 "KXTEST" (Ok (Wrapped void_book)) = Some sg /\
    edge sg == 25 # 1000.
Proof.
  eexists. split; [reflexivity|].
  destruct (scan_market_signal 3 "KXTEST" (Wrapped void_book) _
              ltac:(lia) eq_refl)
    as [snap [Hp [_ [_ [_ [_ [_ [_ [_ He]]]]]]]]].
  injection Hp as <-.
  destruct He as [_ [He _]]; [discriminate|].
  rewrite He. reflexivity.
Defined.



Lemma parse_orderbook_shape_witness :
  exists snap,
    _parse_orderbook "YES-ONLY" (Bare {| yes := [(30, 10)%Z]; no := [] |})
    = Some snap /\
    synthetic_yes_ask snap = 100%Z /\ spread_cents snap = 70%Z.
Proof.
  exact (proj2 (proj2 (proj2
           (parse_orderbook_shape "YES-ONLY"
              {| yes := [(30, 10)%Z]; no := [] |})))
           30%Z 10%Z [] eq_refl eq_refl).
Defined.

Section Pagination.

Variable get_markets : Z -> option string -> result MarketsPage.
Variable get_orderbook : string -> result RawOrderbook.

Lemma scan_pages_step (threshold limit : Z) (turns : nat) (fetched : Z)
  (cursor : option string) :
  orderbook_agent.scan_pages get_markets get_orderbook (S turns) threshold
    limit fetched cursor
  = if (fetched <? limit)%Z then
      page <- get_markets (Z.min 100 (limit - fetched)) cursor ;;
      match page_markets page with
      | [] => Ok ([], fetched)
      | tickers =>
          match page_cursor page with
          | None | Some EmptyString =>
              Ok (orderbook_agent.scan_page get_orderbook threshold tickers,
                  (fetched + Z.of_nat (List.length tickers))%Z)
          | Some next =>
              later <- orderbook_agent.scan_pages get_markets get_orderbook
                         turns threshold limit
                         (fetched + Z.of_nat (List.length tickers))%Z
                         (Some next) ;;
              Ok (orderbook_agent.scan_page get_orderbook threshold tickers
                    ++ fst later, snd later)
          end
      end
    else Ok ([], fetched).
Proof. reflexivity. Qed.

(** One turn more than the markets still allowed changes nothing. *)
Lemma scan_pages_extra_turn (threshold limit : Z) (turns : nat) :
  forall fetched cursor,
    (Z.to_nat (limit - fetched) <= turns)%nat ->
    orderbook_agent.scan_pages get_markets get_orderbook (S turns) threshold limit fetched cursor
    = orderbook_agent.scan_pages get_markets get_orderbook turns threshold limit fetched cursor.
Proof.
  induction turns as [|t IH]; intros fetched cursor Hle.
  - cbn [orderbook_agent.scan_pages].
    assert (E : (fetched <? limit)%Z = false) by (apply Z.ltb_ge; lia).
    rewrite E. reflexivity.
  - rewrite (scan_pages_step threshold limit (S t)),
      (scan_pages_step threshold limit t).
    destruct ((fetched <? limit)%Z) eqn:E; [|reflexivity].
    apply Z.ltb_lt in E.
    destruct (get_markets (Z.min 100 (limit - fetched)) cursor)
      as [page|e]; [|reflexivity].
    cbn [bind].
    destruct (page_markets page) as [|m ms]; [reflexivity|].
    destruct (page_cursor page) as [[|c next]|]; try reflexivity.
    rewrite IH; [reflexivity|].
    cbn [List.length]. lia.
Qed.

Lemma scan_pages_more_turns (threshold limit : Z) (extra turns : nat) :
  forall fetched cursor,
    (Z.to_nat (limit - fetched) <= turns)%nat ->
    orderbook_agent.scan_pages get_markets get_orderbook (extra + turns) threshold limit fetched cursor
    = orderbook_agent.scan_pages get_markets get_orderbook turns threshold limit fetched cursor.
Proof.
  induction extra as [|k IH]; intros fetched cursor Hle; [reflexivity|].
  cbn [plus]. rewrite scan_pages_extra_turn by lia. apply IH, Hle.
Qed.

(** The pagination loop ends.  Whatever the exchange lists, even a
    cursor on every page, [limit] turns of the loop reach its end: any
    larger number of turns gives the same result.  A limit that is not
    positive lists nothing, and a listing that fails on the first page
    raises out of the scan. *)
Theorem scan_all_open_markets_ends (threshold limit : Z) :
  (forall turns,
     (Z.to_nat limit <= turns)%nat ->
     orderbook_agent.scan_pages get_markets get_orderbook turns threshold limit 0 None
     = scan_all_open_markets get_markets get_orderbook threshold limit) /\
  ((limit <= 0)%Z ->
     scan_all_open_markets get_markets get_orderbook threshold limit
     = Ok ([], 0%Z)) /\
  (forall e,
     (0 < limit)%Z ->
     get_markets (Z.min 100 limit) None = Raise e ->
     scan_all_open_markets get_markets get_orderbook threshold limit
     = Raise e).
Proof.
  split; [|split].
  - intros turns Hle. unfold scan_all_open_markets.
    replace turns with ((turns - Z.to_nat limit) + Z.to_nat limit)%nat by lia.
    apply scan_pages_more_turns. rewrite Z.sub_0_r. lia.
  - intro Hl. unfold scan_all_open_markets.
    destruct (Z.to_nat limit) eqn:E; [reflexivity | lia].
  - intros e Hl He. unfold scan_all_open_markets.
    destruct (Z.to_nat limit) eqn:E; [lia|].
    cbn [orderbook_agent.scan_pages].
    assert (Hlt : (0 <? limit)%Z = true) by (apply Z.ltb_lt; lia).
    rewrite Hlt, Z.sub_0_r, He. reflexivity.
Qed.

(** A signal of a page belongs to one of its markets, whose orderbook
    was fetched and shows a void. *)
Lemma scan_page_sound (threshold : Z) (tickers : list string) (sg : Signal) :
  In sg (orderbook_agent.scan_page get_orderbook threshold tickers) ->
  In (ticker sg) tickers /\
  exists raw,
    get_orderbook (ticker sg) = Ok raw /\
    scan_market threshold (ticker sg) (Ok raw) = Some sg.
Proof.
  unfold orderbook_agent.scan_page. intro Hin.
  apply in_flat_map in Hin as [t [Ht Hs]].
  destruct (scan_market threshold t (get_orderbook t)) as [s|] eqn:E;
    [|destruct Hs].
  destruct Hs as [<- | []].
  destruct (get_orderbook t) as [raw|e] eqn:Eo; [|discriminate E].
  assert (Hk : ticker s = t).
  { unfold scan_market in E.
    destruct (_parse_orderbook t raw); [|discriminate].
    destruct (spread_cents o <=? threshold)%Z; [discriminate|].
    injection E as <-. reflexivity. }
  rewrite Hk. split; [exact Ht|]. exists raw. split; [exact Eo | exact E].
Qed.

Lemma scan_page_length (threshold : Z) (tickers : list string) :
  (List.length (orderbook_agent.scan_page get_orderbook threshold tickers) <= List.length tickers)%nat.
Proof.
  unfold orderbook_agent.scan_page.
  induction tickers as [|t rest IH]; [apply Nat.le_refl|].
  cbn [flat_map List.length]. rewrite length_app.
  destruct (scan_market threshold t (get_orderbook t)); cbn [List.length]; lia.
Qed.

Lemma scan_pages_sound (threshold limit : Z) (turns : nat) :
  forall fetched cursor signals total,
    orderbook_agent.scan_pages get_markets get_orderbook turns threshold limit fetched cursor = Ok (signals, total) ->
    (Z.of_nat (List.length signals) <= total - fetched)%Z /\
    forall sg,
      In sg signals ->
      exists raw,
        get_orderbook (ticker sg) = Ok raw /\
        scan_market threshold (ticker sg) (Ok raw) = Some sg.
Proof.
  induction turns as [|t IH]; intros fetched cursor signals total H.
  - injection H as <- <-. split; [cbn; lia | intros sg []].
  - rewrite scan_pages_step in H.
    destruct ((fetched <? limit)%Z);
      [|injection H as <- <-; split; [cbn; lia | intros sg []]].
    destruct (get_markets (Z.min 100 (limit - fetched)) cursor)
      as [page|e]; [|discriminate H].
    cbn [bind] in H.
    destruct (page_markets page) as [|m ms] eqn:Em;
      [injection H as <- <-; split; [cbn; lia | intros sg []]|].
    cbv beta iota in H.
    pose proof (scan_page_length threshold (m :: ms)) as Hlen.
    apply Nat2Z.inj_le in Hlen.
    assert (Hone : forall sg,
              In sg (orderbook_agent.scan_page get_orderbook threshold
                       (m :: ms)) ->
              exists raw,
                get_orderbook (ticker sg) = Ok raw /\
                scan_market threshold (ticker sg) (Ok raw) = Some sg)
      by (intros sg Hin; apply (scan_page_sound _ _ _ Hin)).
    set (found := orderbook_agent.scan_page get_orderbook threshold
                    (m :: ms)) in *.
    set (count := Z.of_nat (List.length (m :: ms))) in *.
    destruct (page_cursor page) as [[|c next]|].
    + injection H as <- <-. split; [lia | exact Hone].
    + destruct (orderbook_agent.scan_pages get_markets get_orderbook t
                  threshold limit (fetched + count)%Z
                  (Some (String c next))) as [[later total']|e] eqn:Er;
        [|discriminate H].
      cbn [bind fst snd] in H. injection H as <- <-.
      destruct (IH _ _ _ _ Er) as [Hl Hs].
      split.
      * rewrite length_app, Nat2Z.inj_add. lia.
      * intros sg Hin. apply in_app_or in Hin as [Hin | Hin];
          [apply Hone, Hin | apply Hs, Hin].
    + injection H as <- <-. split; [lia | exact Hone].
Qed.

(** What a finished scan returns.  Every signal is the void signal of a
    market whose orderbook fetch succeeded, so a failed fetch only omits
    that market; and there is at most one signal per market fetched. *)
Theorem scan_all_open_markets_sound (threshold limit : Z)
  (signals : list Signal) (total : Z) :
  scan_all_open_markets get_markets get_orderbook threshold limit
  = Ok (signals, total) ->
  (Z.of_nat (List.length signals) <= total)%Z /\
  forall sg,
    In sg signals ->
    source sg = ORDERBOOK /\ side sg = YES /\
    exists raw,
      get_orderbook (ticker sg) = Ok raw /\
      scan_market threshold (ticker sg) (Ok raw) = Some sg.
Proof.
  intro H. destruct (scan_pages_sound _ _ _ _ _ _ _ H) as [Hl Hs].
  split; [lia|]. intros sg Hin.
  destruct (Hs sg Hin) as [raw [Ho Hm]].
  assert (Hk : source sg = ORDERBOOK /\ side sg = YES).
  { unfold scan_market in Hm.
    destruct (_parse_orderbook (ticker sg) raw); [|discriminate].
    destruct (spread_cents o <=? threshold)%Z; [discriminate|].
    injection Hm as Hm. rewrite <- Hm. split; reflexivity. }
  destruct Hk as [H1 H2]. split; [exact H1|]. split; [exact H2|].
  exists raw. split; assumption.
Qed.

End Pagination.


Import observed.

Lemma scan_all_open_markets_ends_witness :
  orderbook_agent.scan_pages two_page_listing three_books 1000 3 200 0 None
  = scan_all_open_markets two_page_listing three_books 3 200.
Proof.
  apply (proj1 (scan_all_open_markets_ends two_page_listing three_books
                  3 200) 1000%nat).
  lia.
Defined.

Lemma scan_all_open_markets_sound_witness :
  exists sg,
    scan_all_open_markets two_page_listing three_books 3 200
    = Ok ([sg], 3%Z) /\
    ticker sg = "KXA" /\ source sg = ORDERBOOK /\ side sg = YES.
Proof.
  eexists. split; [vm_compute; reflexivity|].
  split; [reflexivity|].
  match goal with
  | |- source ?s = _ /\ _ =>
      destruct (proj2 (scan_all_open_markets_sound two_page_listing
                         three_books 3 200 [s] 3 ltac:(vm_compute; reflexivity))
                  s (or_introl eq_refl)) as [H1 [H2 _]]
  end.
  split; assumption.
Defined.

End OrderbookMore.

(** ** The news analyzer: emitted signals and feed isolation *)

Module AnalyzerMore.

Import config nlp_agent spec observed.

(** The signals of one raw item.  A shift below the configured minimum
    emits nothing.  Otherwise there is one signal per resolved ticker, in
    order (none when no ticker matches), each with source NLP, the
    provisional implied probability 0.5, the fair probability
    [0.5 + shift] (not clamped), the edge [|shift|] at or above the
    minimum, the confidence of the item, and the side YES exactly for a
    positive shift. *)
Theorem signals_of_raw_shape (cfg : SuiteConfig) (feed_name : string)
  (resolve : json -> list string) (raw : NLPSignalRaw) :
  (Qabs (prob_shift raw) < nlp_prob_shift_min cfg ->
     signals_of_raw cfg feed_name resolve raw = []) /\
  (nlp_prob_shift_min cfg <= Qabs (prob_shift raw) ->
     map ticker (signals_of_raw cfg feed_name resolve raw)
       = resolve (ticker_keyword raw) /\
     Forall (fun sg =>
               source sg = NLP /\
               implied_prob sg = 1 # 2 /\
               estimated_fair_prob sg = (1 # 2) + prob_shift raw /\
               edge sg = Qabs (prob_shift raw) /\
               nlp_prob_shift_min cfg <= edge sg /\
               confidence sg = raw_confidence raw /\
               (side sg = YES <-> 0 < prob_shift raw))
            (signals_of_raw cfg feed_name resolve raw)).
Proof.
  unfold signals_of_raw. split; intro H.
  - apply Qltb_lt in H. rewrite H. reflexivity.
  - apply Qltb_ge in H as E. rewrite E. split.
    + rewrite map_map. cbn [ticker]. apply map_id.
    + apply Forall_forall. intros sg Hin.
      apply in_map_iff in Hin as [t [<- _]].
      cbn [source implied_prob estimated_fair_prob edge confidence side].
      repeat (split; [reflexivity|]). split; [exact H|].
      split; [reflexivity|].
      destruct (Qltb 0 (prob_shift raw)) eqn:Es.
      * apply Qltb_lt in Es. split; [intros _; exact Es | reflexivity].
      * apply Qltb_ge in Es. split; [discriminate|].
        intro Hp. exfalso. lra.
Qed.

Lemma signals_of_raw_shape_witness :
  signals_of_raw load_config "BLS_CPI" (fun _ => ["KXCPI-26"; "KXCPI-27"])
    {| ticker_keyword := JStr "CPI"; raw_side := JStr "yes";
       prob_shift := 5 # 100; raw_confidence := 9 # 10;
       raw_rationale := JStr "small move" |} = [].
Proof.
  apply (proj1 (signals_of_raw_shape load_config "BLS_CPI"
                  (fun _ => ["KXCPI-26"; "KXCPI-27"])
                  {| ticker_keyword := JStr "CPI"; raw_side := JStr "yes";
                     prob_shift := 5 # 100; raw_confidence := 9 # 10;
                     raw_rationale := JStr "small move" |})).
  reflexivity.
Defined.

Section Feeds.

Variable float_of_str : string -> option Q.

(** The loop over the items raises only OverflowError, and only for an
    item that raises it. *)
Lemma collect_raises (items : list json) (e : exn) :
  fst (collect float_of_str items) = Raise e ->
  e = OverflowError /\
  exists item,
    In item items /\ raw_of_item float_of_str item = Raise OverflowError.
Proof.
  induction items as [|item rest IH]; [discriminate|].
  cbn [collect].
  destruct (raw_of_item float_of_str item) as [raw|e0] eqn:Er.
  - destruct (collect float_of_str rest) as [[later|e1] logs];
      cbn [fst bind] in *; [discriminate|].
    intro H. injection H as <-.
    destruct (IH eq_refl) as [-> [it [Hin Hit]]].
    split; [reflexivity|]. exists it. split; [right; exact Hin | exact Hit].
  - destruct (AnalyzerFacts.raw_of_item_raises float_of_str item e0 Er)
      as [Hm | [-> _]].
    + rewrite Hm.
      destruct (collect float_of_str rest) as [[later|e1] logs];
        cbn [fst] in *; [discriminate|].
      intro H. injection H as <-.
      destruct (IH eq_refl) as [-> [it [Hin Hit]]].
      split; [reflexivity|]. exists it.
      split; [right; exact Hin | exact Hit].
    + cbn [malformed fst]. intro H. injection H as <-.
      split; [reflexivity|]. exists item.
      split; [left; reflexivity | exact Er].
Qed.

(** The analysis of a reply raises in three cases only: IndexError for
    an empty list of choices; the exception of [json.loads], when that
    is not JSONDecodeError; OverflowError for a decoded reply one of
    whose items overflows [float()]. *)
Lemma analyze_headline_raises (reply : Completion) (e : exn) :
  fst (analyze_headline float_of_str reply) = Raise e ->
  (reply = NoChoices /\ e = IndexError) \/
  (e <> JSONDecodeError /\
   exists text, text <> EmptyString /\ reply = Content (Some text) (Raise e))
  \/
  (e = OverflowError /\
   exists text parsed item,
     reply = Content (Some text) (Ok parsed) /\
     In item (items_of parsed) /\
     raw_of_item float_of_str item = Raise OverflowError).
Proof.
  destruct reply as [| |text loaded].
  - discriminate.
  - intro H. injection H as <-. left. split; reflexivity.
  - cbn [analyze_headline].
    destruct text as [[|c s]|]; try discriminate.
    destruct loaded as [v|e0].
    + intro H. right. right.
      destruct (collect_raises _ e H) as [-> [item [Hin Hit]]].
      split; [reflexivity|]. exists (String c s), v, item.
      split; [reflexivity|]. split; [exact Hin | exact Hit].
    + intro H. right. left.
      assert (He : e0 = e /\ e <> JSONDecodeError).
      { destruct e0; try discriminate H; cbn [fst] in H;
          injection H as <-; split; try reflexivity; discriminate. }
      destruct He as [-> Hne].
      split; [exact Hne|]. exists (String c s).
      split; [discriminate | reflexivity].
Qed.

(** The feeds are analysed independently and in order. *)
Lemma run_app (cfg : SuiteConfig) (resolve : json -> list string)
  (pre post : list (string * Completion)) :
  run float_of_str cfg resolve (pre ++ post)
  = (first <- run float_of_str cfg resolve pre ;;
     second <- run float_of_str cfg resolve post ;;
     Ok (first ++ second)).
Proof.
  induction pre as [|[name reply] rest IH].
  - cbn [app run bind].
    destruct (run float_of_str cfg resolve post); reflexivity.
  - cbn [app run]. rewrite IH.
    destruct (fst (analyze_headline float_of_str reply)) as [raws|e];
      [|reflexivity].
    cbn [bind].
    destruct (run float_of_str cfg resolve rest) as [a|e]; [|reflexivity].
    cbn [bind].
    destruct (run float_of_str cfg resolve post) as [b|e]; [|reflexivity].
    cbn [bind]. rewrite app_assoc. reflexivity.
Qed.

(** Feed isolation and its limit.  A feed whose analysis yields no raw
    item (the completion call raised, the reply was not JSON, or it was
    an empty array) leaves the signals of the other feeds as they are.
    A feed whose analysis raises makes the whole run raise, losing the
    signals of every feed: the run raises the exception of the first
    such feed.  The analysis raises IndexError for a completion without
    choices, the exception of [json.loads] when that is not
    JSONDecodeError, and OverflowError for a reply with an item that
    overflows [float()], and in no other case; where no feed is of
    these three kinds the run returns. *)
Theorem run_feed_isolation (cfg : SuiteConfig)
  (resolve : json -> list string) (pre post : list (string * Completion))
  (name : string) (reply : Completion) :
  (fst (analyze_headline float_of_str reply) = Ok [] ->
     run float_of_str cfg resolve (pre ++ (name, reply) :: post)
     = run float_of_str cfg resolve (pre ++ post)) /\
  fst (analyze_headline float_of_str CreateRaised) = Ok [] /\
  fst (analyze_headline float_of_str NoChoices) = Raise IndexError /\
  (forall e,
     fst (analyze_headline float_of_str reply) = Raise e ->
     (exists e', run float_of_str cfg resolve (pre ++ (name, reply) :: post)
                 = Raise e') /\
     (Forall (fun feed =>
                is_ok (fst (analyze_headline float_of_str (snd feed))) = true)
        pre ->
      run float_of_str cfg resolve (pre ++ (name, reply) :: post)
        = Raise e)) /\
  (forall e,
     fst (analyze_headline float_of_str reply) = Raise e ->
     (reply = NoChoices /\ e = IndexError) \/
     (e <> JSONDecodeError /\
      exists text,
        text <> EmptyString /\ reply = Content (Some text) (Raise e)) \/
     (e = OverflowError /\
      exists text parsed item,
        reply = Content (Some text) (Ok parsed) /\
        In item (items_of parsed) /\
        raw_of_item float_of_str item = Raise OverflowError)) /\
  (forall text before item after,
     text <> EmptyString ->
     Forall (fun item =>
               raw_of_item float_of_str item <> Raise OverflowError)
       before ->
     raw_of_item float_of_str item = Raise OverflowError ->
     fst (analyze_headline float_of_str
            (Content (Some text) (Ok (JArr (before ++ item :: after)))))
     = Raise OverflowError) /\
  (Forall (fun feed =>
             is_ok (fst (analyze_headline float_of_str (snd feed))) = true)
     pre ->
   exists signals, run float_of_str cfg resolve pre = Ok signals).
Proof.
  assert (Htotal : forall feeds,
            Forall (fun feed =>
                      is_ok (fst (analyze_headline float_of_str (snd feed)))
                      = true) feeds ->
            exists signals, run float_of_str cfg resolve feeds = Ok signals).
  { induction feeds as [|[n r] rest IH]; intro Hall; [exists []; reflexivity|].
    inversion Hall as [|f fs Hr Hrest]; subst f fs. cbn [snd] in Hr.
    cbn [run].
    destruct (fst (analyze_headline float_of_str r)) as [raws|e];
      [|discriminate Hr].
    destruct (IH Hrest) as [later Hl].
    rewrite Hl. cbn [bind]. eexists. reflexivity. }
  split; [|split; [|split; [|split; [|split; [|split]]]]].
  - intro Ha. rewrite !run_app. cbn [run]. rewrite Ha. cbn [bind flat_map app].
    destruct (run float_of_str cfg resolve pre) as [a|e]; [|reflexivity].
    cbn [bind].
    destruct (run float_of_str cfg resolve post) as [b|e]; reflexivity.
  - reflexivity.
  - reflexivity.
  - intros e He. rewrite run_app. cbn [run]. rewrite He. cbn [bind]. split.
    + destruct (run float_of_str cfg resolve pre) as [a|e0];
        cbn [bind]; eexists; reflexivity.
    + intro Hall. destruct (Htotal pre Hall) as [a ->]. reflexivity.
  - apply analyze_headline_raises.
  - intros text before item after Ht Hall Hitem.
    destruct text as [|c text]; [contradiction|].
    cbn [analyze_headline].
    apply AnalyzerFacts.collect_overflow; assumption.
  - apply Htotal.
Qed.

End Feeds.

Lemma run_feed_isolation_witness :
  run (fun _ => None) load_config (fun _ => ["KXCPI-26"])
    [("BLS_CPI", Content (Some "reply") (Ok (JArr [object_reply])));
     ("FED_RSS", Content (Some "reply") (Ok (JArr [overflowing_item])))]
  = Raise OverflowError.
Proof.
  apply (proj2 (proj1 (proj2 (proj2 (proj2
           (run_feed_isolation (fun _ => None) load_config
              (fun _ => ["KXCPI-26"])
              [("BLS_CPI",
                Content (Some "reply") (Ok (JArr [object_reply])))]
              [] "FED_RSS"
              (Content (Some "reply") (Ok (JArr [overflowing_item])))))))
           OverflowError ltac:(vm_compute; reflexivity))).
  constructor; [vm_compute; reflexivity | constructor].
Defined.

End AnalyzerMore.

(** ** The arbitrage scanner: matching, emitted signals, aborts *)

Module ArbitrageMore.

Import config arbitrage_agent spec.

Section Matching.

Variable kalshi_tokens : KalshiMarket -> list string.
Variable ext_tokens : ExtMarket -> list string.

Lemma first_match_first (kt : list string) (ems : list ExtMarket)
  (em : ExtMarket) :
  first_match ext_tokens kt ems = Some em ->
  (3 <= overlap kt (ext_tokens em))%nat /\
  exists before after,
    ems = before ++ em :: after /\
    Forall (fun e => (overlap kt (ext_tokens e) < 3)%nat) before.
Proof.
  induction ems as [|e rest IH]; [discriminate|].
  cbn [first_match].
  destruct (3 <=? overlap kt (ext_tokens e))%nat eqn:E.
  - intro H. injection H as <-. apply Nat.leb_le in E.
    split; [exact E|]. exists [], rest. split; [reflexivity | constructor].
  - intro H. destruct (IH H) as [Ho [before [after [-> Hb]]]].
    split; [exact Ho|]. exists (e :: before), after.
    split; [reflexivity|]. constructor; [|exact Hb].
    apply Nat.leb_gt in E. exact E.
Qed.

(** Title matching pairs a market of the exchange at most once and in
    listing order: the paired exchange markets are the listed ones that
    found a partner, so there are no more pairs than listed markets.  The
    partner of a market is the first external market that shares at
    least three tokens with it, and a market without tokens is never
    paired. *)
Theorem match_markets_first_partner (kms : list KalshiMarket)
  (ems : list ExtMarket) :
  map fst (_match_markets kalshi_tokens ext_tokens kms ems)
    = filter (fun km =>
                match first_match ext_tokens (kalshi_tokens km) ems with
                | Some _ => negb (Nat.eqb (List.length (kalshi_tokens km)) 0)
                | None => false
                end) kms /\
  (List.length (_match_markets kalshi_tokens ext_tokens kms ems)
   <= List.length kms)%nat /\
  forall km em,
    In (km, em) (_match_markets kalshi_tokens ext_tokens kms ems) ->
    In km kms /\ kalshi_tokens km <> [] /\
    (3 <= overlap (kalshi_tokens km) (ext_tokens em))%nat /\
    exists before after,
      ems = before ++ em :: after /\
      Forall (fun e =>
                (overlap (kalshi_tokens km) (ext_tokens e) < 3)%nat) before.
Proof.
  induction kms as [|k rest [IH1 [IH2 IH3]]].
  - split; [reflexivity|]. split; [apply Nat.le_refl | intros km em []].
  - cbn [_match_markets filter].
    destruct (kalshi_tokens k) as [|t ts] eqn:Ek.
    + assert (Hf : match first_match ext_tokens [] ems with
                   | Some _ => negb (Nat.eqb (List.length (@nil string)) 0)
                   | None => false
                   end = false)
        by (destruct (first_match ext_tokens [] ems); reflexivity).
      rewrite Hf. split; [exact IH1|]. split; [cbn [List.length]; lia|].
      intros km em Hin. destruct (IH3 km em Hin) as [H1 H2].
      split; [right; exact H1 | exact H2].
    + destruct (first_match ext_tokens (t :: ts) ems) as [partner|] eqn:Ef.
      * cbn [List.length Nat.eqb negb map fst]. split; [f_equal; exact IH1|].
        split; [lia|].
        intros km em [Heq | Hin].
        -- injection Heq as <- <-. split; [left; reflexivity|].
           rewrite Ek. split; [discriminate|].
           apply first_match_first, Ef.
        -- destruct (IH3 km em Hin) as [H1 H2].
           split; [right; exact H1 | exact H2].
      * split; [exact IH1|]. split; [cbn [List.length]; lia|].
        intros km em Hin. destruct (IH3 km em Hin) as [H1 H2].
        split; [right; exact H1 | exact H2].
Qed.

End Matching.


Import observed.

Lemma match_markets_first_partner_witness :
  _match_markets example_kalshi_tokens example_ext_tokens
    [overpriced_market] [[("title", JStr "untitled")]; external_market]
  = [(overpriced_market, external_market)] /\
  (3 <= overlap (example_kalshi_tokens overpriced_market)
          (example_ext_tokens external_market))%nat.
Proof.
  split; [reflexivity|].
  refine (proj1 (proj2 (proj2 (proj2 (proj2
    (match_markets_first_partner example_kalshi_tokens example_ext_tokens
       [overpriced_market] [[("title", JStr "untitled")]; external_market]))
    overpriced_market external_market _)))).
  left. reflexivity.
Defined.

Lemma price_payout_positive (market_price : Q) :
  0 < market_price -> market_price < 1 -> 0 < 1 / market_price - 1.
Proof.
  intros H0 H1.
  assert (E : 1 / market_price - 1 == / market_price * (1 - market_price)).
  { field. intro Hz. rewrite Hz in H0. discriminate H0. }
  rewrite E. apply Qmult_lt_0_compat; [apply Qinv_lt_0_compat, H0 | lra].
Qed.

Lemma kelly_criterion_at_price (p market_price : Q) :
  0 < market_price -> market_price < 1 ->
  exists f,
    kelly_criterion p (1 / market_price - 1) = Ok f /\
    f == (p - market_price) / (1 - market_price).
Proof.
  intros H0 H1. eexists. split.
  - change (kelly_criterion p (1 / market_price - 1))
      with (risk_execution_agent.kelly_fraction p (1 / market_price - 1)).
    apply KellyFacts.kelly_fraction_formula, price_payout_positive;
      assumption.
  - field. split; [lra|]. intro Hz. rewrite Hz in H0. discriminate H0.
Qed.

(** The guard of [pair_signal] and what it leaves of the Kelly step. *)
Lemma priced_step (cfg : SuiteConfig) (p market_price : Q)
  (build : Q -> Signal) (sg : Signal) :
  (if Qle_bool market_price 0 || Qle_bool 1 market_price then Ok None
   else
     inv <- fdiv 1 market_price ;;
     f_star <- kelly_criterion p (inv - 1) ;;
     if Qltb f_star (kelly_edge_min cfg) then Ok None
     else Ok (Some (build f_star))) = Ok (Some sg) ->
  0 < market_price /\ market_price < 1 /\
  exists f,
    sg = build f /\ kelly_edge_min cfg <= f /\
    f == (p - market_price) / (1 - market_price).
Proof.
  destruct (Qle_bool market_price 0 || Qle_bool 1 market_price) eqn:G;
    [discriminate|].
  apply orb_false_iff in G as [G0 G1].
  apply Qle_bool_false in G0, G1.
  rewrite fdiv_nonzero
    by (intro Hz; rewrite Hz in G0; discriminate G0).
  cbn [bind].
  destruct (kelly_criterion_at_price p market_price G0 G1) as [f [Hf He]].
  rewrite Hf. cbn [bind].
  destruct (Qltb f (kelly_edge_min cfg)) eqn:Et; [discriminate|].
  intro H. injection H as <-. apply Qltb_ge in Et.
  split; [exact G0|]. split; [exact G1|].
  exists f. split; [reflexivity|]. split; [exact Et | exact He].
Qed.

Section Scan.

Variable float_of_str : string -> option Q.

(** What the arbitrage scanner emits.  A signal carries the exchange's
    YES price as implied probability, strictly inside (0,1), and a
    positive edge.  Its confidence is [min(f*, 1)] for a Kelly fraction
    [f*] at or above the configured minimum, and that fraction is the
    edge relative to the room of the side: [edge / (1 - implied)] for
    YES, [edge / implied] for NO. *)
Theorem pair_signal_emitted (cfg : SuiteConfig) (km : KalshiMarket)
  (em : ExtMarket) (sg : Signal) :
  pair_signal float_of_str cfg km em = Ok (Some sg) ->
  source sg = ARBITRAGE /\ ticker sg = km_ticker km /\
  implied_prob sg = kalshi_prob_of km /\
  0 < implied_prob sg /\ implied_prob sg < 1 /\
  0 < edge sg /\
  exists f,
    confidence sg = py_min f 1 /\
    kelly_edge_min cfg <= f /\
    match side sg with
    | YES => f == edge sg / (1 - implied_prob sg)
    | NO => f == edge sg / implied_prob sg
    end.
Proof.
  unfold pair_signal.
  destruct (ext_prob_raw em) as [raw|e]; [|discriminate]. cbn [bind].
  destruct (py_float float_of_str raw) as [ext|e];
    [|destruct (unparsable e); discriminate].
  set (k := kalshi_prob_of km).
  destruct (Qltb 0 (ext - k)) eqn:Epos.
  - intro H. apply priced_step in H as [H0 [H1 [f [-> [Hmin Hf]]]]].
    apply Qltb_lt in Epos.
    cbn [source ticker implied_prob edge confidence side].
    repeat (split; [reflexivity || assumption|]).
    exists f. split; [reflexivity|]. split; [exact Hmin | exact Hf].
  - destruct (Qltb (ext - k) 0) eqn:Eneg; [|discriminate].
    intro H. apply priced_step in H as [H0 [H1 [f [-> [Hmin Hf]]]]].
    apply Qltb_lt in Eneg.
    cbn [source ticker implied_prob edge confidence side].
    assert (Ha : Qabs (ext - k) == k - ext).
    { rewrite Qabs_neg by lra. ring. }
    split; [reflexivity|]. split; [reflexivity|]. split; [reflexivity|].
    split; [lra|]. split; [lra|]. split; [rewrite Ha; lra|].
    exists f. split; [reflexivity|]. split; [exact Hmin|].
    rewrite Hf, Ha. field. lra.
Qed.

Lemma scan_pairs_app (cfg : SuiteConfig)
  (pre post : list (KalshiMarket * ExtMarket)) :
  scan_pairs float_of_str cfg (pre ++ post)
  = (first <- scan_pairs float_of_str cfg pre ;;
     second <- scan_pairs float_of_str cfg post ;;
     Ok (first ++ second)).
Proof.
  induction pre as [|[km em] rest IH].
  - cbn [app scan_pairs bind].
    destruct (scan_pairs float_of_str cfg post); reflexivity.
  - cbn [app scan_pairs]. rewrite IH.
    destruct (pair_signal float_of_str cfg km em) as [found|e];
      [|reflexivity].
    cbn [bind].
    destruct (scan_pairs float_of_str cfg rest) as [a|e]; [|reflexivity].
    cbn [bind].
    destruct (scan_pairs float_of_str cfg post) as [b|e]; [|reflexivity].
    cbn [bind]. destruct found; reflexivity.
Qed.

(** Skips and aborts, for a pair whose exchange price is within the
    range of a float.  A pair whose external price [float()] rejects
    with TypeError or ValueError, or whose two prices are equal, is
    skipped and the scan goes on.  [float()] raises nothing else but
    OverflowError, on a number beyond the range of a float; that
    exception is not caught and raises out of the scan.  So does a pair
    whose [outcomePrices] cannot be subscripted (an empty array, a
    number, null, an object).  A scan that raises returns no signal at
    all, whatever the other pairs hold. *)
Theorem scan_pairs_skips_and_aborts (cfg : SuiteConfig)
  (pre post : list (KalshiMarket * ExtMarket)) (km : KalshiMarket)
  (em : ExtMarket) :
  Qabs (kalshi_prob_of km) < float_overflow ->
  (forall raw e,
     ext_prob_raw em = Ok raw -> py_float float_of_str raw = Raise e ->
     e = TypeError \/ e = ValueError ->
     scan_pairs float_of_str cfg (pre ++ (km, em) :: post)
     = scan_pairs float_of_str cfg (pre ++ post)) /\
  (forall raw e,
     ext_prob_raw em = Ok raw -> py_float float_of_str raw = Raise e ->
     e = TypeError \/ e = ValueError \/
     (e = OverflowError /\
      exists q, raw = JNum q /\ float_overflow <= Qabs q)) /\
  (forall raw,
     ext_prob_raw em = Ok raw ->
     py_float float_of_str raw = Raise OverflowError ->
     exists e',
       scan_pairs float_of_str cfg (pre ++ (km, em) :: post) = Raise e') /\
  (forall raw ext,
     ext_prob_raw em = Ok raw -> py_float float_of_str raw = Ok ext ->
     ext == kalshi_prob_of km ->
     scan_pairs float_of_str cfg (pre ++ (km, em) :: post)
     = scan_pairs float_of_str cfg (pre ++ post)) /\
  (forall v e,
     dict_get em "outcomePrices" = Some v -> subscript0 v = Raise e ->
     exists e',
       scan_pairs float_of_str cfg (pre ++ (km, em) :: post) = Raise e').
Proof.
  intros _.
  assert (Hskip : pair_signal float_of_str cfg km em = Ok None ->
                  scan_pairs float_of_str cfg (pre ++ (km, em) :: post)
                  = scan_pairs float_of_str cfg (pre ++ post)).
  { intro Hp. rewrite !scan_pairs_app. cbn [scan_pairs]. rewrite Hp.
    cbn [bind].
    destruct (scan_pairs float_of_str cfg pre) as [a|e]; [|reflexivity].
    cbn [bind].
    destruct (scan_pairs float_of_str cfg post) as [b|e]; reflexivity. }
  assert (Habort : forall e,
            pair_signal float_of_str cfg km em = Raise e ->
            exists e',
              scan_pairs float_of_str cfg (pre ++ (km, em) :: post)
              = Raise e').
  { intros e Hp. rewrite scan_pairs_app. cbn [scan_pairs]. rewrite Hp.
    cbn [bind].
    destruct (scan_pairs float_of_str cfg pre) as [a|e0];
      eexists; reflexivity. }
  split; [|split; [|split; [|split]]].
  - intros raw e Hr Hf He. apply Hskip. unfold pair_signal.
    rewrite Hr. cbn [bind]. rewrite Hf.
    destruct He as [-> | ->]; reflexivity.
  - intros raw e _ Hf. apply (py_float_raises float_of_str raw e Hf).
  - intros raw Hr Hf. apply (Habort OverflowError). unfold pair_signal.
    rewrite Hr. cbn [bind]. rewrite Hf. reflexivity.
  - intros raw ext Hr Hf He. apply Hskip. unfold pair_signal.
    rewrite Hr. cbn [bind]. rewrite Hf.
    assert (E1 : Qltb 0 (ext - kalshi_prob_of km) = false)
      by (apply Qltb_ge; lra).
    assert (E2 : Qltb (ext - kalshi_prob_of km) 0 = false)
      by (apply Qltb_ge; lra).
    rewrite E1, E2. reflexivity.
  - intros v e Hv Hs. apply (Habort e).
    unfold pair_signal, ext_prob_raw. rewrite Hv, Hs. reflexivity.
Qed.

End Scan.

Lemma pair_signal_emitted_witness :
  exists sg,
    pair_signal (fun _ => None) load_config overpriced_market external_market
    = Ok (Some sg) /\
    side sg = NO /\ confidence sg == 5 # 10.
Proof.
  eexists. split; [vm_compute; reflexivity|]. split; [reflexivity|].
  match goal with
  | |- confidence ?s == _ =>
      destruct (pair_signal_emitted (fun _ => None) load_config
                  overpriced_market external_market s
                  ltac:(vm_compute; reflexivity))
        as [_ [_ [_ [_ [_ [_ [f [Hc [_ Hf]]]]]]]]]
  end.
  cbn [side] in Hf. rewrite Hc.
  rewrite py_min_Qmin, Hf. reflexivity.
Defined.

Lemma scan_pairs_skips_and_aborts_witness :
  exists e,
    scan_pairs (fun _ => None) load_config
      [(overpriced_market, external_market);
       (overpriced_market, empty_prices_market)] = Raise e.
Proof.
  exact (proj2 (proj2 (proj2 (proj2
           (scan_pairs_skips_and_aborts (fun _ => None) load_config
              [(overpriced_market, external_market)] []
              overpriced_market empty_prices_market eq_refl))))
           (JArr []) IndexError eq_refl eq_refl).
Defined.

End ArbitrageMore.

(** ** The retrying gateway: bounds, error mapping, unusable headers *)

Module GatewayMore.

Import kalshi_client spec.

Lemma request_with_bounded (n : nat) :
  forall (rq : Request) (w : World),
  exists k waits,
    (1 <= k <= S n)%nat /\
    sent (snd (request_with n rq w)) = sent w ++ repeat rq k /\
    pending (snd (request_with n rq w)) = skipn k (pending w) /\
    sleeps (snd (request_with n rq w)) = sleeps w ++ waits /\
    S (List.length waits) = k /\
    Forall (fun s => (0 <= s)%Z) waits /\
    journal (snd (request_with n rq w)) = journal w.
Proof.
  assert (Hone : forall rq w r w1,
            send rq w = (r, w1) ->
            sent w1 = sent w ++ repeat rq 1 /\
            pending w1 = skipn 1 (pending w) /\
            sleeps w1 = sleeps w ++ [] /\
            journal w1 = journal w).
  { intros rq w r w1. unfold send.
    destruct (pending w) as [|a rest]; intro H; injection H as <- <-;
      cbn; rewrite app_nil_r; repeat split; reflexivity. }
  assert (Hstop : forall rq w r w1 (m : nat),
            send rq w = (r, w1) ->
            exists k waits,
              (1 <= k <= S m)%nat /\
              sent w1 = sent w ++ repeat rq k /\
              pending w1 = skipn k (pending w) /\
              sleeps w1 = sleeps w ++ waits /\
              S (List.length waits) = k /\
              Forall (fun s => (0 <= s)%Z) waits /\
              journal w1 = journal w).
  { intros rq w r w1 m Hs.
    destruct (Hone rq w r w1 Hs) as [H1 [H2 [H3 H4]]].
    exists 1%nat, []. repeat split; try assumption; try lia. constructor. }
  induction n as [|n IH]; intros rq w.
  - cbn [request_with].
    destruct (send rq w) as [[resp|e] w1] eqn:Hs; cbn [snd];
      exact (Hstop rq w _ w1 0%nat Hs).
  - cbn [request_with].
    destruct (send rq w) as [[resp|e] w1] eqn:Hs; cbn [snd];
      [|exact (Hstop rq w _ w1 (S n) Hs)].
    destruct ((status_code resp =? 429)%Z);
      [|cbn [snd]; exact (Hstop rq w _ w1 (S n) Hs)].
    destruct (wait_of (retry_after resp)) as [wait|e];
      [|cbn [snd]; exact (Hstop rq w _ w1 (S n) Hs)].
    unfold sleep. destruct ((wait <? 0)%Z) eqn:Ew;
      [cbn [snd]; exact (Hstop rq w _ w1 (S n) Hs)|].
    apply Z.ltb_ge in Ew.
    destruct (Hone rq w _ w1 Hs) as [H1 [H2 [H3 H4]]].
    match goal with
    | |- context [request_with n rq ?w2] =>
        destruct (IH rq w2) as [k [waits [Hk [S1 [P1 [L1 [N1 [F1 J1]]]]]]]]
    end.
    cbn [sent pending sleeps journal] in S1, P1, L1, J1.
    exists (S k), (wait :: waits).
    split; [lia|]. split; [|split; [|split; [|split; [|split]]]].
    + rewrite S1, H1. cbn [repeat]. rewrite <- app_assoc. reflexivity.
    + rewrite P1, H2. cbn [skipn].
      destruct (pending w) as [|a rest]; [destruct k|]; reflexivity.
    + rewrite L1, H3, app_nil_r, <- app_assoc. reflexivity.
    + cbn [List.length]. lia.
    + constructor; assumption.
    + rewrite J1. exact H4.
Qed.

(** Retries are bounded.  Whatever the exchange answers, a call with
    retry budget [retries] sends the same request between once and
    [retries + 1] times, consumes that many answers, sleeps exactly once
    between two consecutive sends, never for a negative time, and leaves
    the journal alone. *)
Theorem request_is_bounded (method endpoint : string)
  (json_body : option json) (retries : Z) (w : World) :
  let rq := {| req_method := method; req_path := endpoint;
               req_json := json_body |} in
  let w' := snd (_request method endpoint json_body retries w) in
  exists k waits,
    (1 <= k)%nat /\ (Z.of_nat k <= Z.max 0 retries + 1)%Z /\
    sent w' = sent w ++ repeat rq k /\
    pending w' = skipn k (pending w) /\
    sleeps w' = sleeps w ++ waits /\
    S (List.length waits) = k /\
    Forall (fun s => (0 <= s)%Z) waits /\
    journal w' = journal w.
Proof.
  intros rq w'. unfold w', _request. fold rq.
  destruct (request_with_bounded (Z.to_nat retries) rq w)
    as [k [waits [Hk H]]].
  exists k, waits. split; [lia|]. split; [lia | exact H].
Qed.


(** Answers that are not rate limits are never retried, and errors are
    mapped.  An answer with a status other than 429 ends the call after
    one request and no sleep, whatever the retry budget.  A status of 400
    or more never yields a result: with a JSON object as body, or a body
    that is not JSON, it raises KalshiAPIError carrying the status and
    the object (empty in the second case); a status 204 yields the empty
    object without reading the body.  A transport failure is raised as it
    is, also without retry. *)
Theorem request_error_mapping (method endpoint : string)
  (json_body : option json) (retries : Z) (w : World)
  (rest : list (result Response)) :
  let rq := {| req_method := method; req_path := endpoint;
               req_json := json_body |} in
  let w1 := {| key_material := key_material w;
               pending := rest; sent := sent w ++ [rq];
               sleeps := sleeps w; journal := journal w |} in
  (forall resp,
     pending w = Ok resp :: rest -> status_code resp <> 429%Z ->
     _request method endpoint json_body retries w = (finish resp, w1) /\
     ((400 <= status_code resp)%Z -> is_ok (finish resp) = false) /\
     ((400 <= status_code resp)%Z ->
      forall fields,
        body resp = Ok (JObj fields) ->
        finish resp = Raise (KalshiAPIError (status_code resp) (JObj fields)))
     /\
     ((400 <= status_code resp)%Z ->
      forall e,
        body resp = Raise e ->
        finish resp = Raise (KalshiAPIError (status_code resp) (JObj []))) /\
     (status_code resp = 204%Z -> finish resp = Ok (JObj []))) /\
  (forall e,
     pending w = Raise e :: rest ->
     _request method endpoint json_body retries w = (Raise e, w1)).
Proof.
  intros rq w1. split.
  - intros resp Hp Hs.
    split; [unfold _request; fold rq;
            apply GatewayFacts.request_with_final; [exact Hp | left; exact Hs]|].
    apply Z.eqb_neq in Hs.
    split; [|split; [|split]].
    + intro H4. apply Z.leb_le in H4. unfold finish. rewrite Hs, H4.
      destruct (body resp) as [[| | | | |fields]|e]; reflexivity.
    + intros H4 fields Hb. apply Z.leb_le in H4.
      unfold finish. rewrite Hs, H4, Hb. reflexivity.
    + intros H4 e Hb. apply Z.leb_le in H4.
      unfold finish. rewrite Hs, H4, Hb. reflexivity.
    + intro H2. unfold finish. rewrite H2. reflexivity.
  - intros e Hp. unfold _request. fold rq.
    destruct (Z.to_nat retries); cbn [request_with];
      unfold send; rewrite Hp; reflexivity.
Qed.

Lemma request_error_mapping_witness :
  fst (_request "GET" "/markets/NONEXISTENT" None default_retries
         (fresh_world
            [Ok {| status_code := 404; retry_after := RA_missing;
                   body := Ok (JObj [("message", JStr "Not found")]);
                   text := "Not found" |}]))
  = Raise (KalshiAPIError 404 (JObj [("message", JStr "Not found")])).
Proof.
  destruct (proj1 (request_error_mapping "GET" "/markets/NONEXISTENT" None
                     default_retries
                     (fresh_world
                        [Ok {| status_code := 404;
                               retry_after := RA_missing;
                               body := Ok (JObj [("message",
                                                  JStr "Not found")]);
                               text := "Not found" |}]) [])
              _ eq_refl ltac:(discriminate))
    as [Hr [_ [Hf _]]].
  rewrite Hr. cbn [fst].
  apply Hf; [cbn; lia | reflexivity].
Defined.

(** A rate limit that cannot be waited on.  With retries left, a 429
    whose Retry-After header is a text that [int()] rejects (an HTTP
    date, say) or a negative integer raises ValueError in place of the
    retry, after one request and no sleep; with no retry left a 429
    raises KalshiRateLimitError whatever its header. *)
Theorem rate_limit_unusable_header (method endpoint : string)
  (json_body : option json) (retries : Z) (w : World) (resp : Response)
  (rest : list (result Response)) :
  pending w = Ok resp :: rest ->
  status_code resp = 429%Z ->
  let rq := {| req_method := method; req_path := endpoint;
               req_json := json_body |} in
  let w1 := {| key_material := key_material w;
               pending := rest; sent := sent w ++ [rq];
               sleeps := sleeps w; journal := journal w |} in
  ((0 < retries)%Z -> retry_after resp = RA_other ->
     _request method endpoint json_body retries w = (Raise ValueError, w1)) /\
  ((0 < retries)%Z ->
   forall seconds,
     retry_after resp = RA_int seconds -> (seconds < 0)%Z ->
     _request method endpoint json_body retries w = (Raise ValueError, w1)) /\
  ((retries <= 0)%Z ->
     _request method endpoint json_body retries w
     = (Raise KalshiRateLimitError, w1)).
Proof.
  intros Hp Hs rq w1. unfold _request. fold rq.
  split; [|split].
  - intros Hr Hh. destruct (Z.to_nat retries) eqn:E; [lia|].
    cbn [request_with]. unfold send. rewrite Hp, Hs, Hh. reflexivity.
  - intros Hr seconds Hh Hneg. destruct (Z.to_nat retries) eqn:E; [lia|].
    cbn [request_with]. unfold send. rewrite Hp, Hs, Hh.
    cbn [Z.eqb Pos.eqb wait_of]. unfold sleep.
    apply Z.ltb_lt in Hneg. rewrite Hneg. reflexivity.
  - intro Hr. destruct (Z.to_nat retries) eqn:E; [|lia].
    cbn [request_with]. unfold send. rewrite Hp.
    unfold finish. rewrite Hs. reflexivity.
Qed.

Lemma rate_limit_unusable_header_witness :
  _request "GET" "/markets" None default_retries
    (fresh_world [Ok (too_many_requests RA_other);
                  Ok (ok_response (JObj []))])
  = (Raise ValueError,
     {| key_material := usable_key;
        pending := [Ok (ok_response (JObj []))];
        sent := [{| req_method := "GET"; req_path := "/markets";
                    req_json := None |}];
        sleeps := []; journal := [] |}).
Proof.
  exact (proj1 (rate_limit_unusable_header "GET" "/markets" None
                  default_retries
                  (fresh_world [Ok (too_many_requests RA_other);
                                Ok (ok_response (JObj []))])
                  (too_many_requests RA_other)
                  [Ok (ok_response (JObj []))] eq_refl eq_refl)
           ltac:(reflexivity) eq_refl).
Defined.

End GatewayMore.

(** ** The typed models of the retrying client *)

Module ClientModelFacts.

Import kalshi_models spec observed.

Lemma price_field_numeric (fields : list (string * json)) (key : string) :
  numeric_or_absent fields key ->
  exists q, price_field fields key = Ok q /\ q == dollars fields key.
Proof.
  unfold numeric_or_absent, price_field, dollars.
  intros [-> | [q [-> Hq]]]; [exists 0; split; reflexivity|].
  cbn [truthy truediv100].
  destruct (Qeq_bool q 0) eqn:E; cbn [negb].
  - exists 0. split; [reflexivity|].
    apply Qeq_bool_iff in E. rewrite E. reflexivity.
  - exists (q / 100). apply Qle_bool_false in Hq. rewrite Hq.
    split; reflexivity.
Qed.

(** Prices of a market document.  When each of the five price keys is
    absent or holds a number, [Market.from_api] returns a market whose
    prices are the cents divided by 100, and 0 for an absent key.  A
    price given as a non-empty text raises TypeError, a price so large
    that its hundredth is beyond the range of a float raises
    OverflowError, and a document that is not an object raises
    AttributeError. *)
Theorem market_from_api_prices (fields : list (string * json)) :
  ((forall key, In key price_keys -> numeric_or_absent fields key) ->
   exists m,
     Market_from_api (JObj fields) = Ok m /\
     yes_bid m == dollars fields "yes_bid" /\
     yes_ask m == dollars fields "yes_ask" /\
     no_bid m == dollars fields "no_bid" /\
     no_ask m == dollars fields "no_ask" /\
     last_price m == dollars fields "last_price" /\
     ticker m = get_default fields "ticker" (JStr EmptyString)) /\
  (forall c s,
     dict_get fields "yes_bid" = Some (JStr (String c s)) ->
     Market_from_api (JObj fields) = Raise TypeError) /\
  (forall q,
     dict_get fields "yes_bid" = Some (JNum q) ->
     float_overflow <= Qabs (q / 100) ->
     Market_from_api (JObj fields) = Raise OverflowError) /\
  (forall items, Market_from_api (JArr items) = Raise AttributeError) /\
  Market_from_api JNull = Raise AttributeError.
Proof.
  split; [|split; [|split; [|split]]].
  - intro H.
    destruct (price_field_numeric fields "yes_bid") as [yb [E1 Q1]];
      [apply H; cbn; tauto|].
    destruct (price_field_numeric fields "yes_ask") as [ya [E2 Q2]];
      [apply H; cbn; tauto|].
    destruct (price_field_numeric fields "no_bid") as [nb [E3 Q3]];
      [apply H; cbn; tauto|].
    destruct (price_field_numeric fields "no_ask") as [na [E4 Q4]];
      [apply H; cbn; tauto|].
    destruct (price_field_numeric fields "last_price") as [lp [E5 Q5]];
      [apply H; cbn; tauto|].
    eexists. split.
    + unfold Market_from_api. rewrite E1, E2, E3, E4, E5. reflexivity.
    + cbn [yes_bid yes_ask no_bid no_ask last_price ticker].
      repeat split; assumption.
  - intros c s Hs. unfold Market_from_api, price_field at 1.
    rewrite Hs. reflexivity.
  - intros q Hs Hq. unfold Market_from_api, price_field at 1.
    rewrite Hs. cbn [truthy truediv100].
    assert (Hnz : Qeq_bool q 0 = false).
    { destruct (Qeq_bool q 0) eqn:E; [|reflexivity].
      apply Qeq_bool_iff in E. exfalso.
      assert (Hz : Qabs (q / 100) == 0) by (rewrite E; reflexivity).
      rewrite Hz in Hq. apply (Qle_not_lt _ _ Hq). reflexivity. }
    rewrite Hnz. cbn [negb].
    apply Qle_bool_iff in Hq. rewrite Hq. reflexivity.
  - reflexivity.
  - reflexivity.
Qed.

Lemma market_from_api_prices_witness :
  exists m,
    Market_from_api
      (JObj [("ticker", JStr "MKT1"); ("yes_bid", JNum 42);
             ("last_price", JNum 0)]) = Ok m /\
    yes_bid m == 42 # 100 /\ last_price m == 0.
Proof.
  destruct (proj1 (market_from_api_prices
                     [("ticker", JStr "MKT1"); ("yes_bid", JNum 42);
                      ("last_price", JNum 0)]))
    as [m [Hm [Hy [_ [_ [_ [Hl _]]]]]]].
  - intros key Hin. unfold numeric_or_absent.
    cbn in Hin.
    destruct Hin as [<- | [<- | [<- | [<- | [<- | []]]]]];
      cbn; try (left; reflexivity);
      right; eexists; (split; [reflexivity | reflexivity]).
  - exists m. split; [exact Hm|].
    split; [rewrite Hy | rewrite Hl]; reflexivity.
Defined.

Lemma side_levels_array (items : list json) (key : string) :
  items <> [] ->
  side_levels (or_default (Some (JArr items)) (JObj [])) key
  = Raise AttributeError.
Proof. destruct items; [contradiction | reflexivity]. Qed.

(** The two orderbook readers disagree on the document.  On the document
    that the suite's parser reads, each side an array of
    [price, quantity] levels, [OrderBook.from_api] raises AttributeError
    as soon as a side has a level, and returns the empty book when both
    sides are empty.  It reads the levels when each side is an object
    with ["bids"] and ["asks"]. *)
Theorem orderbook_from_api_document (ticker : string)
  (ob : orderbook_agent.Book) :
  (orderbook_agent._parse_orderbook ticker (orderbook_agent.Bare ob) <> None ->
   OrderBook_from_api ticker (book_json ob) = Raise AttributeError) /\
  (orderbook_agent._parse_orderbook ticker (orderbook_agent.Bare ob) = None ->
   OrderBook_from_api ticker (book_json ob)
   = Ok {| book_ticker := ticker;
           yes_bids := JArr []; yes_asks := JArr [];
           no_bids := JArr []; no_asks := JArr [] |}) /\
  (forall bids asks,
     bids <> [] ->
     exists book,
       OrderBook_from_api ticker
         (JObj [("yes", JObj [("bids", JArr bids); ("asks", JArr asks)])])
       = Ok book /\
       yes_bids book = JArr bids /\ no_bids book = JArr []).
Proof.
  split; [|split].
  - unfold orderbook_agent._parse_orderbook, OrderBook_from_api, book_json.
    destruct ob as [ys ns]. cbn [orderbook_agent.yes orderbook_agent.no].
    destruct ys as [|y ys]; destruct ns as [|n ns]; intro H;
      try (exfalso; apply H; reflexivity); reflexivity.
  - unfold orderbook_agent._parse_orderbook, OrderBook_from_api, book_json.
    destruct ob as [ys ns]. cbn [orderbook_agent.yes orderbook_agent.no].
    destruct ys as [|y ys]; destruct ns as [|n ns]; intro H;
      try discriminate H; reflexivity.
  - intros bids asks Hb. destruct bids as [|b bs]; [contradiction|].
    destruct asks; eexists; (split; [reflexivity|]); split; reflexivity.
Qed.

Lemma orderbook_from_api_document_witness :
  OrderBook_from_api "KXTEST" (book_json void_book) = Raise AttributeError.
Proof.
  apply (proj1 (orderbook_from_api_document "KXTEST" void_book)).
  discriminate.
Defined.

End ClientModelFacts.

(** ** The cycle: merging, bankroll *)

Module CycleMore.

Import config risk_execution_agent orchestrator spec observed.

Lemma process_signals_nil (cfg : SuiteConfig) (now : string) (bankroll : Q)
  (w : World) : process_signals cfg now [] bankroll w = (Ok [], w).
Proof. reflexivity. Qed.

Lemma run_cycle_all_returned (cfg : SuiteConfig) (now : string)
  (ob nlp arb : list Signal) (bankroll : Q) (w : World) :
  run_cycle cfg now (Ok ob) (Ok nlp) (Ok arb) bankroll w
  = process_signals cfg now (ob ++ nlp ++ arb) bankroll w.
Proof.
  unfold run_cycle, run_cycle_with. cbn [gather bind list_part].
  destruct (ob ++ nlp ++ arb); reflexivity.
Qed.

(** When the three producers return, the cycle sizes and executes their
    signals as one batch in the order orderbook, news, arbitrage.  In
    paper mode such a cycle sends nothing to the exchange and consumes
    no answer; it only appends to the journal. *)
Theorem run_cycle_merges_in_order (cfg : SuiteConfig) (now : string)
  (ob nlp arb : list Signal) (bankroll : Q) (w : World) :
  run_cycle cfg now (Ok ob) (Ok nlp) (Ok arb) bankroll w
  = process_signals cfg now (ob ++ nlp ++ arb) bankroll w /\
  (paper_trading cfg = true ->
   exists orders lines,
     run_cycle cfg now (Ok ob) (Ok nlp) (Ok arb) bankroll w
     = (Ok orders,
        {| key_material := key_material w;
           pending := pending w; sent := sent w; sleeps := sleeps w;
           journal := journal w ++ lines |}) /\
     List.length lines = List.length orders).
Proof.
  split; [apply run_cycle_all_returned|].
  intro Hp. rewrite run_cycle_all_returned.
  destruct (BatchFacts.process_signals_paper_effects cfg now bankroll
              (ob ++ nlp ++ arb) Hp w)
    as [orders [lines [Hr [Hm _]]]].
  exists orders, lines. split; [exact Hr|].
  rewrite <- (length_map j_ticker), Hm, length_map. reflexivity.
Qed.

Lemma run_cycle_merges_in_order_witness :
  exists orders lines,
    run_cycle load_config cycle_instant (Ok []) (Ok [news_signal]) (Ok [])
      5000 (fresh_world [])
    = (Ok orders,
       {| key_material := usable_key;
          pending := []; sent := []; sleeps := []; journal := lines |}) /\
    List.length lines = List.length orders.
Proof.
  exact (proj2 (run_cycle_merges_in_order load_config cycle_instant []
                  [news_signal] [] 5000 (fresh_world [])) eq_refl).
Defined.

Lemma size_without_capital (cfg : SuiteConfig) (s : Signal) (bankroll : Q) :
  bankroll <= 0 ->
  exists k, size cfg s bankroll = Ok k /\ should_trade k = false.
Proof.
  intro Hb.
  destruct (Qlt_le_dec 0 (side_market_price s)) as [H0 | H0];
    [destruct (Qlt_le_dec (side_market_price s) 1) as [H1 | H1]|].
  - destruct (SizingFacts.size_accepts cfg s bankroll H0 H1) as [f [_ Hs]].
    eexists. split; [exact Hs|]. cbn [should_trade].
    match goal with
    | |- _ && Qltb 0 ?x = false =>
        assert (Hx : Qltb 0 x = false)
    end.
    { apply Qltb_ge.
      pose proof (SizingMore.py_max_lower 0
                    (f * config.kelly_fraction cfg)) as Hm.
      set (u := py_max 0 (f * config.kelly_fraction cfg)) in *.
      assert (Hu : u * bankroll <= 0) by nra.
      unfold py_min.
      destruct (Qltb (max_position_usd cfg) (u * bankroll)) eqn:E;
        [apply Qltb_lt in E; lra | exact Hu]. }
    rewrite Hx. apply andb_false_r.
  - exists rejected. split; [|reflexivity].
    apply SizingFacts.size_rejects. intros [_ H]. lra.
  - exists rejected. split; [|reflexivity].
    apply SizingFacts.size_rejects. intros [H _]. lra.
Qed.

(** Without capital nothing is ordered.  With a bankroll of zero or
    less, no signal sizes to a trade: a batch returns no order and leaves
    the world untouched, in paper and in live mode, and so does a cycle
    whose producers return. *)
Theorem no_capital_no_orders (cfg : SuiteConfig) (now : string)
  (bankroll : Q) (w : World) :
  bankroll <= 0 ->
  (forall signals,
     process_signals cfg now signals bankroll w = (Ok [], w)) /\
  (forall ob nlp arb,
     run_cycle cfg now (Ok ob) (Ok nlp) (Ok arb) bankroll w = (Ok [], w)).
Proof.
  intro Hb.
  assert (Hbatch : forall signals,
            process_signals cfg now signals bankroll w = (Ok [], w)).
  { induction signals as [|sg rest IH]; [reflexivity|].
    cbn [process_signals].
    destruct (size_without_capital cfg sg bankroll Hb) as [k [Hk Ht]].
    rewrite Hk, (OrderFacts.build_order_skips cfg now sg k Ht). exact IH. }
  split; [exact Hbatch|].
  intros ob nlp arb. rewrite run_cycle_all_returned. apply Hbatch.
Qed.

Lemma no_capital_no_orders_witness :
  process_signals live_config cycle_instant [news_signal] 0
    (fresh_world [Ok (ok_response (JObj []))])
  = (Ok [], fresh_world [Ok (ok_response (JObj []))]).
Proof.
  apply (proj1 (no_capital_no_orders live_config cycle_instant 0
                  (fresh_world [Ok (ok_response (JObj []))])
                  ltac:(discriminate))).
Defined.

(** The starting bankroll.  Paper mode takes ten times the position cap
    and sends nothing, whatever the key material.  Live mode needs a key
    that the gateway can sign with (a raw seed): it then sends one GET
    for the balance; a 2xx answer with a numeric balance in cents gives
    that balance in dollars, an answer without the key gives a bankroll
    of zero, and an answer that is not 2xx raises out of the startup.
    With any other key material the startup raises before anything is
    sent: ValueError with no key configured, UnboundLocalError with a
    PEM key. *)
Theorem starting_bankroll_sources (cfg : SuiteConfig) (w : World) :
  (paper_trading cfg = true ->
   starting_bankroll cfg w = (Ok (max_position_usd cfg * 10), w)) /\
  (paper_trading cfg = false ->
   key_material w = usable_key ->
   forall resp rest,
     pending w = Ok resp :: rest ->
     let w1 := {| key_material := key_material w;
                  pending := rest;
                  sent := sent w ++ [{| req_method := "GET";
                                        req_path := "/portfolio/balance";
                                        req_json := None |}];
                  sleeps := sleeps w; journal := journal w |} in
     (forall fields cents,
        is_2xx resp -> body resp = Ok (JObj fields) ->
        dict_get fields "balance" = Some (JNum cents) ->
        Qabs (cents / 100) < float_overflow ->
        starting_bankroll cfg w = (Ok (cents / 100), w1)) /\
     (forall fields,
        is_2xx resp -> body resp = Ok (JObj fields) ->
        dict_get fields "balance" = None ->
        starting_bankroll cfg w = (Ok (0 / 100), w1)) /\
     (~ is_2xx resp ->
        starting_bankroll cfg w
        = (Raise (HTTPStatusError (status_code resp)), w1))) /\
  (paper_trading cfg = false ->
   (key_material w = KeyUnset ->
    starting_bankroll cfg w = (Raise ValueError, w)) /\
   (forall key,
      key_material w = KeyFile (Ok key) \/
      key_material w = KeyB64 (PemPayload key) ->
      starting_bankroll cfg w = (Raise UnboundLocalError, w)) /\
   (key_material w <> usable_key ->
    exists e, starting_bankroll cfg w = (Raise e, w))).
Proof.
  destruct (BatchFacts.ensure_auth_cases w) as [Hauth [Hunset Hpem]].
  split; [|split].
  - intro Hp. unfold starting_bankroll. rewrite Hp. reflexivity.
  - intros Hp Hk resp rest Hpend w1. unfold starting_bankroll. rewrite Hp.
    apply Hauth in Hk.
    unfold suite_client._request, send. rewrite Hk, Hpend.
    assert (Hok : is_2xx resp -> suite_client.raise_for_status resp = Ok tt).
    { unfold suite_client.raise_for_status, is_2xx. intros [Ha Hb].
      apply Z.leb_le in Ha. apply Z.ltb_lt in Hb.
      rewrite Ha, Hb. reflexivity. }
    split; [|split].
    + intros fields cents H2 Hb Hf Hr.
      rewrite (Hok H2), Hb, Hf. cbn [truediv100].
      apply Qle_bool_false in Hr. rewrite Hr. reflexivity.
    + intros fields H2 Hb Hf.
      rewrite (Hok H2), Hb, Hf. reflexivity.
    + intro Hn.
      assert (Hs : suite_client.raise_for_status resp
                   = Raise (HTTPStatusError (status_code resp))).
      { unfold suite_client.raise_for_status, is_2xx in *.
        destruct ((200 <=? status_code resp)%Z) eqn:E1;
          destruct ((status_code resp <? 300)%Z) eqn:E2; try reflexivity.
        exfalso. apply Hn.
        split; [apply Z.leb_le | apply Z.ltb_lt]; assumption. }
      rewrite Hs. reflexivity.
  - intro Hp. unfold starting_bankroll. rewrite Hp.
    unfold suite_client._request.
    split; [|split].
    + intro Hk. rewrite (Hunset Hk). reflexivity.
    + intros key Hk. rewrite (Hpem key Hk). reflexivity.
    + intro Hk.
      destruct (suite_client._ensure_auth w) as [[]|e] eqn:Ea.
      * exfalso. apply Hk, Hauth. reflexivity.
      * exists e. reflexivity.
Qed.

Lemma starting_bankroll_sources_witness :
  starting_bankroll load_config (fresh_world []) = (Ok 5000, fresh_world [])
  /\
  fst (starting_bankroll live_config
         (fresh_world [Ok (ok_response (JObj [("balance", JNum 5000)]))]))
  = Ok (5000 / 100).
Proof.
  split.
  - exact (proj1 (starting_bankroll_sources load_config (fresh_world []))
             eq_refl).
  - rewrite (proj1 (proj1 (proj2 (starting_bankroll_sources live_config
                (fresh_world
                   [Ok (ok_response (JObj [("balance", JNum 5000)]))])))
              eq_refl eq_refl _ _ eq_refl)
             [("balance", JNum 5000)] 5000).
    + reflexivity.
    + unfold is_2xx. cbn. lia.
    + reflexivity.
    + reflexivity.
    + reflexivity.
Defined.

End CycleMore.

(** ** Instances of the producer invariants *)

Module InvariantInstances.

Import config spec observed.

Lemma nlp_signal_invariant_witness :
  Forall signal_invariant
    (nlp_agent.signals_of_raw load_config "FED_RSS" (fun _ => ["KXFED-26"])
       {| nlp_agent.ticker_keyword := JStr "FED";
          nlp_agent.raw_side := JStr "no";
          nlp_agent.prob_shift := - (2 # 10);
          nlp_agent.raw_confidence := 7 # 10;
          nlp_agent.raw_rationale := JStr "rates held" |}).
Proof.
  apply Forall_forall. intros sg Hin.
  exact (SignalFacts.nlp_signal_invariant load_config "FED_RSS"
           (fun _ => ["KXFED-26"]) _ sg Hin).
Defined.

Lemma arbitrage_yes_signal_invariant_witness :
  exists sg,
    arbitrage_agent.pair_signal (fun _ => None) load_config
      {| arbitrage_agent.km_ticker := "KXRAIN-26";
         arbitrage_agent.km_yes_price := Some 40%Z;
         arbitrage_agent.km_last_price := None |}
      [("yes_price", JNum (6 # 10))] = Ok (Some sg) /\
    side sg = YES /\ signal_invariant sg.
Proof.
  eexists. split; [vm_compute; reflexivity|]. split; [reflexivity|].
  match goal with
  | |- signal_invariant ?s =>
      exact (SignalFacts.arbitrage_yes_signal_invariant (fun _ => None)
               load_config
               {| arbitrage_agent.km_ticker := "KXRAIN-26";
                  arbitrage_agent.km_yes_price := Some 40%Z;
                  arbitrage_agent.km_last_price := None |}
               [("yes_price", JNum (6 # 10))] s
               ltac:(vm_compute; reflexivity) eq_refl)
  end.
Defined.

End InvariantInstances.
